(** * process_videos.py: the batch video pipeline and its failure policy

    A shallow embedding of [src/process_videos.py].  The orchestrator is
    a sequential Python program that drives external tools (the
    database, curl, ffprobe, ffmpeg, two shell scripts and the object
    store).  The program itself is embedded as functions in a
    state-and-exception monad over a [World] (database table, scratch
    directories, bucket, a counter of external interactions); the tools
    are a record of oracles indexed by that counter, and every theorem
    holds for all oracles. *)

From Stdlib Require Import ZArith QArith Qround String Ascii List Bool Lia.
From Stdlib Require Import Sorting.Sorted Sorting.Permutation.
From Stdlib Require Import DecimalString DecimalNat DecimalZ.
From Stdlib Require Import Floats.SpecFloat Zpower.
From stdpp Require Import gmap strings.

Set Warnings "-register-all".

Open Scope string_scope.
Open Scope Z_scope.

(* ===================================================================== *)
(** * Python values *)
(* ===================================================================== *)

(** ** Exceptions

    The exception classes that the program raises or that the Python
    runtime raises on its behalf.  Every handler of the source is
    [except Exception], apart from the two handlers around the duration
    probe of [process_videos]; all of them return the same failure
    value, so the class is only carried for reading. *)
Inductive exn :=
| ValueError | TypeError | AttributeError | OverflowError
| OSError | CalledProcessError | DatabaseError | ClientError
| PlainException.

Inductive result (A : Type) :=
| Ok (a : A)
| Raise (e : exn).
Arguments Ok {A} a.
Arguments Raise {A} e.

(** ** Floats

    A Python [float] is an IEEE 754 binary64 number: the specification
    floats of the standard library at precision 53 and maximal exponent
    1024, with the round-to-nearest-even operations defined there. *)
Module Float.

Definition prec : Z := 53.
Definition emax : Z := 1024.
(** The exponent of the subnormal numbers, [3 - emax - prec]. *)
Definition emin : Z := -1074.

Definition t := spec_float.

Definition valid (x : t) : bool := valid_binary prec emax x.

Definition mul (x y : t) : t := SFmul prec emax x y.
Definition sub (x y : t) : t := SFsub prec emax x y.
Definition ltb (x y : t) : bool := SFltb x y.
Definition leb (x y : t) : bool := SFleb x y.
Definition eqb (x y : t) : bool := SFeqb x y.

Definition zero : t := S754_zero false.
(** [2.0], [4.0], [15.0], [40.0] in canonical form. *)
Definition two : t := S754_finite false 4503599627370496 (-51).
Definition four : t := S754_finite false 4503599627370496 (-50).
Definition fifteen : t := S754_finite false 8444249301319680 (-49).
Definition forty : t := S754_finite false 5629499534213120 (-47).

(** The integer [n] as a float (exact for the small values used in
    examples). *)
Definition of_Z (n : Z) : t := binary_normalize prec emax n 0 false.

(** The rational number a float denotes; infinities and NaN denote
    none. *)
Definition value (x : t) : option Q :=
  match x with
  | S754_zero _ => Some (inject_Z 0)
  | S754_finite s m e =>
      Some (match e with
            | Z0 => inject_Z (cond_Zopp s (Zpos m))
            | Zpos p => inject_Z (cond_Zopp s (Zpos m) * 2 ^ Zpos p)
            | Zneg p => Qmake (cond_Zopp s (Zpos m)) (2 ^ p)%positive
            end)
  | S754_infinity _ | S754_nan => None
  end.

(** The sign of a float that is a number or an infinity. *)
Definition has_sign (s : bool) (x : t) : Prop :=
  match x with
  | S754_zero s' | S754_infinity s' | S754_finite s' _ _ => s' = s
  | S754_nan => False
  end.

Definition nonzero (x : t) : Prop :=
  match x with
  | S754_zero _ => False
  | _ => True
  end.

(** Python's [int(x)]: truncation toward zero, [OverflowError] on an
    infinity, [ValueError] on NaN. *)
Definition to_int (x : t) : result Z :=
  match x with
  | S754_zero _ => Ok 0
  | S754_finite s m e => Ok (cond_Zopp s (Z.shiftl (Zpos m) e))
  | S754_infinity _ => Raise OverflowError
  | S754_nan => Raise ValueError
  end.

End Float.

(** ** Strings

    A Python [str] is modelled by its sequence of characters; the
    characters of [string] cover the code points 0 to 255. *)
Module Str.

(** [str.isspace] on one character of that range. *)
Definition is_space (c : ascii) : bool :=
  let n := nat_of_ascii c in
  ((9 <=? n)%nat && (n <=? 13)%nat) || ((28 <=? n)%nat && (n <=? 32)%nat)
  || (n =? 133)%nat || (n =? 160)%nat.

Fixpoint lstrip (s : string) : string :=
  match s with
  | String c s' => if is_space c then lstrip s' else s
  | EmptyString => EmptyString
  end.

Fixpoint rev_onto (s acc : string) : string :=
  match s with
  | String c s' => rev_onto s' (String c acc)
  | EmptyString => acc
  end.

Definition rev (s : string) : string := rev_onto s "".

(** [s.strip()]. *)
Definition strip (s : string) : string := rev (lstrip (rev (lstrip s))).

(** [s[:n]]. *)
Fixpoint take (n : nat) (s : string) : string :=
  match n, s with
  | S n', String c s' => String c (take n' s')
  | _, _ => EmptyString
  end.

(** [str.isalnum] on one character of the range 0 to 255: the ASCII
    digits and letters, and the Latin-1 letters, superscript digits
    and vulgar fractions. *)
Definition is_alnum (c : ascii) : bool :=
  let n := nat_of_ascii c in
  ((48 <=? n)%nat && (n <=? 57)%nat)
  || ((65 <=? n)%nat && (n <=? 90)%nat)
  || ((97 <=? n)%nat && (n <=? 122)%nat)
  || (n =? 170)%nat || (n =? 178)%nat || (n =? 179)%nat || (n =? 181)%nat
  || (n =? 185)%nat || (n =? 186)%nat
  || ((188 <=? n)%nat && (n <=? 190)%nat)
  || ((192 <=? n)%nat && (n <=? 214)%nat)
  || ((216 <=? n)%nat && (n <=? 246)%nat)
  || ((248 <=? n)%nat && (n <=? 255)%nat).

Fixpoint all_chars (p : ascii -> bool) (s : string) : bool :=
  match s with
  | String c s' => p c && all_chars p s'
  | EmptyString => true
  end.

(** [str(n)] for a natural number and for an integer. *)
Definition of_nat (n : nat) : string := NilEmpty.string_of_uint (Nat.to_uint n).
Definition of_Z (z : Z) : string := NilZero.string_of_int (Z.to_int z).

End Str.

(** ** Text read from a file

    A [str] that comes out of a text file can hold any code point, so
    it is kept as the list of its code points.  A text file is opened
    with [encoding='utf-8'] and the default newline handling: its bytes
    are decoded as UTF-8, strictly, and every [\r\n] and every [\r]
    left is turned into [\n]. *)
Module Text.

Definition t := list N.

(** A [str] of the range 0 to 255 as a text, and the bytes of a file. *)
Definition of_string (s : string) : t := map N_of_ascii (list_ascii_of_string s).

Definition quote : N := 39.
Definition colon : N := 58.
Definition backslash : N := 92.

(** [str.isspace] on one code point. *)
Definition is_space (c : N) : bool :=
  (((9 <=? c) && (c <=? 13)) || ((28 <=? c) && (c <=? 32))
   || (c =? 133) || (c =? 160) || (c =? 5760)
   || ((8192 <=? c) && (c <=? 8202))
   || (c =? 8232) || (c =? 8233) || (c =? 8239) || (c =? 8287) || (c =? 12288))%N.

Fixpoint lstrip (s : t) : t :=
  match s with
  | c :: s' => if is_space c then lstrip s' else s
  | [] => []
  end.

(** [s.strip()] *)
Definition strip (s : t) : t := List.rev (lstrip (List.rev (lstrip s))).

(** [s.replace(c, by)] for a one-character pattern. *)
Fixpoint replace (c : N) (by_ : t) (s : t) : t :=
  match s with
  | d :: s' => if (c =? d)%N then (by_ ++ replace c by_ s')%list else d :: replace c by_ s'
  | [] => []
  end.

(** A text without NUL character, as [subprocess.run] requires of an
    argument. *)
Definition nul_free (s : t) : bool := forallb (fun c => negb (c =? 0)%N) s.

(** A continuation byte, [10xxxxxx]. *)
Definition continuation (b : N) : bool := ((128 <=? b) && (b <=? 191))%N.

(** The strict UTF-8 decoder: no overlong form, no surrogate, nothing
    above U+10FFFF, no truncated sequence; [None] stands for
    [UnicodeDecodeError]. *)
Fixpoint utf8_decode (bytes : list N) : option t :=
  match bytes with
  | [] => Some []
  | b0 :: r0 =>
      if (b0 <? 128)%N then option_map (cons b0) (utf8_decode r0)
      else if ((194 <=? b0) && (b0 <=? 223))%N then
        match r0 with
        | b1 :: r1 =>
            if continuation b1
            then option_map (cons ((b0 - 192) * 64 + (b1 - 128))%N) (utf8_decode r1)
            else None
        | [] => None
        end
      else if ((224 <=? b0) && (b0 <=? 239))%N then
        match r0 with
        | b1 :: b2 :: r2 =>
            if ((if b0 =? 224 then 160 else 128) <=? b1)%N
               && (b1 <=? (if b0 =? 237 then 159 else 191))%N
               && continuation b2
            then option_map
                   (cons ((b0 - 224) * 4096 + (b1 - 128) * 64 + (b2 - 128))%N)
                   (utf8_decode r2)
            else None
        | _ => None
        end
      else if ((240 <=? b0) && (b0 <=? 244))%N then
        match r0 with
        | b1 :: b2 :: b3 :: r3 =>
            if ((if b0 =? 240 then 144 else 128) <=? b1)%N
               && (b1 <=? (if b0 =? 244 then 143 else 191))%N
               && continuation b2 && continuation b3
            then option_map
                   (cons ((b0 - 240) * 262144 + (b1 - 128) * 4096
                          + (b2 - 128) * 64 + (b3 - 128))%N)
                   (utf8_decode r3)
            else None
        | _ => None
        end
      else None
  end.

(** Universal newlines: [\r\n] and a lone [\r] are read as [\n]. *)
Fixpoint universal_newlines (s : t) : t :=
  match s with
  | [] => []
  | c :: rest =>
      if (c =? 13)%N then
        10%N :: match rest with
                | d :: rest' =>
                    if (d =? 10)%N then universal_newlines rest'
                    else universal_newlines rest
                | [] => []
                end
      else c :: universal_newlines rest
  end.

(** [open(path, 'r', encoding='utf-8').read()] on the bytes of a file. *)
Definition read (data : string) : option t :=
  option_map universal_newlines (utf8_decode (of_string data)).

End Text.

(** ** JSON values

    A product's [video_data] column arrives decoded: [None], a [bool],
    a number, a [str], a [list] or a [dict].  A [dict] is kept as its
    list of items; [dict_get] returns the first item of a key. *)
Inductive json :=
| JNull
| JBool (b : bool)
| JInt (n : Z)
| JFloat (f : Float.t)
| JStr (s : string)
| JArr (items : list json)
| JObj (items : list (string * json)).

Fixpoint assoc_get (k : string) (items : list (string * json)) : option json :=
  match items with
  | [] => None
  | (k', v) :: rest => if String.eqb k k' then Some v else assoc_get k rest
  end.

(** [d.get(k, default)] on a value already known to be a [dict]. *)
Definition dict_get (items : list (string * json)) (k : string) (default : json) : json :=
  match assoc_get k items with
  | Some v => v
  | None => default
  end.

(** [x.get(k, default)] on any value: only a [dict] has [get]. *)
Definition py_get (x : json) (k : string) (default : json) : result json :=
  match x with
  | JObj items => Ok (dict_get items k default)
  | _ => Raise AttributeError
  end.

(** Truth value of a Python object ([bool(x)]). *)
Definition truthy (x : json) : bool :=
  match x with
  | JNull => false
  | JBool b => b
  | JInt n => negb (n =? 0)%Z
  | JFloat f => match f with S754_zero _ => false | _ => true end
  | JStr s => negb (String.eqb s "")
  | JArr items => match items with [] => false | _ => true end
  | JObj items => match items with [] => false | _ => true end
  end.

Definition is_dict (x : json) : bool :=
  match x with JObj _ => true | _ => false end.

Definition is_list (x : json) : bool :=
  match x with JArr _ => true | _ => false end.

(** The keys of a [dict], each once, in the order of first occurrence. *)
Fixpoint dict_keys (items : list (string * json)) : list string :=
  match items with
  | [] => []
  | (k, _) :: rest => k :: List.filter (fun k' => negb (String.eqb k k')) (dict_keys rest)
  end.

(** [len(x)], for the values that have a length. *)
Definition py_len (x : json) : result nat :=
  match x with
  | JStr s => Ok (String.length s)
  | JArr items => Ok (List.length items)
  | JObj items => Ok (List.length (dict_keys items))
  | _ => Raise TypeError
  end.

(* ===================================================================== *)
(** * ScriptBudgeter *)
(* ===================================================================== *)

(** Default of the parameter [chars_per_second]. *)
Definition default_chars_per_second : Float.t := Float.fifteen.

(** [calculate_target_script_length]:
    [int(video_duration * chars_per_second)]. *)
Definition calculate_target_script_length
    (video_duration chars_per_second : Float.t) : result Z :=
  Float.to_int (Float.mul video_duration chars_per_second).

(** What the specification asks for: the floor of the product, as a
    rational number; a product that is no number has no floor. *)
Definition floor_of_product (d r : Float.t) : option Z :=
  match Float.value (Float.mul d r) with
  | Some q => Some (Qfloor q)
  | None => None
  end.

(* ===================================================================== *)
(** * CaptionComposer: font size *)
(* ===================================================================== *)

(** The [if]/[elif]/[else] of [add_text_overlay] on [text_length]. *)
Definition fontsize_of_length (text_length : nat) : Z :=
  if (70 <? text_length)%nat then 28
  else if (50 <? text_length)%nat then 32
  else 38.

Definition choose_fontsize (overlay_text : string) : Z :=
  fontsize_of_length (String.length overlay_text).

(* ===================================================================== *)
(** * The world the program runs in *)
(* ===================================================================== *)

(** ** Files

    The re-encode target shared by the trim and the concatenation:
    [-c:v libx264 -preset medium -crf 23 -c:a aac -b:a 128k -ar 48000
    -r 30]. *)
Record av_profile := {
  vcodec : string; preset : string; crf : Z;
  acodec : string; abitrate : string; arate : Z;
  fps : Z
}.

Definition target_profile : av_profile := {|
  vcodec := "libx264"; preset := "medium"; crf := 23;
  acodec := "aac"; abitrate := "128k"; arate := 48000;
  fps := 30
|}.

(** What a file holds.  Bytes written by curl, by a shell script or by
    Python are kept as they are; a file written by ffmpeg is described
    by the job that produced it (the transcoding engine is a
    capability, its output is not interpreted). *)
Inductive content :=
| Bytes (data : string)
  (** [ffmpeg -i src -ss ss -t t <profile> -y out] *)
| TrimClip (src : content) (ss : Z) (t : Float.t) (p : av_profile)
  (** [ffmpeg -f concat -safe 0 -i list <profile> -movflags +faststart -y out] *)
| ConcatClip (parts : list content) (p : av_profile)
  (** [ffmpeg -i src -ar ar -ac ac -c:a codec -b:a bitrate -y out] *)
| AudioTrack (src : content) (ar ac : Z) (codec bitrate : string)
  (** [ffmpeg -i video -i audio -map 0:v -map 1:a -c:v ... -c:a copy -shortest -y out] *)
| MuxClip (video audio : content) (vc vpreset : string) (vcrf : Z)
  (** [ffmpeg -i src -vf drawtext=... -c:a copy -y out] *)
| OverlayClip (src : content) (escaped_text : Text.t) (fontsize : Z).

Definition file_size (c : content) : option nat :=
  match c with
  | Bytes data => Some (String.length data)
  | _ => None
  end.

Inductive dir := Videos | Output | Scripts.

Definition path : Type := dir * string.

(** ** The database table [public.products] *)
Record Row := {
  row_id : Z;
  video_data : json;
  crawl_status : bool;
  merge_status : bool;
  r2_video_url : option string;
  processed_at : option string
}.

(** ** The bucket *)
Record R2Object := {
  o_bucket : string;
  o_key : string;
  o_body : content;
  o_content_type : string;
  o_metadata : list (string * string)
}.

(** ** The state

    [w_tick] counts the interactions with the outside (database
    statements, subprocesses, clock reads, uploads) made so far. *)
Record World := {
  w_environ : gmap string string;
  w_db : list Row;
  w_videos : option (gmap string content);
  w_output : option (gmap string content);
  w_scripts : option (gmap string content);
  w_video_data_json : option json;
  w_bucket : list R2Object;
  w_tick : nat
}.

Definition get_dir (d : dir) (w : World) : option (gmap string content) :=
  match d with
  | Videos => w_videos w
  | Output => w_output w
  | Scripts => w_scripts w
  end.

Definition set_dir (d : dir) (v : option (gmap string content)) (w : World) : World :=
  match d with
  | Videos =>
      {| w_environ := w_environ w; w_db := w_db w; w_videos := v;
         w_output := w_output w; w_scripts := w_scripts w;
         w_video_data_json := w_video_data_json w;
         w_bucket := w_bucket w; w_tick := w_tick w |}
  | Output =>
      {| w_environ := w_environ w; w_db := w_db w; w_videos := w_videos w;
         w_output := v; w_scripts := w_scripts w;
         w_video_data_json := w_video_data_json w;
         w_bucket := w_bucket w; w_tick := w_tick w |}
  | Scripts =>
      {| w_environ := w_environ w; w_db := w_db w; w_videos := w_videos w;
         w_output := w_output w; w_scripts := v;
         w_video_data_json := w_video_data_json w;
         w_bucket := w_bucket w; w_tick := w_tick w |}
  end.

Definition set_db (db : list Row) (w : World) : World :=
  {| w_environ := w_environ w; w_db := db; w_videos := w_videos w;
     w_output := w_output w; w_scripts := w_scripts w;
     w_video_data_json := w_video_data_json w;
     w_bucket := w_bucket w; w_tick := w_tick w |}.

Definition set_video_data_json (j : option json) (w : World) : World :=
  {| w_environ := w_environ w; w_db := w_db w; w_videos := w_videos w;
     w_output := w_output w; w_scripts := w_scripts w;
     w_video_data_json := j;
     w_bucket := w_bucket w; w_tick := w_tick w |}.

Definition set_bucket (b : list R2Object) (w : World) : World :=
  {| w_environ := w_environ w; w_db := w_db w; w_videos := w_videos w;
     w_output := w_output w; w_scripts := w_scripts w;
     w_video_data_json := w_video_data_json w;
     w_bucket := b; w_tick := w_tick w |}.

Definition set_tick (n : nat) (w : World) : World :=
  {| w_environ := w_environ w; w_db := w_db w; w_videos := w_videos w;
     w_output := w_output w; w_scripts := w_scripts w;
     w_video_data_json := w_video_data_json w;
     w_bucket := w_bucket w; w_tick := n |}.

(** The file at a path, if the directory and the file exist. *)
Definition file_at (p : path) (w : World) : option content :=
  match get_dir (fst p) w with
  | Some files => files !! snd p
  | None => None
  end.

(** ** The tools

    Each oracle is asked at the current tick, so that the same request
    may be answered differently when repeated.  The tools are taken to
    be installed: a subprocess that cannot be started at all is outside
    the model; a tool that runs and fails is inside it. *)
Record curl_result := {
  curl_stdout : string;          (** what [-w %{http_code}] printed *)
  curl_body : option string      (** the bytes written to [-o], if any *)
}.

Record probe_result := {
  probe_ok : bool;                    (** return code 0 *)
  probe_duration : option Float.t     (** [float(stdout.strip())], if it parses *)
}.

Record script_call := {
  sc_environ : gmap string string;
  sc_endpoint : string;
  sc_model : string;
  sc_api_key : string;
  sc_target_script_length : Z;
  sc_video_duration : Float.t;
  sc_video_data : option json
}.

Record script_result := {
  gs_ok : bool;                       (** exit status 0 *)
  gs_script : option string;          (** [scripts/generated_script.txt], if written *)
  gs_overlay : option string          (** [scripts/text_overlay.txt], if written *)
}.

Record audio_result := {
  ga_ok : bool;                       (** exit status 0 *)
  ga_voiceover : option string        (** [output/voiceover.wav], if written *)
}.

Record Tools := {
  db_statement_ok : nat -> option string -> bool;   (** connect, execute, commit *)
  db_now : nat -> string;                    (** SQL [NOW()] *)
  curl : nat -> string -> curl_result;
  ffprobe_format : nat -> content -> probe_result;
  ffprobe_stream_ok : nat -> content -> bool;
  ffmpeg_ok : nat -> content -> bool;        (** exit status 0 of the job *)
  generate_script_sh : nat -> script_call -> script_result;
  generate_audio_sh : nat -> gmap string string -> option content -> audio_result;
  strftime_now : nat -> string;              (** [%Y%m%d_%H%M%S] *)
  isoformat_now : nat -> string;
  put_object_ok : nat -> R2Object -> bool;
  (** [boto3.client('s3', endpoint_url=..., aws_access_key_id=...,
      aws_secret_access_key=..., config=...)] returns a client; the
      library raises [ValueError] for an endpoint it cannot use *)
  boto3_client_ok : option string -> option string -> option string -> bool
}.

(* ===================================================================== *)
(** * The monad of the program *)
(* ===================================================================== *)

Definition M (A : Type) : Type := World -> result A * World.

Definition ret {A} (a : A) : M A := fun w => (Ok a, w).

Definition raise {A} (e : exn) : M A := fun w => (Raise e, w).

Definition bind {A B} (m : M A) (k : A -> M B) : M B :=
  fun w =>
    match m w with
    | (Ok a, w') => k a w'
    | (Raise e, w') => (Raise e, w')
    end.

(** [try: body except Exception as e: handler]: what the body did to
    the world before raising stays done. *)
Definition try_except {A} (body : M A) (handler : exn -> M A) : M A :=
  fun w =>
    match body w with
    | (Ok a, w') => (Ok a, w')
    | (Raise e, w') => handler e w'
    end.

Definition lift {A} (r : result A) : M A := fun w => (r, w).

Declare Scope py_scope.
Delimit Scope py_scope with py.
Notation "x <- m ;; k" := (bind m (fun x => k))
  (at level 100, m at next level, right associativity) : py_scope.
Notation "m ;;; k" := (bind m (fun _ => k))
  (at level 100, right associativity) : py_scope.
Open Scope py_scope.

Definition get_world : M World := fun w => (Ok w, w).

Definition modify (f : World -> World) : M unit := fun w => (Ok tt, f w).

(** One interaction with the outside: its index. *)
Definition tick : M nat := fun w => (Ok (w_tick w), set_tick (S (w_tick w)) w).

(** [path.exists()] *)
Definition path_exists (p : path) : M bool :=
  w <- get_world ;;
  ret (match file_at p w with Some _ => true | None => false end).

(** Write (create or replace) a file; the directory has to exist. *)
Definition write_file (p : path) (c : content) : M unit :=
  w <- get_world ;;
  match get_dir (fst p) w with
  | Some files => modify (set_dir (fst p) (Some (<[snd p := c]> files)))
  | None => raise OSError
  end.

(** [path.unlink()] *)
Definition unlink (p : path) : M unit :=
  w <- get_world ;;
  match file_at p w, get_dir (fst p) w with
  | Some _, Some files => modify (set_dir (fst p) (Some (delete (snd p) files)))
  | _, _ => raise OSError
  end.

(** [open(p, 'r', encoding='utf-8').read()]: the decoded text of the
    file; bytes that are no UTF-8 raise [UnicodeDecodeError], which is
    a [ValueError]. *)
Definition read_text (p : path) : M Text.t :=
  w <- get_world ;;
  match file_at p w with
  | Some (Bytes data) =>
      match Text.read data with
      | Some text => ret text
      | None => raise ValueError
      end
  | Some _ => raise ValueError
  | None => raise OSError
  end.

(* ===================================================================== *)
(** * JobStore: selection and status writes *)
(* ===================================================================== *)

(** [WHERE merge_status = FALSE AND crawl_status = TRUE] *)
Definition pending (r : Row) : bool := negb (merge_status r) && crawl_status r.

(** [ORDER BY id] *)
Fixpoint insert_by_id (r : Row) (rows : list Row) : list Row :=
  match rows with
  | [] => [r]
  | x :: rest =>
      if (row_id r <=? row_id x)%Z then r :: rows else x :: insert_by_id r rest
  end.

Definition order_by_id (rows : list Row) : list Row :=
  fold_right insert_by_id [] rows.

(** [SELECT id, video_data FROM public.products WHERE ... ORDER BY id] *)
Definition select_pending (db : list Row) : list (Z * json) :=
  map (fun r => (row_id r, video_data r)) (order_by_id (List.filter pending db)).

(** [UPDATE public.products SET merge_status = TRUE, r2_video_url = %s,
    processed_at = NOW() WHERE id = %s] *)
Definition sql_set_merged (product_id : Z) (r2_url now : string) (db : list Row) : list Row :=
  map (fun r =>
         if (row_id r =? product_id)%Z then
           {| row_id := row_id r; video_data := video_data r;
              crawl_status := crawl_status r; merge_status := true;
              r2_video_url := Some r2_url; processed_at := Some now |}
         else r) db.

(** [UPDATE public.products SET crawl_status = %s WHERE id = %s] *)
Definition sql_set_crawl (product_id : Z) (status : bool) (db : list Row) : list Row :=
  map (fun r =>
         if (row_id r =? product_id)%Z then
           {| row_id := row_id r; video_data := video_data r;
              crawl_status := status; merge_status := merge_status r;
              r2_video_url := r2_video_url r; processed_at := processed_at r |}
         else r) db.

(* ===================================================================== *)
(** * VideoProcessor *)
(* ===================================================================== *)

(** The fields [__init__] sets from the environment; a field read with
    [os.getenv] and no default is [None] when the variable is unset.
    The working directories are the three fixed ones of [dir]. *)
Record VideoProcessor := {
  db_url : option string;
  r2_access_key : option string;
  r2_secret_key : option string;
  r2_endpoint : option string;
  r2_bucket : string;
  huggingface_endpoint : string;
  huggingface_model : string;
  huggingface_api_key : option string;
  zalo_api_key : option string
}.

(** Truth value of an optional [str] (what [os.getenv] returns, what
    [process_product] returns): [None] and the empty string are false. *)
Definition str_truthy (v : option string) : bool :=
  match v with
  | Some s => negb (String.eqb s "")
  | None => false
  end.

(** [VideoProcessor.__init__].  Its last statement builds the storage
    client from the endpoint and the two credentials; that touches
    nothing outside the process, and what the library raises leaves
    [__init__]. *)
Definition VideoProcessor_init (tools : Tools) (environ : gmap string string)
    : result VideoProcessor :=
  let db_url := environ !! "DATABASE_URL" in
  if negb (str_truthy db_url) then Raise ValueError
  else
    let r2_access_key := environ !! "R2_ACCESS_KEY_ID" in
    let r2_secret_key := environ !! "R2_SECRET_ACCESS_KEY" in
    let r2_endpoint := environ !! "R2_ENDPOINT" in
    let r2_bucket := default "yt-2-tiktok" (environ !! "R2_BUCKET_NAME") in
    if negb (forallb str_truthy [r2_access_key; r2_secret_key; r2_endpoint])
    then Raise ValueError
    else if negb (boto3_client_ok tools r2_endpoint r2_access_key r2_secret_key)
    then Raise ValueError
    else
      Ok {| db_url := db_url;
            r2_access_key := r2_access_key;
            r2_secret_key := r2_secret_key;
            r2_endpoint := r2_endpoint;
            r2_bucket := r2_bucket;
            huggingface_endpoint :=
              default "https://router.huggingface.co/v1/chat/completions"
                      (environ !! "HUGGINGFACE_ENDPOINT");
            huggingface_model :=
              default "deepseek-ai/DeepSeek-V3.2-Exp"
                      (environ !! "HUGGINGFACE_MODEL");
            huggingface_api_key := environ !! "HUGGINGFACE_API_KEY";
            zalo_api_key := environ !! "ZALO_API_KEY" |}.

Section Program.

Variable tools : Tools.
Variable self : VideoProcessor.

(** ** Working directories *)

Definition mkdir_exist_ok (d : dir) : M unit :=
  w <- get_world ;;
  match get_dir d w with
  | Some _ => ret tt
  | None => modify (set_dir d (Some ∅))
  end.

Fixpoint for_each {A} (f : A -> M unit) (l : list A) : M unit :=
  match l with
  | [] => ret tt
  | x :: rest => f x ;;; for_each f rest
  end.

Definition setup_directories : M unit :=
  for_each mkdir_exist_ok [Videos; Output; Scripts].

(** [shutil.rmtree(directory); directory.mkdir(exist_ok=True)] when
    the directory exists. *)
Definition cleanup_directories : M unit :=
  for_each (fun d =>
              w <- get_world ;;
              match get_dir d w with
              | Some _ => modify (set_dir d None) ;;; mkdir_exist_ok d
              | None => ret tt
              end)
           [Videos; Output].

(** ** Database *)

Definition get_pending_products : M (list (Z * json)) :=
  n <- tick ;;
  if db_statement_ok tools n (db_url self) then
    w <- get_world ;; ret (select_pending (w_db w))
  else raise DatabaseError.

Definition update_merge_status (product_id : Z) (r2_url : string) : M unit :=
  n <- tick ;;
  if db_statement_ok tools n (db_url self) then
    modify (fun w => set_db (sql_set_merged product_id r2_url (db_now tools n) (w_db w)) w)
  else raise DatabaseError.

Definition update_crawl_status (product_id : Z) (status : bool) : M unit :=
  n <- tick ;;
  if db_statement_ok tools n (db_url self) then
    modify (fun w => set_db (sql_set_crawl product_id status (w_db w)) w)
  else raise DatabaseError.


(** ** Downloader *)

Definition max_retries : nat := 3.

(** A string without NUL character, as [subprocess.run] requires of an
    argument. *)
Definition nul_free (u : string) : bool :=
  Str.all_chars (fun c => negb (Ascii.eqb c zero)) u.


Definition video_path (i : nat) : path := (Videos, "video_" ++ Str.of_nat i ++ ".mp4").
Definition trimmed_name (i : nat) : string := "trimmed_" ++ Str.of_nat i ++ ".mp4".
Definition trimmed_path (i : nat) : path := (Videos, trimmed_name i).

(** [result.stdout.strip() if result.stdout else '000'] *)
Definition http_code_of (stdout : string) : string :=
  if String.eqb stdout "" then "000" else Str.strip stdout.

Definition is_empty_file (c : content) : bool :=
  match c with
  | Bytes data => String.eqb data ""
  | _ => false
  end.

(** The checks that follow the curl call inside the [try]: the file
    exists, is not empty, and ffprobe accepts it. *)
Definition validate_download (output_path : path) : M unit :=
  w <- get_world ;;
  match file_at output_path w with
  | None => raise PlainException
  | Some c =>
      if is_empty_file c then raise PlainException
      else
        n <- tick ;;
        if probe_ok (ffprobe_format tools n c) then ret tt
        else raise PlainException
  end.

(** The body of the inner [try] for one attempt.  It returns the
    value of [last_http_code] after the attempt and whether the
    attempt reached [break].  A [url] that is no [str], or a [str]
    with a NUL character, makes [subprocess.run] raise before curl is
    started. *)
Definition download_attempt (url : json) (output_path : path)
    (last_http_code : option string) : M (option string * bool) :=
  match url with
  | JStr u =>
      if negb (nul_free u)
      then ret (last_http_code, false)
      else
      n <- tick ;;
      let r := curl tools n u in
      match curl_body r with
      | Some data => try_except (write_file output_path (Bytes data)) (fun _ => ret tt)
      | None => ret tt
      end ;;;
      let http_code := http_code_of (curl_stdout r) in
      ok <- try_except (validate_download output_path ;;; ret true)
                       (fun _ => ret false) ;;
      ret (Some http_code, ok)
  | _ => ret (last_http_code, false)
  end.

(** [for retry in range(max_retries)]: [None] when the loop is left
    by [break], [Some code] when it is left by
    [return (False, last_http_code)]. *)
Fixpoint download_retries (retries : list nat) (url : json) (output_path : path)
    (last_http_code : option string) : M (option (option string)) :=
  match retries with
  | [] => ret None
  | retry :: rest =>
      a <- download_attempt url output_path last_http_code ;;
      let last_http_code := fst a in
      if snd a then ret None
      else if (retry <? max_retries - 1)%nat then
        ex <- path_exists output_path ;;
        (if ex then unlink output_path else ret tt) ;;;
        download_retries rest url output_path last_http_code
      else ret (Some last_http_code)
  end.

(** The items a [for] loop over the value visits. *)
Fixpoint chars_of (s : string) : list json :=
  match s with
  | String c s' => JStr (String c "") :: chars_of s'
  | EmptyString => []
  end.

Definition py_iter (x : json) : result (list json) :=
  match x with
  | JArr items => Ok items
  | JStr s => Ok (chars_of s)
  | JObj items => Ok (map JStr (dict_keys items))
  | _ => Raise TypeError
  end.

(** [for i, video in enumerate(videos)] *)
Fixpoint download_each (i : nat) (videos : list json) : M (bool * option string) :=
  match videos with
  | [] => ret (true, None)
  | video :: rest =>
      url <- lift (py_get video "url" JNull) ;;
      r <- download_retries (seq 0 max_retries) url (video_path i) None ;;
      match r with
      | Some last_http_code => ret (false, last_http_code)
      | None => download_each (S i) rest
      end
  end.

Definition download_videos (video_data : json) : M (bool * option string) :=
  try_except
    (videos <- lift (py_get video_data "videos" (JArr [])) ;;
     items <- lift (py_iter videos) ;;
     download_each 0 items)
    (fun _ => ret (false, None)).


(** ** MediaStageRunner: trim *)

(** One round of the loop of [process_videos]: [false] stands for
    [return False], [true] for going on with the next index. *)
Definition trim_one (i : nat) : M bool :=
  let input_path := video_path i in
  let output_path := trimmed_path i in
  w <- get_world ;;
  match file_at input_path w with
  | None => ret false
  | Some src =>
      n <- tick ;;
      let r := ffprobe_format tools n src in
      if negb (probe_ok r) then ret false
      else
        match probe_duration r with
        | None => ret false
        | Some duration =>
            let new_duration := Float.sub duration Float.four in
            if Float.ltb Float.zero new_duration then
              n <- tick ;;
              let clip := TrimClip src 2 new_duration target_profile in
              if ffmpeg_ok tools n clip then
                write_file output_path clip ;;; ret true
              else ret false
            else
              write_file output_path src ;;; ret true
        end
  end.

(** [for i in range(...)] with an early [return False]. *)
Fixpoint trim_range (indices : list nat) : M bool :=
  match indices with
  | [] => ret true
  | i :: rest =>
      ok <- trim_one i ;;
      if ok then trim_range rest else ret false
  end.

Definition process_videos (video_data : json) : M bool :=
  try_except
    (videos <- lift (py_get video_data "videos" (JArr [])) ;;
     n <- lift (py_len videos) ;;
     trim_range (seq 0 n))
    (fun _ => ret false).

(** ** MediaStageRunner: concatenate *)

Definition newline : string := String (ascii_of_nat 10) "".

(** The lines written to [concat_list.txt]. *)
Fixpoint concat_lines (indices : list nat) : string :=
  match indices with
  | [] => ""
  | i :: rest => "file '" ++ trimmed_name i ++ "'" ++ newline ++ concat_lines rest
  end.

(** The files the list names, read from the directory of the list;
    none if one of them is missing. *)
Fixpoint concat_parts (indices : list nat) (w : World) : option (list content) :=
  match indices with
  | [] => Some []
  | i :: rest =>
      match file_at (trimmed_path i) w, concat_parts rest w with
      | Some c, Some cs => Some (c :: cs)
      | _, _ => None
      end
  end.

(** An ffmpeg job run with [check=True]: the output is written when
    the job exits with status 0; a job with a missing input fails. *)
Definition run_ffmpeg (job : option content) (output_path : path) : M unit :=
  n <- tick ;;
  match job with
  | Some c =>
      if ffmpeg_ok tools n c then write_file output_path c
      else raise CalledProcessError
  | None => raise CalledProcessError
  end.

Definition merge_videos (video_data : json) : M bool :=
  try_except
    (let concat_file := (Videos, "concat_list.txt") in
     videos <- lift (py_get video_data "videos" (JArr [])) ;;
     write_file concat_file (Bytes "") ;;;
     n <- lift (py_len videos) ;;
     write_file concat_file (Bytes (concat_lines (seq 0 n))) ;;;
     w <- get_world ;;
     run_ffmpeg
       (match concat_parts (seq 0 n) w with
        | Some parts => Some (ConcatClip parts target_profile)
        | None => None
        end)
       (Output, "merged_temp.mp4") ;;;
     ret true)
    (fun _ => ret false).

(** ** NarrationPipeline *)

Definition get_video_duration (video_path : path) : M Float.t :=
  try_except
    (w <- get_world ;;
     n <- tick ;;
     match file_at video_path w with
     | None => raise CalledProcessError
     | Some c =>
         let r := ffprobe_format tools n c in
         if negb (probe_ok r) then raise CalledProcessError
         else
           match probe_duration r with
           | Some duration => ret duration
           | None => raise ValueError
           end
     end)
    (fun _ => ret Float.zero).

Definition write_if (p : path) (data : option string) : M unit :=
  match data with
  | Some s => try_except (write_file p (Bytes s)) (fun _ => ret tt)
  | None => ret tt
  end.

Definition generate_script : M bool :=
  try_except
    (let merged_video := (Output, "merged_temp.mp4") in
     video_duration <- get_video_duration merged_video ;;
     if Float.eqb video_duration Float.zero then ret false
     else
       target_length <-
         lift (calculate_target_script_length video_duration default_chars_per_second) ;;
       match huggingface_api_key self with
       | None => raise TypeError
       | Some api_key =>
           w <- get_world ;;
           n <- tick ;;
           let r := generate_script_sh tools n
                      {| sc_environ := w_environ w;
                         sc_endpoint := huggingface_endpoint self;
                         sc_model := huggingface_model self;
                         sc_api_key := api_key;
                         sc_target_script_length := target_length;
                         sc_video_duration := video_duration;
                         sc_video_data := w_video_data_json w |} in
           write_if (Scripts, "generated_script.txt") (gs_script r) ;;;
           write_if (Scripts, "text_overlay.txt") (gs_overlay r) ;;;
           if gs_ok r then ret true else raise CalledProcessError
       end)
    (fun _ => ret false).

Definition generate_audio : M bool :=
  try_except
    (w <- get_world ;;
     let env :=
       match zalo_api_key self with
       | Some k => if String.eqb k "" then w_environ w
                   else <["ZALO_API_KEY" := k]> (w_environ w)
       | None => w_environ w
       end in
     let text_file := (Scripts, "generated_script.txt") in
     n <- tick ;;
     let r := generate_audio_sh tools n env (file_at text_file w) in
     write_if (Output, "voiceover.wav") (ga_voiceover r) ;;;
     if negb (ga_ok r) then raise CalledProcessError
     else
       ex <- path_exists (Output, "voiceover.wav") ;;
       ret ex)
    (fun _ => ret false).

Definition add_audio : M bool :=
  try_except
    (w <- get_world ;;
     run_ffmpeg
       (match file_at (Output, "voiceover.wav") w with
        | Some a => Some (AudioTrack a 48000 2 "aac" "192k")
        | None => None
        end)
       (Output, "voiceover_normalized.aac") ;;;
     w <- get_world ;;
     run_ffmpeg
       (match file_at (Output, "merged_temp.mp4") w,
              file_at (Output, "voiceover_normalized.aac") w with
        | Some v, Some a => Some (MuxClip v a "libx264" "medium" 23)
        | _, _ => None
        end)
       (Output, "merged_with_audio.mp4") ;;;
     ret true)
    (fun _ => ret false).

(** ** CaptionComposer *)

Definition backslash : string := String (ascii_of_nat 92) "".

(** [overlay_text.replace("'", "'\\''").replace(":", "\\:")] *)
Definition escape_text (overlay_text : Text.t) : Text.t :=
  Text.replace Text.colon [Text.backslash; Text.colon]
    (Text.replace Text.quote
       [Text.quote; Text.backslash; Text.quote; Text.quote]
       overlay_text).

(** The value of [overlay_text]: the text of the overlay file, or
    whatever the descriptor has as the name of the product. *)
Inductive overlay_value :=
| FileText (text : Text.t)
| ProductName (name : json).

(** [len(overlay_text)] *)
Definition overlay_len (v : overlay_value) : result nat :=
  match v with
  | FileText text => Ok (length text)
  | ProductName name => py_len name
  end.

(** The receiver of [overlay_text.replace]: only a [str] has it. *)
Definition overlay_str (v : overlay_value) : result Text.t :=
  match v with
  | FileText text => Ok text
  | ProductName (JStr s) => Ok (Text.of_string s)
  | ProductName _ => Raise AttributeError
  end.

Definition add_text_overlay (video_data : json) : M bool :=
  try_except
    (let overlay_file := (Scripts, "text_overlay.txt") in
     ex <- path_exists overlay_file ;;
     overlay_text <-
       (if ex then
          s <- read_text overlay_file ;; ret (FileText (Text.strip s))
        else
          info <- lift (py_get video_data "productInfo" (JObj [])) ;;
          name <- lift (py_get info "name" (JStr "Product")) ;;
          ret (ProductName name)) ;;
     w <- get_world ;;
     n <- tick ;;
     match file_at (Output, "merged_with_audio.mp4") w with
     | None => raise CalledProcessError
     | Some src =>
         if negb (ffprobe_stream_ok tools n src) then raise CalledProcessError
         else
           text_length <- lift (overlay_len overlay_text) ;;
           let fontsize := fontsize_of_length text_length in
           text <- lift (overlay_str overlay_text) ;;
           let escaped_text := escape_text text in
           (* an argument with a NUL character makes [subprocess.run]
              raise before ffmpeg is started *)
           if negb (Text.nul_free escaped_text) then raise ValueError
           else
             run_ffmpeg (Some (OverlayClip src escaped_text fontsize))
                        (Output, "final_merged_video.mp4") ;;;
             ret true
     end)
    (fun _ => ret false).

(** ** CaptionComposer: line wrapping *)

(** [text[a:b]] and [text[a:]] for [0 <= a]. *)
Definition py_slice (text : string) (a b : Z) : string :=
  String.substring (Z.to_nat a) (Z.to_nat (b - a)) text.

Definition py_slice_from (text : string) (a : Z) : string :=
  String.substring (Z.to_nat a) (String.length text - Z.to_nat a) text.

(** [text[pos] in ' ,-'] for [0 <= pos < len(text)]. *)
Definition is_break_at (text : string) (pos : Z) : bool :=
  match String.get (Z.to_nat pos) text with
  | Some c => Ascii.eqb c " " || Ascii.eqb c "," || Ascii.eqb c "-"
  | None => false
  end.

(** [for pos in [target + offset, target - offset]]: the value of
    [best_split] when the loop is left, by [break] or at its end. *)
Fixpoint scan_positions (text : string) (length current_pos : Z)
    (positions : list Z) (best_split : Z) : Z :=
  match positions with
  | [] => best_split
  | pos :: rest =>
      if (pos <? length) && (pos >? current_pos) && is_break_at text pos
      then pos
      else scan_positions text length current_pos rest best_split
  end.

(** [for offset in range(20)], left as soon as [best_split != target]. *)
Fixpoint scan_offsets (text : string) (length current_pos target : Z)
    (offsets : list Z) (best_split : Z) : Z :=
  match offsets with
  | [] => best_split
  | offset :: rest =>
      let best_split :=
        scan_positions text length current_pos
                       [target + offset; target - offset] best_split in
      if negb (best_split =? target) then best_split
      else scan_offsets text length current_pos target rest best_split
  end.

(** The rounds of [for i in range(lines - 1)] followed by the last
    [append]: the list [result_lines]. *)
Fixpoint wrap_rounds (text : string) (length chunk_size : Z) (rounds : nat)
    (current_pos : Z) : list string :=
  match rounds with
  | O => [Str.strip (py_slice_from text current_pos)]
  | S rounds' =>
      let target := current_pos + chunk_size in
      let best_split :=
        scan_offsets text length current_pos target (map Z.of_nat (seq 0 20)) target in
      Str.strip (py_slice text current_pos best_split)
        :: wrap_rounds text length chunk_size rounds' best_split
  end.

(** [sep.join(parts)] *)
Fixpoint str_join (sep : string) (parts : list string) : string :=
  match parts with
  | [] => ""
  | [x] => x
  | x :: rest => x ++ sep ++ str_join sep rest
  end.

(** What [_wrap_text] does: it returns a text, or [length // lines]
    raises [ZeroDivisionError]. *)
Inductive wrapped :=
| Wrapped (text : string)
| ZeroDivisionError.

(** [_wrap_text]; the lines are joined by a backslash followed by
    [n], which is a line break to ffmpeg. *)
Definition _wrap_text (text : string) (lines : Z) : wrapped :=
  let length := Z.of_nat (String.length text) in
  if lines =? 0 then ZeroDivisionError
  else
    let chunk_size := length / lines in
    Wrapped (str_join (backslash ++ "n")
               (wrap_rounds text length chunk_size (Z.to_nat (lines - 1)) 0)).

(** ** Publisher *)

(** One step of the generator of the slug:
    [c if c.isalnum() or c in '-_' else '_']. *)
Definition slug_piece (c : json) : result string :=
  match c with
  | JStr t =>
      let isalnum := negb (String.eqb t "") && Str.all_chars Str.is_alnum t in
      let in_dash_underscore :=
        String.eqb t "" || String.eqb t "-" || String.eqb t "_" || String.eqb t "-_" in
      Ok (if isalnum || in_dash_underscore then t else "_")
  | _ => Raise AttributeError
  end.

(** [''.join(...)] over the pieces. *)
Fixpoint slug_join (items : list json) : result string :=
  match items with
  | [] => Ok ""
  | c :: rest =>
      match slug_piece c with
      | Ok t =>
          match slug_join rest with
          | Ok u => Ok (t ++ u)
          | Raise e => Raise e
          end
      | Raise e => Raise e
      end
  end.

Definition public_url_prefix : string :=
  "https://pub-09ecd227972848afb3d86c1f7f2b57b1.r2.dev/".

Definition upload_to_r2 (video_path : path) (product_id : Z) (video_data : json)
    : M (option string) :=
  try_except
    (n <- tick ;;
     let timestamp := strftime_now tools n in
     info <- lift (py_get video_data "productInfo" (JObj [])) ;;
     name <- lift (py_get info "name" (JStr "product")) ;;
     items <- lift (py_iter name) ;;
     joined <- lift (slug_join items) ;;
     let product_name_slug := Str.take 50 joined in
     let r2_key :=
       "merged_videos/" ++ timestamp ++ "_product_" ++ Str.of_Z product_id
         ++ "_" ++ product_name_slug ++ ".mp4" in
     w <- get_world ;;
     match file_at video_path w with
     | None => raise OSError
     | Some body =>
         n <- tick ;;
         let object :=
           {| o_bucket := r2_bucket self; o_key := r2_key; o_body := body;
              o_content_type := "video/mp4";
              o_metadata := [("product_id", Str.of_Z product_id);
                             ("processed_at", isoformat_now tools n)] |} in
         n <- tick ;;
         if put_object_ok tools n object then
           modify (fun w => set_bucket (object :: w_bucket w) w) ;;;
           ret (Some (public_url_prefix ++ r2_key))
         else raise ClientError
     end)
    (fun _ => ret None).

(** ** PipelineOrchestrator *)

Definition is_none (x : json) : bool :=
  match x with JNull => true | _ => false end.

(** [not videos or not isinstance(videos, list) or len(videos) == 0] *)
Definition no_videos (videos : json) : bool :=
  negb (truthy videos) || negb (is_list videos)
  || match videos with
     | JArr items => (List.length items =? 0)%nat
     | _ => false
     end.

(** [error_code == '404'] *)
Definition is_404 (error_code : option string) : bool :=
  match error_code with
  | Some c => String.eqb c "404"
  | None => false
  end.

Definition process_product (product_id : Z) (video_data : json) : M (option string) :=
  try_except
    (if is_none video_data then ret None
     else if negb (is_dict video_data) then ret None
     else
       videos <- lift (py_get video_data "videos" (JArr [])) ;;
       if no_videos videos then ret None
       else
         info <- lift (py_get video_data "productInfo" (JObj [])) ;;
         product_name <- lift (py_get info "name" (JStr "Unknown")) ;;
         modify (set_video_data_json (Some video_data)) ;;;
         d <- download_videos video_data ;;
         let download_success := fst d in
         let error_code := snd d in
         if negb download_success then
           (if is_404 error_code then
              try_except (update_crawl_status product_id false) (fun _ => ret tt)
            else ret tt) ;;;
           ret None
         else
           ok <- process_videos video_data ;;
           if negb ok then ret None else
           ok <- merge_videos video_data ;;
           if negb ok then ret None else
           ok <- generate_script ;;
           if negb ok then ret None else
           ok <- generate_audio ;;
           if negb ok then ret None else
           ok <- add_audio ;;
           if negb ok then ret None else
           ok <- add_text_overlay video_data ;;
           if negb ok then ret None else
           upload_to_r2 (Output, "final_merged_video.mp4") product_id video_data)
    (fun _ => ret None).

Record Summary := {
  success_count : nat;
  failed_count : nat;
  skipped_count : nat
}.

Definition succeeded (s : Summary) : Summary :=
  {| success_count := S (success_count s); failed_count := failed_count s;
     skipped_count := skipped_count s |}.
Definition failed (s : Summary) : Summary :=
  {| success_count := success_count s; failed_count := S (failed_count s);
     skipped_count := skipped_count s |}.
Definition skipped (s : Summary) : Summary :=
  {| success_count := success_count s; failed_count := failed_count s;
     skipped_count := S (skipped_count s) |}.

(** The body of the [for product in products] loop of [run]. *)
Definition run_product (s : Summary) (product : Z * json) : M Summary :=
  let product_id := fst product in
  let video_data := snd product in
  if is_none video_data then ret (skipped s)
  else if negb (is_dict video_data) then ret (skipped s)
  else
    videos <- lift (py_get video_data "videos" (JArr [])) ;;
    if no_videos videos then ret (skipped s)
    else
      cleanup_directories ;;;
      r2_url <- process_product product_id video_data ;;
      if str_truthy r2_url then
        try_except
          (update_merge_status product_id (default "" r2_url) ;;;
           ret (succeeded s))
          (fun _ => ret (failed s))
      else ret (failed s).

Fixpoint run_products (s : Summary) (products : list (Z * json)) : M Summary :=
  match products with
  | [] => ret s
  | product :: rest =>
      s' <- run_product s product ;;
      run_products s' rest
  end.

(** [run]: the summary it logs, or [None] when it returns early
    because nothing is pending. *)
Definition run : M (option Summary) :=
  setup_directories ;;;
  products <- get_pending_products ;;
  match products with
  | [] => ret None
  | _ =>
      s <- run_products {| success_count := 0; failed_count := 0; skipped_count := 0 |}
                        products ;;
      ret (Some s)
  end.

End Program.

(** [main]: the exit status of the process. *)
Definition main (tools : Tools) : World -> Z * World :=
  fun w =>
    match VideoProcessor_init tools (w_environ w) with
    | Raise _ => (1, w)
    | Ok processor =>
        match run tools processor w with
        | (Ok _, w') => (0, w')
        | (Raise _, w') => (1, w')
        end
    end.

(* ===================================================================== *)
(** * Vocabulary of the statements *)
(* ===================================================================== *)

(** [keeps_db m]: running [m] does not change the table, whatever it
    returns or raises. *)
Definition keeps_db {A} (m : M A) : Prop :=
  forall w, w_db (snd (m w)) = w_db w.

(** The world after [setup_directories]: the directories that were
    missing exist and are empty. *)
Definition with_directories (w : World) : World :=
  set_dir Scripts (Some (default ∅ (w_scripts w)))
    (set_dir Output (Some (default ∅ (w_output w)))
       (set_dir Videos (Some (default ∅ (w_videos w))) w)).

(** The world after [cleanup_directories]: the videos and the output
    directory, where they exist, are empty; nothing else has changed. *)
Definition cleaned (w : World) : World :=
  set_dir Output (option_map (fun _ => ∅) (w_output w))
    (set_dir Videos (option_map (fun _ => ∅) (w_videos w)) w).

(** The world after the clean-up of a failed attempt:
    [if output_path.exists(): output_path.unlink()]. *)
Definition discard_partial (output_path : path) (w : World) : World :=
  snd ((ex <- path_exists output_path ;;
        if ex then unlink output_path else ret tt) w).




(** What [trim_one] writes for a download [src] that probes to
    [duration]: the re-encoded clip from second 2 on, of the requested
    length [duration - 4], when that length is positive; a copy of the
    download otherwise. *)
Definition trimmed_file (src : content) (duration : Float.t) : content :=
  if Float.ltb Float.zero (Float.sub duration Float.four)
  then TrimClip src 2 (Float.sub duration Float.four) target_profile
  else src.

(** The caption burnt into a final video. *)
Definition caption_of (c : content) : option Text.t :=
  match c with
  | OverlayClip _ text _ => Some text
  | _ => None
  end.

(** The probe only reports binary64 numbers. *)
Definition probe_reports_floats (tools : Tools) : Prop :=
  forall n c D, probe_duration (ffprobe_format tools n c) = Some D -> Float.valid D = true.

(** The value under [videos] of a descriptor, as the stages read it:
    [video_data.get('videos', [])]. *)
Definition dict_get_videos (video_data : json) : json :=
  match py_get video_data "videos" (JArr []) with
  | Ok videos => videos
  | Raise _ => JNull
  end.

(** A file that the trim stage re-encoded to the target profile. *)
Definition reencoded_to_target (c : content) : bool :=
  match c with
  | TrimClip _ _ _ p =>
      String.eqb (vcodec p) (vcodec target_profile)
      && String.eqb (preset p) (preset target_profile)
      && (crf p =? crf target_profile)
      && String.eqb (acodec p) (acodec target_profile)
      && String.eqb (abitrate p) (abitrate target_profile)
      && (arate p =? arate target_profile)
      && (fps p =? fps target_profile)
  | _ => false
  end.

(** A character that the slug of an object key may hold. *)
Definition slug_char (c : ascii) : bool :=
  Str.is_alnum c || Ascii.eqb c "-" || Ascii.eqb c "_".

(** [keeps f m]: running [m] does not change the part [f] of the
    world, whatever it returns or raises. *)
Definition keeps {A X} (f : World -> X) (m : M A) : Prop :=
  forall w, f (snd (m w)) = f w.

(** What a sweep may do to a row of the table: the identifier and the
    descriptor stay, a merged row stays merged, a row that is not to be
    crawled stays so, a URL that is set stays set, and a row that
    becomes merged gets a URL. *)
Definition row_step (r r' : Row) : Prop :=
  row_id r' = row_id r
  /\ video_data r' = video_data r
  /\ (merge_status r = true -> merge_status r' = true)
  /\ (crawl_status r' = true -> crawl_status r = true)
  /\ (r2_video_url r <> None -> r2_video_url r' <> None)
  /\ (merge_status r' = true -> merge_status r = true \/ r2_video_url r' <> None).

(** A download that passed the checks of [download_videos]: the file
    is there, it is not empty, and ffprobe accepted it. *)
Definition downloaded (tools : Tools) (p : path) (w : World) : Prop :=
  exists c n,
    file_at p w = Some c
    /\ is_empty_file c = false
    /\ probe_ok (ffprobe_format tools n c) = true.

(** The characters of a text that are not white space, in order. *)
Fixpoint visible (s : string) : string :=
  match s with
  | String c s' => if Str.is_space c then visible s' else String c (visible s')
  | EmptyString => EmptyString
  end.

(** The number of occurrences of a character in a text. *)
Fixpoint count_char (c : N) (s : Text.t) : nat :=
  match s with
  | d :: s' => ((if (c =? d)%N then 1 else 0) + count_char c s')%nat
  | [] => 0%nat
  end.

(** Every colon of the text comes right after a backslash;
    [after_backslash] tells whether the text itself does. *)
Fixpoint colons_escaped (after_backslash : bool) (s : Text.t) : bool :=
  match s with
  | c :: s' =>
      (if (c =? Text.colon)%N then after_backslash else true)
      && colons_escaped (c =? Text.backslash)%N s'
  | [] => true
  end.

(* ===================================================================== *)
(** * Concrete sweeps *)
(* ===================================================================== *)

(** Small worlds and tool behaviours on which the statements are
    evaluated. *)
Module Scenario.

Definition ten : Float.t := Float.of_Z 10.
Definition three : Float.t := Float.of_Z 3.

(** Tools that always succeed: every URL answers 200 with a body that
    probes to [duration] seconds. *)
Definition tools_ok (duration : Float.t) : Tools := {|
  db_statement_ok := fun _ _ => true;
  db_now := fun _ => "2026-01-01 00:00:00";
  curl := fun _ u => {| curl_stdout := "200"; curl_body := Some ("video from " ++ u) |};
  ffprobe_format := fun _ _ => {| probe_ok := true; probe_duration := Some duration |};
  ffprobe_stream_ok := fun _ _ => true;
  ffmpeg_ok := fun _ _ => true;
  generate_script_sh := fun _ c =>
    {| gs_ok := true;
       gs_script := Some "narration";
       gs_overlay :=
         match sc_video_data c with
         | Some (JObj items) =>
             match dict_get items "overlay" JNull with
             | JStr t => Some t
             | _ => None
             end
         | _ => None
         end |};
  generate_audio_sh := fun _ _ _ => {| ga_ok := true; ga_voiceover := Some "voice" |};
  strftime_now := fun _ => "20260101_000000";
  isoformat_now := fun _ => "2026-01-01T00:00:00";
  put_object_ok := fun _ _ => true;
  boto3_client_ok := fun endpoint _ _ =>
    match endpoint with
    | Some url => String.prefix "https://" url || String.prefix "http://" url
    | None => true
    end
|}.


(** The four variables [__init__] insists on, and nothing else. *)
Definition environ_required : gmap string string :=
  <["DATABASE_URL" := "postgres://db"]>
    (<["R2_ACCESS_KEY_ID" := "access"]>
       (<["R2_SECRET_ACCESS_KEY" := "secret"]>
          (<["R2_ENDPOINT" := "https://r2"]> ∅))).

Definition environ_full : gmap string string :=
  <["HUGGINGFACE_API_KEY" := "hf"]> (<["ZALO_API_KEY" := "zalo"]> environ_required).

Definition processor : VideoProcessor := {|
  db_url := Some "postgres://db";
  r2_access_key := Some "access";
  r2_secret_key := Some "secret";
  r2_endpoint := Some "https://r2";
  r2_bucket := "yt-2-tiktok";
  huggingface_endpoint := "https://router.huggingface.co/v1/chat/completions";
  huggingface_model := "deepseek-ai/DeepSeek-V3.2-Exp";
  huggingface_api_key := Some "hf";
  zalo_api_key := Some "zalo"
|}.

(** A descriptor with one video; [overlay] is what the script would
    write as overlay text for it, if anything. *)
Definition descriptor (name url : string) (overlay : json) : json :=
  JObj [("videos", JArr [JObj [("url", JStr url)]]);
        ("productInfo", JObj [("name", JStr name)]);
        ("overlay", overlay)].

Definition row (i : Z) (d : json) : Row :=
  {| row_id := i; video_data := d; crawl_status := true; merge_status := false;
     r2_video_url := None; processed_at := None |}.

Definition world (environ : gmap string string) (db : list Row) : World :=
  {| w_environ := environ; w_db := db;
     w_videos := None; w_output := None; w_scripts := None;
     w_video_data_json := None; w_bucket := []; w_tick := 0 |}.

Definition kettle : json := descriptor "Kettle" "https://cdn/kettle.mp4" (JStr "Boils in a minute").
Definition lamp : json := descriptor "Lamp" "https://cdn/lamp.mp4" JNull.

(** Two pending jobs; the script writes overlay text for the first one
    only. *)
Definition two_jobs : World := world environ_full [row 2 lamp; row 1 kettle].

Definition one_job (environ : gmap string string) : World := world environ [row 1 kettle].

End Scenario.

(** More small worlds on which the statements are evaluated. *)
Module Fixture.

(** The processor [__init__] builds from [Scenario.environ_required]:
    no text-generation key, no speech key. *)
Definition processor_without_keys : VideoProcessor := {|
  db_url := Some "postgres://db";
  r2_access_key := Some "access";
  r2_secret_key := Some "secret";
  r2_endpoint := Some "https://r2";
  r2_bucket := "yt-2-tiktok";
  huggingface_endpoint := "https://router.huggingface.co/v1/chat/completions";
  huggingface_model := "deepseek-ai/DeepSeek-V3.2-Exp";
  huggingface_api_key := None;
  zalo_api_key := None
|}.

(** A job whose product name needs cleaning before it goes into an
    object key. *)
Definition teapot : json :=
  Scenario.descriptor "Tea pot: 2L" "https://cdn/teapot.mp4" JNull.

(** The world of one pending job once the directories are there. *)
Definition ready : World :=
  with_directories (Scenario.one_job Scenario.environ_full).

Definition no_jobs_done : Summary :=
  {| success_count := 0; failed_count := 0; skipped_count := 0 |}.

(** Tools that always succeed, with a store that accepts the
    statements sent before interaction [n] and refuses the later
    ones. *)
Definition tools_store_down_from (n : nat) : Tools := {|
  db_statement_ok := fun k _ => (k <? n)%nat;
  db_now := db_now (Scenario.tools_ok Scenario.ten);
  curl := curl (Scenario.tools_ok Scenario.ten);
  ffprobe_format := ffprobe_format (Scenario.tools_ok Scenario.ten);
  ffprobe_stream_ok := ffprobe_stream_ok (Scenario.tools_ok Scenario.ten);
  ffmpeg_ok := ffmpeg_ok (Scenario.tools_ok Scenario.ten);
  generate_script_sh := generate_script_sh (Scenario.tools_ok Scenario.ten);
  generate_audio_sh := generate_audio_sh (Scenario.tools_ok Scenario.ten);
  strftime_now := strftime_now (Scenario.tools_ok Scenario.ten);
  isoformat_now := isoformat_now (Scenario.tools_ok Scenario.ten);
  put_object_ok := put_object_ok (Scenario.tools_ok Scenario.ten);
  boto3_client_ok := boto3_client_ok (Scenario.tools_ok Scenario.ten)
|}.

(** [-2.5] *)
Definition minus_two_and_a_half : Float.t := S754_finite true 5629499534213120 (-51).

(** The world of the pending job after the download, the trim and the
    concatenation, with a probe that reports [duration]. *)
Definition merged (duration : Float.t) : World :=
  let tools := Scenario.tools_ok duration in
  snd (merge_videos tools Scenario.kettle
         (snd (process_videos tools Scenario.kettle
                 (snd (download_videos tools Scenario.kettle ready))))).

(** Tools that always succeed, with a script that writes the narration
    and no overlay text. *)
Definition tools_without_overlay : Tools := {|
  db_statement_ok := db_statement_ok (Scenario.tools_ok Scenario.ten);
  db_now := db_now (Scenario.tools_ok Scenario.ten);
  curl := curl (Scenario.tools_ok Scenario.ten);
  ffprobe_format := ffprobe_format (Scenario.tools_ok Scenario.ten);
  ffprobe_stream_ok := ffprobe_stream_ok (Scenario.tools_ok Scenario.ten);
  ffmpeg_ok := ffmpeg_ok (Scenario.tools_ok Scenario.ten);
  generate_script_sh := fun _ _ =>
    {| gs_ok := true; gs_script := Some "narration"; gs_overlay := None |};
  generate_audio_sh := generate_audio_sh (Scenario.tools_ok Scenario.ten);
  strftime_now := strftime_now (Scenario.tools_ok Scenario.ten);
  isoformat_now := isoformat_now (Scenario.tools_ok Scenario.ten);
  put_object_ok := put_object_ok (Scenario.tools_ok Scenario.ten);
  boto3_client_ok := boto3_client_ok (Scenario.tools_ok Scenario.ten)
|}.

(** The world of the pending job with an overlay text left in the
    scripts directory. *)
Definition with_old_caption : World :=
  snd (write_file (Scripts, "text_overlay.txt") (Bytes "Boils in a minute") ready).

(** The bytes of the overlay text [Đèn ngủ] in UTF-8, followed by a
    DOS line end: 11 bytes for a caption of 7 characters. *)
Definition utf8_caption_bytes : string :=
  string_of_list_ascii
    (map ascii_of_nat [196; 144; 195; 168; 110; 32; 110; 103; 225; 187; 167; 13; 10]%nat).

(** The world of the pending job with that overlay text in the scripts
    directory. *)
Definition utf8_caption : World :=
  snd (write_file (Scripts, "text_overlay.txt") (Bytes utf8_caption_bytes) ready).

End Fixture.

(* ===================================================================== *)
(** * Facts about binary64 rounding *)
(* ===================================================================== *)

Module FloatFacts.

Section Rounding.

Variables prec emax : Z.
Hypothesis prec_pos : 0 < prec.

Lemma digits2_pos_bounds (m : positive) :
  2 ^ (Zpos (digits2_pos m) - 1) <= Zpos m < 2 ^ Zpos (digits2_pos m).
Proof.
  induction m as [m IH | m IH |]; cbn [digits2_pos].
  - rewrite Pos2Z.inj_succ.
    replace (Z.succ (Zpos (digits2_pos m)) - 1) with (Z.succ (Zpos (digits2_pos m) - 1)) by lia.
    rewrite 2!Z.pow_succ_r by lia. lia.
  - rewrite Pos2Z.inj_succ.
    replace (Z.succ (Zpos (digits2_pos m)) - 1) with (Z.succ (Zpos (digits2_pos m) - 1)) by lia.
    rewrite 2!Z.pow_succ_r by lia. lia.
  - cbn. lia.
Qed.

Lemma shr_1_m (mrs : shr_record) :
  0 <= shr_m mrs -> shr_m (shr_1 mrs) = shr_m mrs / 2.
Proof.
  destruct mrs as [m r s]. cbn [shr_m]. intros Hm.
  destruct m as [| p | p]; [reflexivity | | lia].
  destruct p as [p | p |]; cbn [shr_1 shr_m].
  - rewrite Pos2Z.inj_xI. apply Z.div_unique with (r := 1); lia.
  - rewrite Pos2Z.inj_xO. apply Z.div_unique with (r := 0); lia.
  - reflexivity.
Qed.

Lemma shr_iter_m (p : positive) : forall mrs,
  0 <= shr_m mrs ->
  shr_m (SpecFloat.iter_pos shr_1 p mrs) = shr_m mrs / 2 ^ Zpos p.
Proof.
  induction p as [p IH | p IH |]; intros mrs Hm; cbn [SpecFloat.iter_pos].
  - assert (H1 : 0 <= shr_m (shr_1 mrs)).
    { rewrite shr_1_m by assumption. apply Z.div_pos; lia. }
    assert (H2 : 0 <= shr_m (SpecFloat.iter_pos shr_1 p (shr_1 mrs))).
    { rewrite IH by assumption. apply Z.div_pos; [assumption | apply Z.pow_pos_nonneg; lia]. }
    rewrite IH by assumption. rewrite IH by assumption.
    rewrite shr_1_m by assumption.
    rewrite !Z.div_div by (try apply Z.pow_pos_nonneg; lia).
    f_equal. change 2 with (2 ^ 1) at 1.
    rewrite <- !Z.pow_add_r by lia. f_equal. lia.
  - assert (H2 : 0 <= shr_m (SpecFloat.iter_pos shr_1 p mrs)).
    { rewrite IH by assumption. apply Z.div_pos; [assumption | apply Z.pow_pos_nonneg; lia]. }
    rewrite IH by assumption. rewrite IH by assumption.
    rewrite !Z.div_div by (try apply Z.pow_pos_nonneg; lia).
    f_equal. rewrite <- !Z.pow_add_r by lia. f_equal. lia.
  - rewrite shr_1_m by assumption. reflexivity.
Qed.

Lemma shr_record_of_loc_m (m : Z) (l : location) :
  shr_m (shr_record_of_loc m l) = m.
Proof. destruct l as [| []]; reflexivity. Qed.

(** Shifting a non-negative mantissa keeps it non-negative. *)
Lemma shr_fexp_nonneg (m e : Z) (l : location) :
  0 <= m -> 0 <= shr_m (fst (shr_fexp prec emax m e l)).
Proof.
  intros Hm. unfold shr_fexp, shr.
  destruct (fexp prec emax (Zdigits2 m + e) - e) as [| p | p]; cbn [fst];
    rewrite ?shr_iter_m; rewrite ?shr_record_of_loc_m; try assumption.
  apply Z.div_pos; [assumption | apply Z.pow_pos_nonneg; lia].
Qed.

(** Above the least exponent, shifting a positive mantissa leaves
    at least its leading digit. *)
Lemma shr_fexp_pos (m e : Z) (l : location) :
  0 < m -> emin prec emax <= e ->
  0 < shr_m (fst (shr_fexp prec emax m e l))
  /\ emin prec emax <= snd (shr_fexp prec emax m e l).
Proof.
  intros Hm He. unfold shr_fexp, shr.
  destruct (fexp prec emax (Zdigits2 m + e) - e) as [| p | p] eqn:Hn; cbn [fst snd];
    rewrite ?shr_record_of_loc_m; try (split; assumption).
  rewrite shr_iter_m by (rewrite shr_record_of_loc_m; lia).
  rewrite shr_record_of_loc_m.
  destruct m as [| q | q]; try lia. cbn [Zdigits2] in *.
  pose proof (digits2_pos_bounds q) as [Hlo _].
  unfold fexp in Hn.
  assert (Hp : Zpos p <= Zpos (digits2_pos q) - 1) by lia.
  split; [| lia].
  apply Z.div_str_pos. split; [apply Z.pow_pos_nonneg; lia |].
  eapply Z.le_trans; [| exact Hlo].
  apply Z.pow_le_mono_r; lia.
Qed.

Lemma round_nearest_even_ge (m : Z) (l : location) :
  m <= round_nearest_even m l.
Proof.
  destruct l as [| []]; cbn [round_nearest_even]; try lia.
  destruct (Z.even m); lia.
Qed.

Lemma binary_round_aux_sign (s : bool) (m e : Z) (l : location) :
  0 <= m -> Float.has_sign s (binary_round_aux prec emax s m e l).
Proof.
  intros Hm. unfold binary_round_aux.
  pose proof (shr_fexp_nonneg m e l Hm) as H1.
  destruct (shr_fexp prec emax m e l) as [mrs' e'] eqn:E1. cbn [fst] in H1.
  pose proof (round_nearest_even_ge (shr_m mrs') (loc_of_shr_record mrs')) as H2.
  pose proof (shr_fexp_nonneg (round_nearest_even (shr_m mrs') (loc_of_shr_record mrs'))
                e' loc_Exact ltac:(lia)) as H3.
  destruct (shr_fexp prec emax _ e' loc_Exact) as [mrs'' e''] eqn:E2. cbn [fst] in H3.
  destruct (shr_m mrs'') as [| q | q]; try lia; cbn; try reflexivity.
  destruct (e'' <=? emax - prec); reflexivity.
Qed.

Lemma binary_round_aux_pos (s : bool) (m e : Z) (l : location) :
  0 < m -> emin prec emax <= e ->
  Float.has_sign s (binary_round_aux prec emax s m e l)
  /\ Float.nonzero (binary_round_aux prec emax s m e l).
Proof.
  intros Hm He. split; [apply binary_round_aux_sign; lia |].
  unfold binary_round_aux.
  pose proof (shr_fexp_pos m e l Hm He) as [H1 H1e].
  destruct (shr_fexp prec emax m e l) as [mrs' e'] eqn:E1. cbn [fst snd] in H1, H1e.
  pose proof (round_nearest_even_ge (shr_m mrs') (loc_of_shr_record mrs')) as H2.
  pose proof (shr_fexp_pos (round_nearest_even (shr_m mrs') (loc_of_shr_record mrs'))
                e' loc_Exact ltac:(lia) H1e) as [H3 _].
  destruct (shr_fexp prec emax _ e' loc_Exact) as [mrs'' e''] eqn:E2. cbn [fst] in H3.
  destruct (shr_m mrs'') as [| q | q]; try lia.
  destruct (e'' <=? emax - prec); exact I.
Qed.

Lemma shl_align_fst (mx : positive) (ex ez : Z) :
  ez <= ex -> Zpos (fst (shl_align mx ex ez)) = Zpos mx * 2 ^ (ex - ez).
Proof.
  intros H. unfold shl_align.
  destruct (ez - ex) as [| d | d] eqn:Hd; cbn [fst]; try lia.
  - replace (ex - ez) with 0 by lia. lia.
  - change (Pos.iter xO mx d) with (shift_pos d mx).
    rewrite shift_pos_correct, Z.pow_pos_fold.
    replace (ex - ez) with (Zpos d) by lia. lia.
Qed.

Lemma shl_align_snd (mx : positive) (ex ez : Z) :
  snd (shl_align mx ex ez) = Z.min ex ez.
Proof.
  unfold shl_align.
  destruct (ez - ex) as [| d | d] eqn:Hd; cbn [snd]; lia.
Qed.

Lemma binary_round_pos (s : bool) (mx : positive) (ex : Z) :
  emin prec emax <= ex ->
  Float.has_sign s (binary_round prec emax s mx ex)
  /\ Float.nonzero (binary_round prec emax s mx ex).
Proof.
  intros He. unfold binary_round.
  pose proof (shl_align_snd mx ex (fexp prec emax (Zpos (digits2_pos mx) + ex))) as Hs.
  destruct (shl_align mx ex _) as [mz ez]. cbn [snd] in Hs.
  apply binary_round_aux_pos; [lia |].
  subst ez. unfold fexp. lia.
Qed.

End Rounding.

(** ** binary64 *)

Lemma positive_cases (x : Float.t) :
  Float.ltb Float.zero x = true ->
  x = S754_infinity false \/ exists m e, x = S754_finite false m e.
Proof.
  destruct x as [s | [] | | [] m e]; cbn; try discriminate; eauto.
Qed.

(** The product of two positive floats is [+0] (underflow), a
    positive number or [+inf]: never NaN, never negative. *)
Lemma mul_positive (d r : Float.t) :
  Float.ltb Float.zero d = true -> Float.ltb Float.zero r = true ->
  Float.has_sign false (Float.mul d r).
Proof.
  intros Hd Hr.
  destruct (positive_cases d Hd) as [-> | (md & ed & ->)];
    destruct (positive_cases r Hr) as [-> | (mr & er & ->)];
    try reflexivity.
  unfold Float.mul, SFmul. cbn [xorb].
  apply binary_round_aux_sign. lia.
Qed.

Lemma canonical_exponent (m : positive) (e : Z) :
  Float.valid (S754_finite false m e) = true \/ Float.valid (S754_finite true m e) = true ->
  Float.emin <= e
  /\ Zpos m < 2 ^ 53
  /\ (Float.emin < e -> 2 ^ 52 <= Zpos m).
Proof.
  intros H.
  assert (Hc : canonical_mantissa Float.prec Float.emax m e = true).
  { destruct H as [H | H]; cbn in H; apply andb_true_iff in H; apply H. }
  unfold canonical_mantissa, fexp in Hc. apply Z.eqb_eq in Hc.
  change (SpecFloat.emin Float.prec Float.emax) with Float.emin in Hc.
  pose proof (digits2_pos_bounds m) as [Hlo Hhi].
  unfold Float.prec in Hc. unfold Float.emin in *.
  split; [lia |]. split.
  - eapply Z.lt_le_trans; [exact Hhi |]. apply Z.pow_le_mono_r; lia.
  - intros Hlt. replace (Zpos (digits2_pos m)) with 53 in Hlo by lia. exact Hlo.
Qed.

Lemma ltb_zero_positive (x : Float.t) :
  Float.has_sign false x -> Float.nonzero x -> Float.ltb Float.zero x = true.
Proof.
  destruct x as [s | s | | s m e]; cbn; intros Hs Hn;
    try (exfalso; assumption); subst s; reflexivity.
Qed.

Lemma ltb_zero_round_negative (m : positive) (e : Z) :
  Float.ltb Float.zero (binary_round Float.prec Float.emax true m e) = false.
Proof.
  unfold binary_round.
  destruct (shl_align _ _ _) as [mz ez].
  unfold binary_round_aux.
  destruct (shr_fexp _ _ _ _ _) as [mrs' e'].
  destruct (shr_fexp _ _ _ _ _) as [mrs'' e''].
  destruct (shr_m mrs''); try reflexivity.
  destruct (_ <=? _); reflexivity.
Qed.

(** The sign of an exact difference decides whether its rounding is
    positive. *)
Lemma ltb_zero_normalize (z e : Z) :
  Float.emin <= e ->
  Float.ltb Float.zero (binary_normalize Float.prec Float.emax z e false) = (0 <? z).
Proof.
  intros He. destruct z as [| q | q]; cbn [binary_normalize].
  - reflexivity.
  - destruct (binary_round_pos Float.prec Float.emax eq_refl false q e He) as [H1 H2].
    rewrite ltb_zero_positive by assumption. reflexivity.
  - rewrite ltb_zero_round_negative. reflexivity.
Qed.

Lemma pow2_ge_2 (k : Z) : 1 <= k -> 2 <= 2 ^ k.
Proof.
  intros Hk. change 2 with (2 ^ 1) at 1. apply Z.pow_le_mono_r; lia.
Qed.

(** [duration - 4 > 0] holds exactly when [duration > 4]. *)
Lemma sub_four_positive (D : Float.t) :
  Float.valid D = true ->
  Float.ltb Float.zero (Float.sub D Float.four) = Float.ltb Float.four D.
Proof.
  intros Hv.
  destruct D as [s | [] | | s m e]; try reflexivity.
  assert (Hc : Float.emin <= e /\ Z.pos m < 2 ^ 53 /\ (Float.emin < e -> 2 ^ 52 <= Z.pos m)).
  { apply canonical_exponent. destruct s; auto. }
  destruct Hc as (Hmin & Hhi & Hlo). clear Hv.
  unfold Float.four.
  remember 4503599627370496%positive as m4 eqn:Hm4.
  assert (H4 : Z.pos m4 = 2 ^ 52) by (subst m4; reflexivity).
  clear Hm4.
  change (2 ^ 53) with (2 * 2 ^ 52) in Hhi.
  assert (H52 : 0 < 2 ^ 52) by (apply Z.pow_pos_nonneg; lia).
  remember (2 ^ 52) as P eqn:HP. clear HP.
  unfold Float.sub, SFsub.
  set (ez := Z.min e (-50)).
  rewrite ltb_zero_normalize by (unfold ez, Float.emin in *; lia).
  rewrite (shl_align_fst m e ez) by (unfold ez; lia).
  rewrite (shl_align_fst m4 (-50) ez) by (unfold ez; lia).
  rewrite H4.
  unfold Float.emin in *.
  assert (Hpa : 0 < 2 ^ (e - ez)) by (apply Z.pow_pos_nonneg; unfold ez; lia).
  assert (Hpb : 0 < 2 ^ (-50 - ez)) by (apply Z.pow_pos_nonneg; unfold ez; lia).
  destruct s; cbn [cond_Zopp].
  - (* a negative duration *)
    transitivity false; [apply Z.ltb_ge; nia | reflexivity].
  - unfold Float.ltb, SFltb, SFcompare.
    destruct (Z.compare_spec (-50) e) as [He | He | He].
    + (* the exponent of 4.0: the mantissas decide *)
      subst e. unfold ez.
      change (Z.min (-50) (-50)) with (-50). change (-50 - -50) with 0.
      rewrite Z.pow_0_r, !Z.mul_1_r.
      change (PosDef.Pos.compare_cont Eq m4 m) with (Pos.compare m4 m).
      destruct (Pos.compare m4 m) eqn:Hcmp.
      * apply Pos.compare_eq_iff in Hcmp. subst m. apply Z.ltb_ge. lia.
      * assert (Hlt : (m4 < m)%positive) by exact Hcmp. apply Z.ltb_lt. lia.
      * assert (Hgt : (m < m4)%positive) by (apply Pos.compare_gt_iff; exact Hcmp).
        apply Z.ltb_ge. lia.
    + (* a larger exponent: at least 8.0 *)
      assert (Hez : ez = -50) by (unfold ez; lia).
      specialize (Hlo ltac:(lia)).
      rewrite Hez in *. replace (-50 - -50) with 0 by lia.
      rewrite Z.pow_0_r, Z.mul_1_r.
      pose proof (pow2_ge_2 (e - -50) ltac:(lia)).
      apply Z.ltb_lt. nia.
    + (* a smaller exponent: below 4.0 *)
      assert (Hez : ez = e) by (unfold ez; lia).
      rewrite Hez in *. replace (e - e) with 0 by lia.
      rewrite Z.pow_0_r, Z.mul_1_r.
      pose proof (pow2_ge_2 (-50 - e) ltac:(lia)).
      apply Z.ltb_ge. nia.
Qed.

End FloatFacts.

(* ===================================================================== *)
(** * ScriptBudgeter and font size: the arithmetic claims *)
(* ===================================================================== *)

Module Budget.

(** [int] of a float that is not negative is the floor of its value. *)
Lemma to_int_floor (x : Float.t) :
  Float.has_sign false x ->
  Float.to_int x =
  match Float.value x with
  | Some q => Ok (Qfloor q)
  | None => Raise OverflowError
  end.
Proof.
  destruct x as [s | s | | s m e]; cbn [Float.has_sign]; intros Hs;
    try contradiction; subst s; cbn [Float.to_int Float.value cond_Zopp].
  - reflexivity.
  - reflexivity.
  - f_equal. destruct e as [| p | p]; cbv beta iota.
    + unfold Qfloor, inject_Z. rewrite Z.div_1_r. reflexivity.
    + unfold Qfloor, inject_Z. rewrite Z.div_1_r. apply Z.shiftl_mul_pow2. lia.
    + unfold Qfloor. rewrite Pos2Z.inj_pow.
      change (Z.shiftl (Z.pos m) (Z.neg p)) with (Z.shiftr (Z.pos m) (Z.pos p)).
      apply Z.shiftr_div_pow2. lia.
Qed.

End Budget.

(** C6 (as the code has it).  For every duration [d > 0] and rate
    [r > 0] the narration budget [calculate_target_script_length d r]
    is the floor of the product [d * r] (the binary64 product, as
    Python computes it) when that product is finite, and [int] raises
    [OverflowError] when the product overflows to infinity;
    [targetLength(40.0, 15.0) = 600]; and the default rate is
    [15.0]. *)
Theorem C6_target_length_is_floor :
  (forall d r : Float.t,
      Float.ltb Float.zero d = true ->
      Float.ltb Float.zero r = true ->
      calculate_target_script_length d r =
      match floor_of_product d r with
      | Some n => Ok n
      | None => Raise OverflowError
      end)
  /\ calculate_target_script_length Float.forty Float.fifteen = Ok 600
  /\ floor_of_product Float.forty Float.fifteen = Some 600
  /\ default_chars_per_second = Float.fifteen
  /\ (exists q, Float.value default_chars_per_second = Some q /\ Qeq q 15).
Proof.
  split; [| split; [| split; [| split]]].
  - intros d r Hd Hr.
    unfold calculate_target_script_length, floor_of_product.
    rewrite Budget.to_int_floor by (apply FloatFacts.mul_positive; assumption).
    destruct (Float.value (Float.mul d r)); reflexivity.
  - vm_compute. reflexivity.
  - vm_compute. reflexivity.
  - reflexivity.
  - eexists. split; [reflexivity |]. vm_compute. reflexivity.
Qed.

Lemma C6_witness :
  calculate_target_script_length Float.forty Float.fifteen =
  match floor_of_product Float.forty Float.fifteen with
  | Some n => Ok n
  | None => Raise OverflowError
  end.
Proof.
  apply (proj1 C6_target_length_is_floor Float.forty Float.fifteen);
    vm_compute; reflexivity.
Defined.

(** C6, as stated, fails: the duration [1e308] and the rate [15.0] are
    floats above zero, their product overflows to infinity, and [int]
    raises [OverflowError]: no budget is returned, so none that is a
    floor. *)
Lemma C6_counterexample :
  let d := Float.of_Z (10 ^ 308) in
  Float.valid d = true
  /\ Float.ltb Float.zero d = true
  /\ Float.ltb Float.zero Float.fifteen = true
  /\ calculate_target_script_length d Float.fifteen = Raise OverflowError
  /\ floor_of_product d Float.fifteen = None
  /\ forall n, calculate_target_script_length d Float.fifteen <> Ok n.
Proof.
  assert (H : calculate_target_script_length (Float.of_Z (10 ^ 308)) Float.fifteen
              = Raise OverflowError) by (vm_compute; reflexivity).
  cbv zeta. rewrite H.
  repeat split; try (vm_compute; reflexivity).
  intros n. discriminate.
Qed.

(** C8.  The caption font size depends on the caption text through its
    length only: more than 70 characters give 28, more than 50 and at
    most 70 give 32, at most 50 give 38; so 80 gives 28, 60 gives 32,
    30 gives 38, and at the boundaries 70 gives 32 and 50 gives 38. *)
Theorem C8_font_size_buckets :
  (forall t1 t2 : string,
      String.length t1 = String.length t2 -> choose_fontsize t1 = choose_fontsize t2)
  /\ (forall text : string,
         ((70 < String.length text)%nat -> choose_fontsize text = 28)
         /\ ((50 < String.length text <= 70)%nat -> choose_fontsize text = 32)
         /\ ((String.length text <= 50)%nat -> choose_fontsize text = 38))
  /\ fontsize_of_length 80 = 28
  /\ fontsize_of_length 60 = 32
  /\ fontsize_of_length 30 = 38
  /\ fontsize_of_length 70 = 32
  /\ fontsize_of_length 50 = 38.
Proof.
  split; [| split; [| repeat split]].
  - intros t1 t2 H. unfold choose_fontsize. rewrite H. reflexivity.
  - intros text. unfold choose_fontsize, fontsize_of_length.
    repeat split; intros H.
    + destruct (Nat.ltb_spec 70 (String.length text)); [reflexivity | lia].
    + destruct (Nat.ltb_spec 70 (String.length text)); [lia |].
      destruct (Nat.ltb_spec 50 (String.length text)); [reflexivity | lia].
    + destruct (Nat.ltb_spec 70 (String.length text)); [lia |].
      destruct (Nat.ltb_spec 50 (String.length text)); [lia | reflexivity].
Qed.

Lemma C8_witness :
  choose_fontsize "Limited offer: two for one" = 38.
Proof.
  apply (proj2 (proj2 (proj1 (proj2 C8_font_size_buckets) "Limited offer: two for one"))).
  cbn. lia.
Defined.

(* ===================================================================== *)
(** * Reasoning about the monad *)
(* ===================================================================== *)

(** ** Stages leave the database alone *)

Module Frame.

Lemma keeps_ret {A} (a : A) : keeps_db (ret a).
Proof. intros w. reflexivity. Qed.

Lemma keeps_raise {A} (e : exn) : keeps_db (@raise A e).
Proof. intros w. reflexivity. Qed.

Lemma keeps_lift {A} (r : result A) : keeps_db (lift r).
Proof. intros w. reflexivity. Qed.

Lemma keeps_get_world : keeps_db get_world.
Proof. intros w. reflexivity. Qed.

Lemma keeps_tick : keeps_db tick.
Proof. intros w. reflexivity. Qed.

Lemma keeps_bind {A B} (m : M A) (k : A -> M B) :
  keeps_db m -> (forall a, keeps_db (k a)) -> keeps_db (bind m k).
Proof.
  intros Hm Hk w. unfold bind.
  specialize (Hm w). destruct (m w) as [[a | e] w1]; cbn [snd] in *.
  - rewrite Hk. exact Hm.
  - exact Hm.
Qed.

Lemma keeps_try_except {A} (body : M A) (handler : exn -> M A) :
  keeps_db body -> (forall e, keeps_db (handler e)) -> keeps_db (try_except body handler).
Proof.
  intros Hm Hk w. unfold try_except.
  specialize (Hm w). destruct (body w) as [[a | e] w1]; cbn [snd] in *.
  - exact Hm.
  - rewrite Hk. exact Hm.
Qed.

Lemma keeps_modify (g : World -> World) :
  (forall w, w_db (g w) = w_db w) -> keeps_db (modify g).
Proof. intros Hg w. apply Hg. Qed.

Lemma w_db_set_dir d v w : w_db (set_dir d v w) = w_db w.
Proof. destruct d; reflexivity. Qed.

Create HintDb frame discriminated.
#[export] Hint Resolve keeps_ret keeps_raise keeps_lift keeps_get_world keeps_tick : frame.

(** One step of the syntax-directed proof that a stage keeps the
    table. *)
Ltac frame_step :=
  lazymatch goal with
  | |- keeps_db (bind _ _) => apply keeps_bind; [| intros ?]
  | |- keeps_db (try_except _ _) => apply keeps_try_except; [| intros ?]
  | |- keeps_db (modify _) =>
      apply keeps_modify; intros ?; first [apply w_db_set_dir | reflexivity]
  | |- keeps_db (match ?x with _ => _ end) => destruct x
  | |- keeps_db (let _ := _ in _) => cbv zeta
  | |- keeps_db _ => solve [auto with frame]
  end.

Ltac frame := repeat frame_step.

Section Stages.

Variable tools : Tools.
Variable self : VideoProcessor.

Lemma keeps_path_exists p : keeps_db (path_exists p).
Proof. unfold path_exists. frame. Qed.

Lemma keeps_write_file p c : keeps_db (write_file p c).
Proof. unfold write_file. frame. Qed.

Lemma keeps_unlink p : keeps_db (unlink p).
Proof. unfold unlink. frame. Qed.

Lemma keeps_read_text p : keeps_db (read_text p).
Proof. unfold read_text. frame. Qed.

Hint Resolve keeps_path_exists keeps_write_file keeps_unlink keeps_read_text : frame.

Lemma keeps_write_if p d : keeps_db (write_if p d).
Proof. unfold write_if. frame. Qed.

Lemma keeps_run_ffmpeg job p : keeps_db (run_ffmpeg tools job p).
Proof. unfold run_ffmpeg. frame. Qed.

Hint Resolve keeps_write_if keeps_run_ffmpeg : frame.

Lemma keeps_mkdir d : keeps_db (mkdir_exist_ok d).
Proof. unfold mkdir_exist_ok. frame. Qed.

Hint Resolve keeps_mkdir : frame.

Lemma keeps_for_each {A} (f : A -> M unit) (l : list A) :
  (forall x, keeps_db (f x)) -> keeps_db (for_each f l).
Proof.
  intros Hf. induction l as [| x l IH]; cbn [for_each]; frame; auto.
Qed.

Lemma keeps_setup_directories : keeps_db setup_directories.
Proof. apply keeps_for_each. intros d. auto with frame. Qed.

Lemma keeps_cleanup_directories : keeps_db cleanup_directories.
Proof. apply keeps_for_each. intros d. frame. Qed.

Lemma keeps_validate_download p : keeps_db (validate_download tools p).
Proof. unfold validate_download. frame. Qed.

Hint Resolve keeps_validate_download : frame.

Lemma keeps_download_attempt url p last :
  keeps_db (download_attempt tools url p last).
Proof. unfold download_attempt. frame. Qed.

Hint Resolve keeps_download_attempt : frame.

Lemma keeps_download_retries retries : forall url p last,
  keeps_db (download_retries tools retries url p last).
Proof.
  induction retries as [| retry rest IH]; intros url p last;
    cbn [download_retries]; frame; auto with frame.
Qed.

Hint Resolve keeps_download_retries : frame.

Lemma keeps_download_each videos : forall i,
  keeps_db (download_each tools i videos).
Proof.
  induction videos as [| video rest IH]; intros i;
    cbn [download_each]; frame; auto with frame.
Qed.

Hint Resolve keeps_download_each : frame.

Lemma keeps_download_videos video_data : keeps_db (download_videos tools video_data).
Proof. unfold download_videos. frame. Qed.

Lemma keeps_trim_one i : keeps_db (trim_one tools i).
Proof. unfold trim_one. frame. Qed.

Hint Resolve keeps_trim_one : frame.

Lemma keeps_trim_range indices : keeps_db (trim_range tools indices).
Proof.
  induction indices as [| i rest IH]; cbn [trim_range]; frame; auto with frame.
Qed.

Hint Resolve keeps_trim_range : frame.

Lemma keeps_process_videos video_data : keeps_db (process_videos tools video_data).
Proof. unfold process_videos. frame. Qed.

Lemma keeps_merge_videos video_data : keeps_db (merge_videos tools video_data).
Proof. unfold merge_videos. frame. Qed.

Lemma keeps_get_video_duration p : keeps_db (get_video_duration tools p).
Proof. unfold get_video_duration. frame. Qed.

Hint Resolve keeps_get_video_duration : frame.

Lemma keeps_generate_script : keeps_db (generate_script tools self).
Proof. unfold generate_script. frame. Qed.

Lemma keeps_generate_audio : keeps_db (generate_audio tools self).
Proof. unfold generate_audio. frame. Qed.

Lemma keeps_add_audio : keeps_db (add_audio tools).
Proof. unfold add_audio. frame. Qed.

Lemma keeps_add_text_overlay video_data : keeps_db (add_text_overlay tools video_data).
Proof. unfold add_text_overlay. frame. Qed.

Lemma keeps_upload_to_r2 p product_id video_data :
  keeps_db (upload_to_r2 tools self p product_id video_data).
Proof. unfold upload_to_r2. frame. Qed.

(** Run the next stage of a sequence, knowing that it keeps the
    table. *)
Lemma bind_keeps {A B} (m : M A) (k : A -> M B) (w : World) :
  keeps_db m ->
  exists r w1, m w = (r, w1) /\ w_db w1 = w_db w
    /\ bind m k w = match r with Ok a => k a w1 | Raise e => (Raise e, w1) end.
Proof.
  intros Hm. specialize (Hm w). unfold bind.
  destruct (m w) as [r w1]. exists r, w1. cbn [snd] in Hm.
  repeat split; auto.
Qed.

Ltac next_stage lem :=
  lazymatch goal with
  | |- context [bind ?m ?k ?w] =>
      let r := fresh "r" in
      let w1 := fresh "w" in
      let Hrun := fresh "Hrun" in
      let Hdb := fresh "Hdb" in
      let Hb := fresh "Hb" in
      destruct (bind_keeps m k w lem) as (r & w1 & Hrun & Hdb & Hb);
      rewrite Hb; clear Hb
  end.

(** A [try] whose handler returns a constant always returns. *)
Lemma try_except_ret {A} (body : M A) (x : A) (w : World) :
  exists a,
    try_except body (fun _ => ret x) w = (Ok a, snd (body w))
    /\ (a = x \/ fst (body w) = Ok a).
Proof.
  unfold try_except. destruct (body w) as [[a | e] w']; cbn [fst snd].
  - exists a. auto.
  - exists x. auto.
Qed.

(** [process_product] always returns; it changes the table, if at
    all, by clearing [crawl_status] of its product, and then it returns
    [None]. *)
Lemma process_product_db (product_id : Z) (video_data : json) (w : World) :
  exists r w',
    process_product tools self product_id video_data w = (Ok r, w')
    /\ (w_db w' = w_db w
        \/ (r = None /\ w_db w' = sql_set_crawl product_id false (w_db w))).
Proof.
  unfold process_product.
  match goal with
  | |- context [try_except ?body _ _] =>
      destruct (try_except_ret body None w) as (a & Heq & Ha);
      exists a, (snd (body w)); split; [exact Heq |];
      assert (Hbody : w_db (snd (body w)) = w_db w
                      \/ (fst (body w) = Ok None
                          /\ w_db (snd (body w)) = sql_set_crawl product_id false (w_db w)));
      [clear a Heq Ha |
       destruct Hbody as [Hb | [Hr Hb]]; [left; exact Hb | right; split; [| exact Hb]];
       destruct Ha as [Ha | Ha]; [exact Ha | congruence]]
  end.
  destruct video_data as [| b | n | f | s | l | items]; cbn [is_none is_dict negb];
    try (left; reflexivity).
  next_stage (keeps_lift (py_get (JObj items) "videos" (JArr []))).
  destruct r as [videos | e]; cbn [fst snd]; [| left; assumption].
  destruct (no_videos videos); cbn [fst snd]; [left; assumption |].
  next_stage (keeps_lift (py_get (JObj items) "productInfo" (JObj []))).
  destruct r as [info | e]; cbn [fst snd]; [| left; congruence].
  next_stage (keeps_lift (py_get info "name" (JStr "Unknown"))).
  destruct r as [name | e]; cbn [fst snd]; [| left; congruence].
  next_stage (keeps_modify (set_video_data_json (Some (JObj items))) (fun _ => eq_refl)).
  destruct r as [[] | e]; cbn [fst snd]; [| left; congruence].
  next_stage (keeps_download_videos (JObj items)).
  destruct r as [[ok code] | e]; cbn [fst snd]; [| left; congruence].
  assert (Hw : w_db w4 = w_db w) by congruence.
  destruct ok; cbn [negb fst snd].
  - (* the download succeeded: the stages that follow keep the table *)
    left. rewrite <- Hw.
    match goal with
    | |- w_db (snd (?rest w4)) = _ => assert (Hk : keeps_db rest); [| apply Hk]
    end.
    pose proof keeps_process_videos. pose proof keeps_merge_videos.
    pose proof keeps_generate_script. pose proof keeps_generate_audio.
    pose proof keeps_add_audio. pose proof keeps_add_text_overlay.
    pose proof keeps_upload_to_r2.
    frame; auto.
  - (* the download failed *)
    rewrite <- Hw. unfold bind, try_except, update_crawl_status, bind, tick, modify, ret, raise.
    destruct (is_404 code); [| left; reflexivity].
    destruct (db_statement_ok tools (w_tick w4) (db_url self)); cbn [fst snd].
    + right. split; reflexivity.
    + left. reflexivity.
Qed.

Lemma cleanup_directories_eq (w : World) :
  cleanup_directories w = (Ok tt, cleaned w).
Proof.
  destruct w as [env db [v |] [o |] sc vj b t]; reflexivity.
Qed.

(** What one round of the loop of [run] does: exactly one counter goes
    up by one, and the table changes by at most the two status writes
    of the product. *)
Lemma run_product_cases (s : Summary) (p : Z * json) (w : World) :
  exists s' w',
    run_product tools self s p w = (Ok s', w')
    /\ ((s' = skipped s /\ w' = w)
        \/ (s' = failed s
            /\ (w_db w' = w_db w \/ w_db w' = sql_set_crawl (fst p) false (w_db w)))
        \/ (s' = succeeded s
            /\ exists url now, w_db w' = sql_set_merged (fst p) url now (w_db w))).
Proof.
  destruct p as [product_id video_data]. unfold run_product. cbn [fst snd].
  destruct video_data as [| b | n | f | t | l | items]; cbn [is_none is_dict negb];
    try (eexists _, _; split; [reflexivity | left; split; reflexivity]).
  unfold bind at 1. cbn [lift py_get].
  destruct (no_videos _); [eexists _, _; split; [reflexivity | left; split; reflexivity] |].
  unfold bind at 1. rewrite cleanup_directories_eq.
  assert (Hdb : w_db (cleaned w) = w_db w) by reflexivity.
  set (w0 := cleaned w) in *. clearbody w0.
  destruct (process_product_db product_id (JObj items) w0) as (r2 & w1 & Hpp & Hpdb).
  unfold bind at 1. rewrite Hpp.
  destruct r2 as [url |]; cbn [str_truthy].
  2: { eexists _, _. split; [reflexivity |]. right. left. split; [reflexivity |].
       destruct Hpdb as [H | [_ H]]; rewrite H, Hdb; auto. }
  destruct (String.eqb url ""); cbn [negb].
  { eexists _, _. split; [reflexivity |]. right. left. split; [reflexivity |].
    destruct Hpdb as [H | [H _]]; [| discriminate H]. rewrite H, Hdb; auto. }
  destruct Hpdb as [Hpdb | [H _]]; [| discriminate H].
  unfold try_except, bind, update_merge_status, bind, tick, modify, ret, raise.
  cbn [default].
  destruct (db_statement_ok tools (w_tick w1) (db_url self)).
  - eexists _, _. split; [reflexivity |]. right. right. split; [reflexivity |].
    eexists _, _. cbn [w_db set_db set_tick]. rewrite Hpdb, Hdb. reflexivity.
  - eexists _, _. split; [reflexivity |]. right. left. split; [reflexivity |].
    left. cbn [w_db set_tick]. rewrite Hpdb, Hdb. reflexivity.
Qed.

End Stages.

End Frame.

(* ===================================================================== *)
(** * JobStore: facts about the selection and the status writes *)
(* ===================================================================== *)

Module Store.












Lemma set_crawl_merge_status (product_id : Z) (status : bool) (db : list Row) :
  map merge_status (sql_set_crawl product_id status db) = map merge_status db.
Proof.
  unfold sql_set_crawl. rewrite map_map. apply map_ext. intros r.
  destruct (row_id r =? product_id); reflexivity.
Qed.

End Store.

(* ===================================================================== *)
(** * The sweep *)
(* ===================================================================== *)

Module Sweep.

Section Sweep.

Variable tools : Tools.
Variable self : VideoProcessor.



Lemma setup_directories_eq (w : World) :
  setup_directories w = (Ok tt, with_directories w).
Proof.
  destruct w as [env db [v |] [o |] [sc |] vj b t]; reflexivity.
Qed.

(** [run], unfolded once. *)
Lemma run_eq (w : World) :
  run tools self w =
  if db_statement_ok tools (w_tick w) (db_url self) then
    match select_pending (w_db w) with
    | [] => (Ok None, set_tick (S (w_tick w)) (with_directories w))
    | products =>
        match run_products tools self
                {| success_count := 0; failed_count := 0; skipped_count := 0 |}
                products (set_tick (S (w_tick w)) (with_directories w)) with
        | (Ok s, w') => (Ok (Some s), w')
        | (Raise e, w') => (Raise e, w')
        end
    end
  else (Raise DatabaseError, set_tick (S (w_tick w)) (with_directories w)).
Proof.
  unfold run. unfold bind at 1. rewrite setup_directories_eq.
  unfold bind at 1. unfold get_pending_products, bind, tick, get_world, ret, raise.
  change (w_tick (with_directories w)) with (w_tick w).
  destruct (db_statement_ok tools (w_tick w) (db_url self)); [| reflexivity].
  change (w_db (set_tick (S (w_tick w)) (with_directories w))) with (w_db w).
  destruct (select_pending (w_db w)) as [| p rest]; [reflexivity |].
  destruct (run_products _ _ _ _ _) as [[s | e] w']; reflexivity.
Qed.

End Sweep.

End Sweep.

(* ===================================================================== *)
(** * Downloader: the retry loop *)
(* ===================================================================== *)

Module Download.

Section Download.

Variable tools : Tools.



(** The clean-up between two attempts never raises. *)
Lemma discard_then {B} (p : path) (k : M B) (w0 : World) :
  (ex <- path_exists p;; (if ex then unlink p else ret tt);;; k) w0
  = k (discard_partial p w0).
Proof.
  unfold discard_partial.
  unfold bind, path_exists, get_world, ret, unlink, bind, get_world, modify, raise.
  cbv beta iota. unfold file_at.
  destruct (get_dir p.1 w0) as [files |] eqn:Hg; [| reflexivity].
  destruct (files !! p.2) eqn:Hl; cbv beta iota; [| reflexivity].
  rewrite Hg, Hl. reflexivity.
Qed.




End Download.

End Download.

(* ===================================================================== *)
(** * The claims about the sweep *)
(* ===================================================================== *)





(** C9.  A fetched job whose descriptor is null, is not an object, or
    has no non-empty list under [videos] is skipped: the skipped
    counter goes up by one, the other counters stay, and the world is
    left exactly as it was: no statement is sent to the database, so
    neither [crawl_status] nor [merge_status] changes. *)
Theorem C9_invalid_descriptor_is_skipped
    (tools : Tools) (self : VideoProcessor) (s : Summary)
    (product_id : Z) (video_data : json) (w : World) :
  (video_data = JNull
   \/ is_dict video_data = false
   \/ exists items,
        video_data = JObj items
        /\ forall v l, dict_get items "videos" (JArr []) <> JArr (v :: l)) ->
  run_product tools self s (product_id, video_data) w = (Ok (skipped s), w)
  /\ skipped_count (skipped s) = S (skipped_count s)
  /\ failed_count (skipped s) = failed_count s
  /\ success_count (skipped s) = success_count s.
Proof.
  intros H. split; [| repeat split].
  unfold run_product. cbn [fst snd].
  destruct H as [-> | [H | (items & -> & H)]].
  - reflexivity.
  - destruct video_data; try reflexivity. discriminate H.
  - cbn [is_none is_dict negb]. unfold bind, lift, ret. cbn [py_get].
    assert (Hno : no_videos (dict_get items "videos" (JArr [])) = true).
    { destruct (dict_get items "videos" (JArr [])) as [| b | n | f | t | [| v l] | kv];
        unfold no_videos; cbn [truthy is_list negb];
        try (exfalso; eapply H; reflexivity);
        rewrite ?orb_true_r; reflexivity. }
    rewrite Hno. reflexivity.
Qed.

Lemma C9_witness :
  let s := {| success_count := 0; failed_count := 0; skipped_count := 0 |} in
  let w := Scenario.world Scenario.environ_full [Scenario.row 7 JNull] in
  run_product (Scenario.tools_ok Scenario.ten) Scenario.processor s (7, JNull) w
  = (Ok (skipped s), w).
Proof.
  intros s w.
  apply (C9_invalid_descriptor_is_skipped
           (Scenario.tools_ok Scenario.ten) Scenario.processor s 7 JNull w).
  left. reflexivity.
Defined.




(* ===================================================================== *)
(** * Files: names and writes *)
(* ===================================================================== *)

Module Files.

Lemma length_append (a b : string) :
  String.length (a ++ b) = (String.length a + String.length b)%nat.
Proof.
  induction a as [| x a IH]; [reflexivity |].
  change (S (String.length (a ++ b)) = S (String.length a + String.length b)).
  f_equal. exact IH.
Qed.

Lemma append_inj_r (c : string) : forall a b : string, a ++ c = b ++ c -> a = b.
Proof.
  induction a as [| x a IH]; intros [| y b] H.
  - reflexivity.
  - apply (f_equal String.length) in H.
    change (String.length c = S (String.length (b ++ c))) in H.
    rewrite length_append in H. lia.
  - apply (f_equal String.length) in H.
    change (S (String.length (a ++ c)) = String.length c) in H.
    rewrite length_append in H. lia.
  - change (String x (a ++ c) = String y (b ++ c)) in H.
    injection H as -> H. f_equal. apply IH. exact H.
Qed.

Lemma of_nat_inj (i j : nat) : Str.of_nat i = Str.of_nat j -> i = j.
Proof.
  unfold Str.of_nat. intros H.
  apply (f_equal NilEmpty.uint_of_string) in H.
  rewrite !NilEmpty.usu in H. injection H as H.
  apply (f_equal Nat.of_uint) in H.
  rewrite !DecimalNat.Unsigned.of_to in H. exact H.
Qed.

Lemma trimmed_name_inj (i j : nat) : trimmed_name i = trimmed_name j -> i = j.
Proof.
  unfold trimmed_name. intros H. cbn [String.append] in H.
  injection H as H.
  change (Str.of_nat i ++ ".mp4" = Str.of_nat j ++ ".mp4") in H.
  apply append_inj_r in H. apply of_nat_inj. exact H.
Qed.

Lemma trimmed_path_inj (i j : nat) : trimmed_path i = trimmed_path j -> i = j.
Proof.
  intros H. apply trimmed_name_inj. exact (f_equal snd H).
Qed.

Lemma video_not_trimmed (i j : nat) : video_path i <> trimmed_path j.
Proof.
  unfold video_path, trimmed_path, trimmed_name. cbn [String.append]. intros [= H].
Qed.

Lemma concat_list_not_trimmed (j : nat) :
  (Videos, "concat_list.txt") <> trimmed_path j.
Proof.
  unfold trimmed_path, trimmed_name. cbn [String.append]. intros [= H].
Qed.

(** What a successful write changes. *)
Lemma write_file_ok (p : path) (c : content) (w w' : World) :
  write_file p c w = (Ok tt, w') ->
  file_at p w' = Some c
  /\ (forall q, q <> p -> file_at q w' = file_at q w)
  /\ w_tick w' = w_tick w.
Proof.
  unfold write_file, bind, get_world, modify, raise.
  destruct p as [d n]. cbn [fst snd].
  destruct (get_dir d w) as [files |] eqn:Hd; [| discriminate].
  intros [= <-]. unfold file_at. cbn [fst snd]. repeat split.
  - destruct d; cbn [get_dir set_dir w_videos w_output w_scripts];
      apply lookup_insert_eq.
  - intros [d' n'] Hne. cbn [fst snd].
    destruct d, d'; cbn [get_dir set_dir w_videos w_output w_scripts] in *;
      try reflexivity; rewrite Hd; apply lookup_insert_ne; congruence.
  - destruct d; reflexivity.
Qed.

End Files.

(* ===================================================================== *)
(** * MediaStageRunner: trim and concatenate *)
(* ===================================================================== *)

Module Media.

Section Media.

Variable tools : Tools.

Lemma file_at_set_tick (q : path) (n : nat) (w : World) :
  file_at q (set_tick n w) = file_at q w.
Proof. destruct q as [[] name]; reflexivity. Qed.

Lemma trim_one_true (i : nat) (w w' : World) :
  trim_one tools i w = (Ok true, w') ->
  exists src D,
    file_at (video_path i) w = Some src
    /\ probe_ok (ffprobe_format tools (w_tick w) src) = true
    /\ probe_duration (ffprobe_format tools (w_tick w) src) = Some D
    /\ file_at (trimmed_path i) w' = Some (trimmed_file src D)
    /\ (forall q, q <> trimmed_path i -> file_at q w' = file_at q w).
Proof.
  unfold trim_one, bind at 1, get_world.
  destruct (file_at (video_path i) w) as [src |] eqn:Hsrc; [| discriminate].
  unfold bind at 1, tick.
  destruct (probe_ok (ffprobe_format tools (w_tick w) src)) eqn:Hok;
    cbn [negb]; [| discriminate].
  destruct (probe_duration (ffprobe_format tools (w_tick w) src)) as [D |] eqn:HD;
    [| discriminate].
  intros H. exists src, D.
  assert (Hw : exists w0,
             write_file (trimmed_path i) (trimmed_file src D) w0 = (Ok tt, w')
             /\ forall q, file_at q w0 = file_at q w).
  { unfold trimmed_file. revert H.
    destruct (Float.ltb Float.zero (Float.sub D Float.four)).
    - unfold bind at 1, tick. cbn [w_tick set_tick].
      destruct (ffmpeg_ok tools _ _); [| discriminate].
      unfold bind at 1.
      destruct (write_file _ _ _) as [[[] | e] w1] eqn:Hw; [| discriminate].
      intros [= <-]. eexists. split; [exact Hw |].
      intros q. rewrite !file_at_set_tick. reflexivity.
    - unfold bind at 1.
      destruct (write_file _ _ _) as [[[] | e] w1] eqn:Hw; [| discriminate].
      intros [= <-]. eexists. split; [exact Hw |].
      intros q. apply file_at_set_tick. }
  destruct Hw as (w0 & Hw & Hsame).
  apply Files.write_file_ok in Hw as (Hf & Hother & _).
  split; [first [reflexivity | assumption] |].
  split; [first [reflexivity | assumption] |].
  split; [first [reflexivity | assumption] |].
  split; [exact Hf |].
  intros q Hq. rewrite (Hother q Hq). apply Hsame.
Qed.

(** The loop of [process_videos]: when it ends with [True], each
    index has its trimmed file, made from the download of the same
    index, and nothing else has been written. *)
Lemma trim_range_true (indices : list nat) : forall w w',
  List.NoDup indices ->
  trim_range tools indices w = (Ok true, w') ->
  (forall i, In i indices ->
     exists src D n,
       file_at (video_path i) w = Some src
       /\ probe_duration (ffprobe_format tools n src) = Some D
       /\ file_at (trimmed_path i) w' = Some (trimmed_file src D))
  /\ (forall q, (forall i, In i indices -> q <> trimmed_path i) ->
                file_at q w' = file_at q w).
Proof.
  induction indices as [| j rest IH]; intros w w' Hnd; cbn [trim_range].
  - intros [= <-]. split; [intros i [] | reflexivity].
  - unfold bind at 1.
    destruct (trim_one tools j w) as [[[|] | e] w1] eqn:Hj; try discriminate.
    intros Hrest. inversion Hnd as [| ? ? Hnotin Hnd']; subst.
    apply trim_one_true in Hj as (src & D & Hsrc & _ & HD & Hout & Hother).
    destruct (IH w1 w' Hnd' Hrest) as [Hfiles Hframe].
    split.
    + intros i [<- | Hi].
      * exists src, D, (w_tick w). repeat split; try assumption.
        rewrite Hframe; [exact Hout |].
        intros k Hk Heq. apply Files.trimmed_path_inj in Heq. subst k. contradiction.
      * destruct (Hfiles i Hi) as (src' & D' & n & Hs' & HD' & Ho').
        exists src', D', n. repeat split; try assumption.
        rewrite <- Hs'. symmetry. apply Hother. apply Files.video_not_trimmed.
    + intros q Hq. rewrite Hframe by (intros i Hi; apply Hq; right; exact Hi).
      apply Hother. apply Hq. left. reflexivity.
Qed.

Lemma concat_parts_length (indices : list nat) (w : World) (parts : list content) :
  concat_parts indices w = Some parts -> length parts = length indices.
Proof.
  revert parts. induction indices as [| i rest IH]; intros parts; cbn [concat_parts].
  - intros [= <-]. reflexivity.
  - destruct (file_at (trimmed_path i) w) as [c |]; [| discriminate].
    destruct (concat_parts rest w) as [cs |]; [| discriminate].
    intros [= <-]. cbn [length]. f_equal. apply IH. reflexivity.
Qed.

Lemma concat_parts_nth (indices : list nat) (w : World) (parts : list content) :
  concat_parts indices w = Some parts ->
  forall k part, nth_error parts k = Some part ->
    exists i, nth_error indices k = Some i /\ file_at (trimmed_path i) w = Some part.
Proof.
  revert parts. induction indices as [| i rest IH]; intros parts; cbn [concat_parts].
  - intros [= <-] [| k] part; discriminate.
  - destruct (file_at (trimmed_path i) w) as [c |] eqn:Hc; [| discriminate].
    destruct (concat_parts rest w) as [cs |]; [| discriminate].
    intros [= <-] [| k] part; cbn [nth_error].
    + intros [= <-]. eauto.
    + intros Hk. apply (IH cs eq_refl k part Hk).
Qed.

(** [merge_videos] returns [True] only after it has written the
    concatenation of the trimmed files, in the order of the indices,
    re-encoded to the target profile. *)
Lemma merge_videos_true (video_data : json) (w w' : World) :
  merge_videos tools video_data w = (Ok true, w') ->
  exists videos n parts,
    py_get video_data "videos" (JArr []) = Ok videos
    /\ py_len videos = Ok n
    /\ file_at (Output, "merged_temp.mp4") w' = Some (ConcatClip parts target_profile)
    /\ length parts = n
    /\ forall k part, nth_error parts k = Some part ->
         (k < n)%nat /\ file_at (trimmed_path k) w = Some part.
Proof.
  unfold merge_videos, try_except.
  unfold bind at 1, lift at 1.
  destruct (py_get video_data "videos" (JArr [])) as [videos | e] eqn:Hv; [| discriminate].
  unfold bind at 1.
  destruct (write_file (Videos, "concat_list.txt") (Bytes "") w) as [[[] | e] w1] eqn:Hw1;
    [| discriminate].
  unfold bind at 1, lift at 1.
  destruct (py_len videos) as [n | e] eqn:Hn; [| discriminate].
  unfold bind at 1.
  destruct (write_file (Videos, "concat_list.txt") (Bytes (concat_lines (seq 0 n))) w1)
    as [[[] | e] w2] eqn:Hw2; [| discriminate].
  unfold bind at 1, get_world. unfold bind at 1.
  unfold run_ffmpeg, bind at 1, tick.
  destruct (concat_parts (seq 0 n) w2) as [parts |] eqn:Hparts; [| discriminate].
  destruct (ffmpeg_ok tools (w_tick w2) (ConcatClip parts target_profile)); [| discriminate].
  destruct (write_file (Output, "merged_temp.mp4") (ConcatClip parts target_profile)
              (set_tick (S (w_tick w2)) w2)) as [[[] | e] w3] eqn:Hw3; [| discriminate].
  intros [= <-].
  apply Files.write_file_ok in Hw1 as (_ & Ho1 & _).
  apply Files.write_file_ok in Hw2 as (_ & Ho2 & _).
  apply Files.write_file_ok in Hw3 as (Hf3 & _ & _).
  exists videos, n, parts.
  split; [first [reflexivity | assumption] |].
  split; [first [reflexivity | assumption] |]. split; [exact Hf3 |].
  split; [rewrite (concat_parts_length _ _ _ Hparts); apply List.length_seq |].
  intros k part H.
  destruct (concat_parts_nth _ _ _ Hparts k part H) as (i & Hi & Hfile).
  assert (Hk : (k < List.length (seq 0 n))%nat) by (apply nth_error_Some; congruence).
  rewrite List.length_seq in Hk.
  split; [exact Hk |].
  assert (i = k).
  { apply (nth_error_nth _ _ 0%nat) in Hi. rewrite seq_nth in Hi; lia. }
  subst i.
  rewrite <- (Ho1 (trimmed_path k)) by (intros E; symmetry in E;
                                         exact (Files.concat_list_not_trimmed k E)).
  rewrite <- (Ho2 (trimmed_path k)) by (intros E; symmetry in E;
                                         exact (Files.concat_list_not_trimmed k E)).
  exact Hfile.
Qed.

End Media.

End Media.

(* ===================================================================== *)
(** * The claims about the media stages *)
(* ===================================================================== *)

(** A duration that is at most 4.0 is not above 4.0. *)
Lemma leb_four_not_ltb (D : Float.t) :
  Float.leb D Float.four = true -> Float.ltb Float.four D = false.
Proof.
  unfold Float.leb, Float.ltb, SFleb, SFltb, Float.four.
  generalize 4503599627370496%positive. intros m4.
  generalize (-50). intros e4.
  destruct D as [s | [] | | [] m e]; cbn [SFcompare]; try reflexivity; try discriminate.
  rewrite (Z.compare_antisym e e4).
  destruct (e ?= e4) eqn:He; cbn [CompOpp]; try reflexivity; try discriminate.
  change (PosDef.Pos.compare_cont Eq m m4) with (Pos.compare m m4).
  change (PosDef.Pos.compare_cont Eq m4 m) with (Pos.compare m4 m).
  rewrite (Pos.compare_antisym m m4).
  destruct (Pos.compare m m4); cbn [CompOpp]; try reflexivity; discriminate.
Qed.

(** The trim of one video goes through when the download is there, the
    probe answers and, if a clip has to be cut, ffmpeg succeeds. *)
Lemma trim_one_returns (tools : Tools) (i : nat) (w : World) (src : content) (D : Float.t) :
  file_at (video_path i) w = Some src ->
  probe_ok (ffprobe_format tools (w_tick w) src) = true ->
  probe_duration (ffprobe_format tools (w_tick w) src) = Some D ->
  (Float.ltb Float.zero (Float.sub D Float.four) = true ->
   ffmpeg_ok tools (S (w_tick w))
     (TrimClip src 2 (Float.sub D Float.four) target_profile) = true) ->
  exists w', trim_one tools i w = (Ok true, w').
Proof.
  intros Hsrc Hok HD Hff.
  assert (Hdir : exists files, w_videos w = Some files).
  { unfold file_at, video_path in Hsrc. cbn [fst get_dir] in Hsrc.
    destruct (w_videos w); [eauto | discriminate]. }
  destruct Hdir as [files Hdir].
  unfold trim_one, bind at 1, get_world. rewrite Hsrc.
  unfold bind at 1, tick. rewrite Hok, HD. cbn [negb].
  destruct (Float.ltb Float.zero (Float.sub D Float.four)).
  - unfold bind at 1, tick. cbn [w_tick set_tick]. rewrite (Hff eq_refl).
    unfold bind, write_file, bind, get_world, modify, ret.
    cbn [fst snd trimmed_path get_dir set_tick w_videos]. rewrite Hdir.
    eexists. reflexivity.
  - unfold bind, write_file, bind, get_world, modify, ret.
    cbn [fst snd trimmed_path get_dir set_tick w_videos]. rewrite Hdir.
    eexists. reflexivity.
Qed.

(** [process_videos] returns [True] only when the loop over the
    indices of the videos did. *)
Lemma process_videos_true (tools : Tools) (video_data : json) (w w' : World) :
  process_videos tools video_data w = (Ok true, w') ->
  exists videos n,
    py_get video_data "videos" (JArr []) = Ok videos
    /\ py_len videos = Ok n
    /\ trim_range tools (seq 0 n) w = (Ok true, w').
Proof.
  unfold process_videos, try_except.
  unfold bind at 1, lift at 1.
  destruct (py_get video_data "videos" (JArr [])) as [videos | e] eqn:Hv; [| discriminate].
  unfold bind at 1, lift at 1.
  destruct (py_len videos) as [n | e] eqn:Hn; [| discriminate].
  destruct (trim_range tools (seq 0 n) w) as [[ok | e] w1] eqn:Hr; [| discriminate].
  intros [= -> <-]. exists videos, n. auto.
Qed.

(** The loop of the trim stage goes through when every index has its
    download, the probe answers with a duration, and ffmpeg succeeds
    on the clip it is asked for. *)
Lemma trim_range_returns (tools : Tools) (indices : list nat) : forall w,
  (forall i, In i indices ->
     exists src,
       file_at (video_path i) w = Some src
       /\ forall t,
            probe_ok (ffprobe_format tools t src) = true
            /\ exists D,
                 probe_duration (ffprobe_format tools t src) = Some D
                 /\ forall t',
                      ffmpeg_ok tools t'
                        (TrimClip src 2 (Float.sub D Float.four) target_profile) = true) ->
  exists w', trim_range tools indices w = (Ok true, w').
Proof.
  induction indices as [| j rest IH]; intros w Hall; cbn [trim_range].
  - eexists. reflexivity.
  - destruct (Hall j (or_introl eq_refl)) as (src & Hsrc & Hprobe).
    destruct (Hprobe (w_tick w)) as (Hok & D & HD & Hff).
    destruct (trim_one_returns tools j w src D Hsrc Hok HD (fun _ => Hff _)) as [w1 Hj].
    unfold bind at 1. rewrite Hj.
    apply IH. intros i Hi.
    destruct (Hall i (or_intror Hi)) as (src' & Hsrc' & Hrest).
    exists src'. split; [| exact Hrest].
    apply Media.trim_one_true in Hj as (src0 & D0 & _ & _ & _ & _ & Hother).
    rewrite Hother; [exact Hsrc' | apply Files.video_not_trimmed].
Qed.

(** C7.  The trim stage goes over every listed video, in order.  It
    returns [True] when each of them has its download, the probe
    answers with a duration and ffmpeg succeeds; and when it has
    returned [True], every listed video has its trimmed file: for a
    download that probes to the duration [D], the clip that starts at
    second 2 and lasts [D - 4] seconds when [D > 4], and the download
    itself, byte for byte, when [D <= 4].  The download is left in
    place in both cases.  One round of the loop does this for one
    video. *)
Theorem C7_trim_removes_four_seconds
    (tools : Tools) (video_data videos : json) (n : nat) (w : World) :
  py_get video_data "videos" (JArr []) = Ok videos ->
  py_len videos = Ok n ->
  ((forall k, (k < n)%nat ->
      exists src,
        file_at (video_path k) w = Some src
        /\ forall t,
             probe_ok (ffprobe_format tools t src) = true
             /\ exists D,
                  probe_duration (ffprobe_format tools t src) = Some D
                  /\ forall t',
                       ffmpeg_ok tools t'
                         (TrimClip src 2 (Float.sub D Float.four) target_profile) = true) ->
   exists w', process_videos tools video_data w = (Ok true, w'))
  /\ (forall w',
        process_videos tools video_data w = (Ok true, w') ->
        forall k, (k < n)%nat ->
          exists src D t,
            file_at (video_path k) w = Some src
            /\ probe_duration (ffprobe_format tools t src) = Some D
            /\ file_at (video_path k) w' = Some src
            /\ (Float.valid D = true -> Float.ltb Float.four D = true ->
                file_at (trimmed_path k) w'
                = Some (TrimClip src 2 (Float.sub D Float.four) target_profile))
            /\ (Float.valid D = true -> Float.leb D Float.four = true ->
                file_at (trimmed_path k) w' = Some src))
  /\ (forall (i : nat) (w0 : World) (src : content) (D : Float.t),
        file_at (video_path i) w0 = Some src ->
        probe_ok (ffprobe_format tools (w_tick w0) src) = true ->
        probe_duration (ffprobe_format tools (w_tick w0) src) = Some D ->
        Float.valid D = true ->
        (Float.ltb Float.four D = true ->
         ffmpeg_ok tools (S (w_tick w0))
           (TrimClip src 2 (Float.sub D Float.four) target_profile) = true ->
         exists w',
           trim_one tools i w0 = (Ok true, w')
           /\ file_at (trimmed_path i) w'
              = Some (TrimClip src 2 (Float.sub D Float.four) target_profile)
           /\ file_at (video_path i) w' = Some src)
        /\ (Float.leb D Float.four = true ->
            exists w',
              trim_one tools i w0 = (Ok true, w')
              /\ file_at (trimmed_path i) w' = Some src
              /\ file_at (video_path i) w' = Some src)).
Proof.
  intros Hvideos Hlen. split; [| split].
  - intros Hall.
    destruct (trim_range_returns tools (seq 0 n) w) as [w' Hrange].
    { intros i Hi. apply Hall. apply in_seq in Hi. lia. }
    exists w'. unfold process_videos, try_except.
    unfold bind at 1, lift at 1. rewrite Hvideos.
    unfold bind at 1, lift at 1. rewrite Hlen, Hrange. reflexivity.
  - intros w' Hrun k Hk.
    apply process_videos_true in Hrun as (videos' & n' & Hv & Hn & Hrange).
    assert (Hvv : videos' = videos) by congruence. rewrite Hvv in *. clear Hvv Hv.
    assert (Hnn : n' = n) by congruence. rewrite Hnn in *. clear Hnn Hn.
    destruct (Media.trim_range_true tools (seq 0 n) w w' (seq_NoDup n 0) Hrange)
      as [Hfiles Hframe].
    destruct (Hfiles k) as (src & D & t & Hsrc & HD & Htrim).
    { apply in_seq. lia. }
    exists src, D, t. split; [exact Hsrc |]. split; [exact HD |]. split.
    { rewrite Hframe; [exact Hsrc |]. intros i _. apply Files.video_not_trimmed. }
    unfold trimmed_file in Htrim.
    split.
    + intros Hvalid Hgt.
      rewrite (FloatFacts.sub_four_positive D Hvalid), Hgt in Htrim. exact Htrim.
    + intros Hvalid Hle. apply leb_four_not_ltb in Hle.
      rewrite (FloatFacts.sub_four_positive D Hvalid), Hle in Htrim. exact Htrim.
  - intros i w0 src D Hsrc Hok HD Hvalid.
    pose proof (FloatFacts.sub_four_positive D Hvalid) as Hcmp.
    assert (Hfile : forall w',
               trim_one tools i w0 = (Ok true, w') ->
               file_at (trimmed_path i) w' = Some (trimmed_file src D)
               /\ file_at (video_path i) w' = Some src).
    { intros w' Hrun.
      apply Media.trim_one_true in Hrun as (src' & D' & Hs' & _ & HD' & Hout & Hother).
      assert (src' = src) by congruence. assert (D' = D) by congruence. subst src' D'.
      split; [exact Hout |].
      rewrite Hother; [exact Hsrc | apply Files.video_not_trimmed]. }
    split.
    + intros Hgt Hff.
      destruct (trim_one_returns tools i w0 src D Hsrc Hok HD (fun _ => Hff)) as [w' Hrun].
      exists w'. split; [exact Hrun |].
      destruct (Hfile w' Hrun) as [Hout Hin]. unfold trimmed_file in Hout.
      rewrite Hcmp, Hgt in Hout. auto.
    + intros Hle. apply leb_four_not_ltb in Hle.
      destruct (trim_one_returns tools i w0 src D Hsrc Hok HD) as [w' Hrun].
      { rewrite Hcmp, Hle. discriminate. }
      exists w'. split; [exact Hrun |].
      destruct (Hfile w' Hrun) as [Hout Hin]. unfold trimmed_file in Hout.
      rewrite Hcmp, Hle in Hout. auto.
Qed.

Lemma C7_witness :
  let tools := Scenario.tools_ok Scenario.ten in
  let w := snd (download_videos tools Scenario.kettle
                  (with_directories (Scenario.one_job Scenario.environ_full))) in
  let src := Bytes "video from https://cdn/kettle.mp4" in
  exists w',
    process_videos tools Scenario.kettle w = (Ok true, w')
    /\ file_at (video_path 0) w = Some src
    /\ file_at (trimmed_path 0) w'
       = Some (TrimClip src 2 (Float.sub Scenario.ten Float.four) target_profile)
    /\ file_at (video_path 0) w' = Some src.
Proof.
  intros tools w src.
  destruct (C7_trim_removes_four_seconds tools Scenario.kettle
              (JArr [JObj [("url", JStr "https://cdn/kettle.mp4")]]) 1 w
              eq_refl eq_refl) as (Hreturns & Hfiles & _).
  destruct Hreturns as [w' Hrun].
  { intros k Hk. exists src. split.
    - destruct k as [| k]; [vm_compute; reflexivity | lia].
    - intros t. split; [reflexivity |].
      exists Scenario.ten. split; [reflexivity |]. intros t'. reflexivity. }
  exists w'. split; [exact Hrun |].
  destruct (Hfiles w' Hrun 0%nat (Nat.lt_0_1)) as (src' & D & t & Hsrc & HD & Hkept & Hlong & _).
  assert (Hw : file_at (video_path 0) w = Some src) by (vm_compute; reflexivity).
  rewrite Hw in Hsrc. injection Hsrc as <-.
  injection HD as <-.
  split; [exact Hw |]. split; [| exact Hkept].
  apply Hlong; vm_compute; reflexivity.
Defined.

(** C4 (as the code has it).  Every asset handed to the concatenation
    comes from the download of the same index, and depends on the
    duration [D] that ffprobe reported for that download in the trim
    stage: it is re-encoded to the fixed target profile when [D] is
    more than 4 seconds, and it is the download itself, not re-encoded,
    otherwise; the concatenation re-encodes its output to the same
    target profile. *)
Theorem C4_concat_inputs
    (tools : Tools) (video_data : json) (w w1 w2 : World) :
  probe_reports_floats tools ->
  process_videos tools video_data w = (Ok true, w1) ->
  merge_videos tools video_data w1 = (Ok true, w2) ->
  exists parts,
    file_at (Output, "merged_temp.mp4") w2 = Some (ConcatClip parts target_profile)
    /\ py_len (dict_get_videos video_data) = Ok (length parts)
    /\ forall k part,
         nth_error parts k = Some part ->
         exists src D t,
           file_at (video_path k) w = Some src
           /\ probe_duration (ffprobe_format tools t src) = Some D
           /\ ((Float.ltb Float.four D = true
                /\ part = TrimClip src 2 (Float.sub D Float.four) target_profile
                /\ reencoded_to_target part = true)
               \/ (Float.ltb Float.four D = false /\ part = src)).
Proof.
  intros Hprobe Hpv Hmv.
  apply process_videos_true in Hpv as (videos & n & Hv & Hn & Hrange).
  apply Media.merge_videos_true in Hmv
    as (videos' & n' & parts & Hv' & Hn' & Hout & Hlen & Hparts).
  assert (Hvv : videos' = videos) by congruence. rewrite Hvv in *. clear Hvv Hv'.
  assert (Hnn : n' = n) by congruence. rewrite Hnn in *. clear Hnn Hn'.
  destruct (Media.trim_range_true tools (seq 0 n) w w1 (seq_NoDup n 0) Hrange)
    as [Hfiles _].
  exists parts. split; [exact Hout |]. split.
  { unfold dict_get_videos. rewrite Hv, Hlen. exact Hn. }
  intros k part Hk.
  destruct (Hparts k part Hk) as [Hlt Hfile].
  destruct (Hfiles k) as (src & D & t & Hsrc & HD & Htrim).
  { apply in_seq. lia. }
  exists src, D, t. split; [exact Hsrc |]. split; [exact HD |].
  assert (part = trimmed_file src D) by congruence. subst part.
  unfold trimmed_file.
  rewrite (FloatFacts.sub_four_positive D (Hprobe _ _ _ HD)).
  destruct (Float.ltb Float.four D); [left | right]; auto.
Qed.

Lemma C4_witness :
  let tools := Scenario.tools_ok Scenario.ten in
  let w := snd (download_videos tools Scenario.kettle
                  (with_directories (Scenario.one_job Scenario.environ_full))) in
  let w1 := snd (process_videos tools Scenario.kettle w) in
  let w2 := snd (merge_videos tools Scenario.kettle w1) in
  exists parts,
    file_at (Output, "merged_temp.mp4") w2 = Some (ConcatClip parts target_profile)
    /\ length parts = 1%nat.
Proof.
  intros tools w w1 w2.
  assert (Hp : probe_reports_floats tools).
  { intros n c D H. injection H as <-. vm_compute. reflexivity. }
  assert (H1 : process_videos tools Scenario.kettle w = (Ok true, w1))
    by (vm_compute; reflexivity).
  assert (H2 : merge_videos tools Scenario.kettle w1 = (Ok true, w2))
    by (vm_compute; reflexivity).
  destruct (C4_concat_inputs tools Scenario.kettle w w1 w2 Hp H1 H2)
    as (parts & Hout & Hlen & _).
  exists parts. split; [exact Hout |].
  vm_compute in Hlen. injection Hlen as Hlen. symmetry. exact Hlen.
Defined.

(** C4, as stated, fails: a download that probes to 3 seconds reaches
    the concatenation as the bytes curl wrote, not re-encoded. *)
Lemma C4_counterexample :
  let tools := Scenario.tools_ok Scenario.three in
  let w' := snd (main tools (Scenario.one_job Scenario.environ_full)) in
  file_at (Output, "merged_temp.mp4") w'
  = Some (ConcatClip [Bytes "video from https://cdn/kettle.mp4"] target_profile)
  /\ reencoded_to_target (Bytes "video from https://cdn/kettle.mp4") = false
  /\ Float.leb Scenario.three Float.four = true.
Proof.
  vm_compute. repeat split; reflexivity.
Qed.

(** What the cleanup does: before each job that passes the validation
    is processed, the videos and the output directory are emptied, and
    [process_product] starts from there. *)
Lemma cleanup_empties_videos_and_output
    (tools : Tools) (self : VideoProcessor) :
  (forall w, cleanup_directories w = (Ok tt, cleaned w))
  /\ (forall w name,
         file_at (Videos, name) (cleaned w) = None
         /\ file_at (Output, name) (cleaned w) = None)
  /\ (forall s product_id items w,
         no_videos (dict_get items "videos" (JArr [])) = false ->
         exists r w1,
           process_product tools self product_id (JObj items) (cleaned w) = (Ok r, w1)
           /\ run_product tools self s (product_id, JObj items) w
              = (if str_truthy r
                 then try_except
                        (update_merge_status tools self product_id (default "" r);;;
                         ret (succeeded s))
                        (fun _ => ret (failed s))
                 else ret (failed s)) w1).
Proof.
  split; [| split].
  - apply Frame.cleanup_directories_eq.
  - intros w name. unfold file_at, cleaned. cbn [fst snd].
    destruct w as [env db [v |] [o |] sc vj b t];
      cbn [option_map set_dir get_dir w_videos w_output];
      split; first [reflexivity | apply lookup_empty].
  - intros s product_id items w Hv.
    destruct (Frame.process_product_db tools self product_id (JObj items) (cleaned w))
      as (r & w1 & Hpp & _).
    exists r, w1. split; [exact Hpp |].
    unfold run_product. cbn [fst snd is_none is_dict negb].
    unfold bind at 1. cbn [lift py_get]. rewrite Hv.
    unfold bind at 1. rewrite Frame.cleanup_directories_eq.
    unfold bind at 1. rewrite Hpp. reflexivity.
Qed.

(** C2.  The code does not keep the invariant that no job observes a
    file left by a previous job: [cleanup_directories] empties the
    videos and the output directory only, while the generated script
    text and the overlay text are in the scripts directory.  In the
    sweep of two jobs in which the script writes an overlay text for
    the first job and none for the second, both texts of the first job
    are still there after the cleanup that precedes the second job,
    [add_text_overlay] finds the overlay file and does not fall back to
    the name of the product, and the video of the second job (a lamp)
    is published with the caption of the first (a kettle).  Swept on
    its own, the second job is published with the name of its
    product. *)
Theorem C2_stale_caption_published :
  let tools := Scenario.tools_ok Scenario.ten in
  let s := {| success_count := 0; failed_count := 0; skipped_count := 0 |} in
  let after_first := snd (run_product tools Scenario.processor s (1, Scenario.kettle)
                            (with_directories Scenario.two_jobs)) in
  let final := snd (main tools Scenario.two_jobs) in
  let alone :=
    snd (main tools (Scenario.world Scenario.environ_full [Scenario.row 2 Scenario.lamp])) in
  cleanup_directories after_first = (Ok tt, cleaned after_first)
  /\ file_at (Scripts, "text_overlay.txt") (cleaned after_first)
     = Some (Bytes "Boils in a minute")
  /\ file_at (Scripts, "generated_script.txt") (cleaned after_first)
     = Some (Bytes "narration")
  /\ fst (main tools Scenario.two_jobs) = 0
  /\ map (fun o => (o_key o, caption_of (o_body o))) (w_bucket final)
     = [("merged_videos/20260101_000000_product_2_Lamp.mp4",
         Some (Text.of_string "Boils in a minute"));
        ("merged_videos/20260101_000000_product_1_Kettle.mp4",
         Some (Text.of_string "Boils in a minute"))]
  /\ map (fun o => (o_key o, caption_of (o_body o))) (w_bucket alone)
     = [("merged_videos/20260101_000000_product_2_Lamp.mp4",
         Some (Text.of_string "Lamp"))].
Proof.
  vm_compute. repeat split; reflexivity.
Qed.

(** C5 (as the code has it).  When [DATABASE_URL], [R2_ACCESS_KEY_ID],
    [R2_SECRET_ACCESS_KEY] or [R2_ENDPOINT] is missing from the
    environment (or empty), or the storage client cannot be built from
    the endpoint and the credentials, the process exits with status 1
    at startup and the world is untouched: no job is fetched.  When the
    four are set and the client can be built, [__init__] succeeds
    whatever the other variables are: the bucket, the text-generation
    endpoint and the model have defaults, and the two API keys are
    taken as they are, set or not. *)
Theorem C5_startup_checks (tools : Tools) :
  (forall w,
      str_truthy (w_environ w !! "DATABASE_URL") = false
      \/ str_truthy (w_environ w !! "R2_ACCESS_KEY_ID") = false
      \/ str_truthy (w_environ w !! "R2_SECRET_ACCESS_KEY") = false
      \/ str_truthy (w_environ w !! "R2_ENDPOINT") = false
      \/ boto3_client_ok tools (w_environ w !! "R2_ENDPOINT")
           (w_environ w !! "R2_ACCESS_KEY_ID") (w_environ w !! "R2_SECRET_ACCESS_KEY")
         = false ->
      main tools w = (1, w))
  /\ (forall environ : gmap string string,
         str_truthy (environ !! "DATABASE_URL") = true ->
         str_truthy (environ !! "R2_ACCESS_KEY_ID") = true ->
         str_truthy (environ !! "R2_SECRET_ACCESS_KEY") = true ->
         str_truthy (environ !! "R2_ENDPOINT") = true ->
         boto3_client_ok tools (environ !! "R2_ENDPOINT")
           (environ !! "R2_ACCESS_KEY_ID") (environ !! "R2_SECRET_ACCESS_KEY") = true ->
         exists p,
           VideoProcessor_init tools environ = Ok p
           /\ r2_bucket p = default "yt-2-tiktok" (environ !! "R2_BUCKET_NAME")
           /\ huggingface_endpoint p
              = default "https://router.huggingface.co/v1/chat/completions"
                        (environ !! "HUGGINGFACE_ENDPOINT")
           /\ huggingface_model p
              = default "deepseek-ai/DeepSeek-V3.2-Exp" (environ !! "HUGGINGFACE_MODEL")
           /\ huggingface_api_key p = environ !! "HUGGINGFACE_API_KEY"
           /\ zalo_api_key p = environ !! "ZALO_API_KEY").
Proof.
  split.
  - intros w H. unfold main, VideoProcessor_init.
    destruct (str_truthy (w_environ w !! "DATABASE_URL")); cbn [negb]; [| reflexivity].
    destruct (forallb str_truthy _) eqn:Hall; cbn [negb]; [| reflexivity].
    destruct (boto3_client_ok tools _ _ _) eqn:Hclient; cbn [negb]; [| reflexivity].
    exfalso. cbn [forallb] in Hall.
    apply andb_true_iff in Hall as [Ha Hall].
    apply andb_true_iff in Hall as [Hs Hall].
    apply andb_true_iff in Hall as [He _].
    destruct H as [H | [H | [H | [H | H]]]]; congruence.
  - intros environ H1 H2 H3 H4 H5. unfold VideoProcessor_init.
    rewrite H1. cbn [negb forallb]. rewrite H2, H3, H4, H5. cbn [andb negb].
    eexists. split; [reflexivity |]. repeat split.
Qed.

Lemma C5_witness :
  let tools := Scenario.tools_ok Scenario.ten in
  let w := Scenario.one_job ∅ in
  let malformed := Scenario.one_job (<["R2_ENDPOINT" := "r2"]> Scenario.environ_required) in
  main tools w = (1, w)
  /\ main tools malformed = (1, malformed)
  /\ exists p, VideoProcessor_init tools Scenario.environ_required = Ok p.
Proof.
  intros tools w malformed.
  split; [| split].
  - apply (proj1 (C5_startup_checks tools) w). left. reflexivity.
  - apply (proj1 (C5_startup_checks tools) malformed).
    right. right. right. right. vm_compute. reflexivity.
  - destruct (proj2 (C5_startup_checks tools) Scenario.environ_required)
      as (p & Hp & _); try (vm_compute; reflexivity).
    exists p. exact Hp.
Defined.

(** C5, as stated, fails: with the bucket, the text-generation
    endpoint, model and key and the speech-synthesis key all missing,
    the process does not abort at startup; it fetches the pending job,
    downloads, trims and merges its video, fails the job at the script
    generation and exits with status 0. *)
Lemma C5_counterexample :
  let environ := Scenario.environ_required in
  let w := Scenario.one_job environ in
  let final := snd (main (Scenario.tools_ok Scenario.ten) w) in
  environ !! "R2_BUCKET_NAME" = None
  /\ environ !! "HUGGINGFACE_ENDPOINT" = None
  /\ environ !! "HUGGINGFACE_MODEL" = None
  /\ environ !! "HUGGINGFACE_API_KEY" = None
  /\ environ !! "ZALO_API_KEY" = None
  /\ fst (main (Scenario.tools_ok Scenario.ten) w) = 0
  /\ w_tick final = 7%nat
  /\ file_at (Videos, "video_0.mp4") final
     = Some (Bytes "video from https://cdn/kettle.mp4")
  /\ (exists clip, file_at (Output, "merged_temp.mp4") final = Some clip)
  /\ w_db final = w_db w.
Proof.
  vm_compute. repeat split; try reflexivity. eexists. reflexivity.
Qed.

(* ===================================================================== *)
(** * Further facts about the stages *)
(* ===================================================================== *)

Module Pipeline.

Section Pipeline.

Variable tools : Tools.
Variable self : VideoProcessor.

(** Run the first statement of a sequence that is known to return. *)
Ltac run_stage H :=
  unfold bind at 1 in H;
  lazymatch type of H with
  | context [match ?m ?w with _ => _ end] =>
      let a := fresh "a" in
      let e := fresh "e" in
      let w1 := fresh "w" in
      let Hs := fresh "Hs" in
      destruct (m w) as [[a | e] w1] eqn:Hs; [| discriminate H]
  end.

Lemma process_product_stages (product_id : Z) (video_data : json) (w w' : World)
    (url : string) :
  process_product tools self product_id video_data w = (Ok (Some url), w') ->
  exists code w1 w2 w3 w4 w5 w6 w7,
    download_videos tools video_data (set_video_data_json (Some video_data) w)
    = (Ok (true, code), w1)
    /\ process_videos tools video_data w1 = (Ok true, w2)
    /\ merge_videos tools video_data w2 = (Ok true, w3)
    /\ generate_script tools self w3 = (Ok true, w4)
    /\ generate_audio tools self w4 = (Ok true, w5)
    /\ add_audio tools w5 = (Ok true, w6)
    /\ add_text_overlay tools video_data w6 = (Ok true, w7)
    /\ upload_to_r2 tools self (Output, "final_merged_video.mp4") product_id video_data w7
       = (Ok (Some url), w').
Proof.
  unfold process_product, try_except. intros H.
  match type of H with
  | match ?body w with _ => _ end = _ =>
      destruct (body w) as [[r | e] w0] eqn:Hbody; [| discriminate H]
  end.
  injection H as -> ->.
  destruct video_data as [| b | n | f | s | l | items]; cbn [is_none is_dict negb] in Hbody;
    try discriminate Hbody.
  run_stage Hbody. injection Hs as _ <-.
  destruct (no_videos a); [discriminate Hbody |].
  run_stage Hbody. injection Hs as _ <-.
  run_stage Hbody. injection Hs as _ <-.
  run_stage Hbody. injection Hs as _ <-.
  run_stage Hbody. destruct a3 as [ok code]. cbn [fst snd] in Hbody.
  destruct ok; cbn [negb] in Hbody.
  2: { run_stage Hbody. discriminate Hbody. }
  run_stage Hbody. destruct a3; cbn [negb] in Hbody; [| discriminate Hbody].
  run_stage Hbody. destruct a3; cbn [negb] in Hbody; [| discriminate Hbody].
  run_stage Hbody. destruct a3; cbn [negb] in Hbody; [| discriminate Hbody].
  run_stage Hbody. destruct a3; cbn [negb] in Hbody; [| discriminate Hbody].
  run_stage Hbody. destruct a3; cbn [negb] in Hbody; [| discriminate Hbody].
  run_stage Hbody. destruct a3; cbn [negb] in Hbody; [| discriminate Hbody].
  exists code, w0, w1, w2, w3, w4, w5, w6.
  repeat (split; [first [reflexivity | assumption] |]). exact Hbody.
Qed.

End Pipeline.

End Pipeline.

Module Publish.

Lemma all_chars_app (p : ascii -> bool) (s t : string) :
  Str.all_chars p (s ++ t) = Str.all_chars p s && Str.all_chars p t.
Proof.
  induction s as [| c s IH]; [reflexivity |].
  change (p c && Str.all_chars p (s ++ t)
          = p c && Str.all_chars p s && Str.all_chars p t).
  rewrite IH. apply andb_assoc.
Qed.

Lemma all_chars_take (p : ascii -> bool) (n : nat) : forall s,
  Str.all_chars p s = true -> Str.all_chars p (Str.take n s) = true.
Proof.
  induction n as [| n IH]; intros [| c s]; cbn [Str.take Str.all_chars]; auto.
  intros H. apply andb_true_iff in H as [Hc Hs]. rewrite Hc. cbn [andb]. auto.
Qed.

Lemma length_take (n : nat) : forall s, (String.length (Str.take n s) <= n)%nat.
Proof.
  induction n as [| n IH]; intros [| c s]; cbn [Str.take String.length]; try lia.
  specialize (IH s). lia.
Qed.

Lemma all_chars_weaken (p q : ascii -> bool) (s : string) :
  (forall c, p c = true -> q c = true) ->
  Str.all_chars p s = true -> Str.all_chars q s = true.
Proof.
  intros Hpq. induction s as [| c s IH]; cbn [Str.all_chars]; [reflexivity |].
  intros H. apply andb_true_iff in H as [Hc Hs]. rewrite (Hpq c Hc), (IH Hs). reflexivity.
Qed.

Lemma slug_piece_safe (c : json) (t : string) :
  slug_piece c = Ok t -> Str.all_chars slug_char t = true.
Proof.
  destruct c as [| | | | s | |]; cbn [slug_piece]; try discriminate.
  intros [= <-].
  destruct (Str.all_chars Str.is_alnum s) eqn:Halnum.
  - assert (Hs : Str.all_chars slug_char s = true).
    { apply (all_chars_weaken Str.is_alnum); [| exact Halnum].
      intros c Hc. unfold slug_char. rewrite Hc. reflexivity. }
    rewrite andb_true_r.
    destruct (negb (s =? "")%string || _); [exact Hs | reflexivity].
  - rewrite andb_false_r. cbn [orb].
    destruct (s =? "")%string eqn:E1; [apply String.eqb_eq in E1; subst s; reflexivity |].
    destruct (s =? "-")%string eqn:E2; [apply String.eqb_eq in E2; subst s; reflexivity |].
    destruct (s =? "_")%string eqn:E3; [apply String.eqb_eq in E3; subst s; reflexivity |].
    destruct (s =? "-_")%string eqn:E4; [apply String.eqb_eq in E4; subst s; reflexivity |].
    reflexivity.
Qed.

Lemma slug_join_safe (items : list json) : forall joined,
  slug_join items = Ok joined -> Str.all_chars slug_char joined = true.
Proof.
  induction items as [| c rest IH]; cbn [slug_join]; intros joined.
  - intros [= <-]. reflexivity.
  - destruct (slug_piece c) as [t | e] eqn:Hc; [| discriminate].
    destruct (slug_join rest) as [u | e]; [| discriminate].
    intros [= <-]. rewrite all_chars_app, (slug_piece_safe _ _ Hc), (IH u eq_refl).
    reflexivity.
Qed.

Section Publish.

Variable tools : Tools.
Variable self : VideoProcessor.

(** The slug [upload_to_r2] makes of a descriptor, before it is cut
    to 50 characters. *)
Lemma upload_to_r2_eq (p : path) (product_id : Z) (video_data : json) (w : World) :
  upload_to_r2 tools self p product_id video_data w =
  match py_get video_data "productInfo" (JObj []) with
  | Ok info =>
      match py_get info "name" (JStr "product") with
      | Ok name =>
          match py_iter name with
          | Ok items =>
              match slug_join items with
              | Ok joined =>
                  match file_at p w with
                  | Some body =>
                      let object :=
                        {| o_bucket := r2_bucket self;
                           o_key := "merged_videos/" ++ strftime_now tools (w_tick w)
                                    ++ "_product_" ++ Str.of_Z product_id ++ "_"
                                    ++ Str.take 50 joined ++ ".mp4";
                           o_body := body;
                           o_content_type := "video/mp4";
                           o_metadata :=
                             [("product_id", Str.of_Z product_id);
                              ("processed_at", isoformat_now tools (S (w_tick w)))] |} in
                      if put_object_ok tools (S (S (w_tick w))) object then
                        (Ok (Some (public_url_prefix ++ o_key object)),
                         set_bucket (object :: w_bucket w)
                                    (set_tick (S (S (S (w_tick w)))) w))
                      else (Ok None, set_tick (S (S (S (w_tick w)))) w)
                  | None => (Ok None, set_tick (S (w_tick w)) w)
                  end
              | Raise _ => (Ok None, set_tick (S (w_tick w)) w)
              end
          | Raise _ => (Ok None, set_tick (S (w_tick w)) w)
          end
      | Raise _ => (Ok None, set_tick (S (w_tick w)) w)
      end
  | Raise _ => (Ok None, set_tick (S (w_tick w)) w)
  end.
Proof.
  unfold upload_to_r2, try_except, bind, lift, tick, get_world, modify, ret, raise.
  destruct (py_get video_data "productInfo" (JObj [])) as [info | e]; [| reflexivity].
  destruct (py_get info "name" (JStr "product")) as [name | e]; [| reflexivity].
  destruct (py_iter name) as [items | e]; [| reflexivity].
  destruct (slug_join items) as [joined | e]; [| reflexivity].
  change (file_at p (set_tick (S (w_tick w)) w)) with (file_at p w).
  destruct (file_at p w) as [body |]; [| reflexivity].
  cbv zeta. cbn [w_tick set_tick o_key].
  match goal with
  | |- context [put_object_ok tools ?n ?o] => destruct (put_object_ok tools n o)
  end; reflexivity.
Qed.

End Publish.

End Publish.

Module Narration.

Section Narration.

Variable tools : Tools.
Variable self : VideoProcessor.

(** An ffmpeg job that went through: it had its inputs, it exited
    with status 0, and its output is the only file it wrote. *)
Lemma run_ffmpeg_ok (job : option content) (p : path) (w w' : World) :
  run_ffmpeg tools job p w = (Ok tt, w') ->
  exists c,
    job = Some c
    /\ ffmpeg_ok tools (w_tick w) c = true
    /\ file_at p w' = Some c
    /\ (forall q, q <> p -> file_at q w' = file_at q w)
    /\ w_tick w' = S (w_tick w).
Proof.
  unfold run_ffmpeg, bind at 1, tick.
  destruct job as [c |]; [| discriminate].
  destruct (ffmpeg_ok tools (w_tick w) c) eqn:Hok; [| discriminate].
  intros H. apply Files.write_file_ok in H as (Hf & Hother & Ht).
  exists c. split; [reflexivity |]. split; [exact Hok |]. split; [exact Hf |].
  split; [| exact Ht].
  intros q Hq. rewrite (Hother q Hq). apply Media.file_at_set_tick.
Qed.

(** [get_video_duration] always returns: the duration ffprobe printed,
    or [0.0] when the file is missing, ffprobe fails or its output is
    no number. *)
Lemma get_video_duration_eq (p : path) (w : World) :
  get_video_duration tools p w =
  (Ok (match file_at p w with
       | Some c =>
           if probe_ok (ffprobe_format tools (w_tick w) c)
           then default Float.zero (probe_duration (ffprobe_format tools (w_tick w) c))
           else Float.zero
       | None => Float.zero
       end),
   set_tick (S (w_tick w)) w).
Proof.
  unfold get_video_duration, try_except, bind, get_world, tick, raise, ret.
  destruct (file_at p w) as [c |]; [| reflexivity].
  destruct (probe_ok (ffprobe_format tools (w_tick w) c)); cbn [negb]; [| reflexivity].
  destruct (probe_duration (ffprobe_format tools (w_tick w) c)); reflexivity.
Qed.

Lemma write_if_returns (p : path) (data : option string) (w : World) :
  exists w', write_if p data w = (Ok tt, w')
             /\ w_tick w' = w_tick w
             /\ (forall q, fst q <> fst p -> file_at q w' = file_at q w)
             /\ (forall q, q <> p -> file_at q w' = file_at q w)
             /\ (forall c, file_at p w = Some c -> exists c', file_at p w' = Some c').
Proof.
  unfold write_if. destruct data as [s |].
  - unfold try_except.
    destruct (write_file p (Bytes s) w) as [[[] | e] w1] eqn:Hw.
    + apply Files.write_file_ok in Hw as (Hf & Hother & Ht).
      exists w1. repeat split; try assumption.
      * intros q Hq. apply Hother. intros ->. contradiction.
      * intros c _. eauto.
    + exists w1. unfold write_file, bind, get_world, modify, raise in Hw.
      destruct (get_dir (fst p) w); [discriminate |].
      injection Hw as _ <-. repeat split; eauto.
  - exists w. repeat split; eauto.
Qed.

(** [generate_script] returns [True] only when ffprobe gave a duration
    other than zero for the merged video, the text-generation key is
    set, and the script, called with the character budget of that
    duration, exited with status 0. *)
Lemma generate_script_true (w w' : World) :
  generate_script tools self w = (Ok true, w') ->
  exists c D L k,
    file_at (Output, "merged_temp.mp4") w = Some c
    /\ probe_ok (ffprobe_format tools (w_tick w) c) = true
    /\ probe_duration (ffprobe_format tools (w_tick w) c) = Some D
    /\ Float.eqb D Float.zero = false
    /\ calculate_target_script_length D default_chars_per_second = Ok L
    /\ huggingface_api_key self = Some k
    /\ gs_ok (generate_script_sh tools (S (w_tick w))
                {| sc_environ := w_environ w;
                   sc_endpoint := huggingface_endpoint self;
                   sc_model := huggingface_model self;
                   sc_api_key := k;
                   sc_target_script_length := L;
                   sc_video_duration := D;
                   sc_video_data := w_video_data_json w |}) = true
    /\ (forall q, fst q <> Scripts -> file_at q w' = file_at q w).
Proof.
  unfold generate_script, try_except. unfold bind at 1.
  rewrite get_video_duration_eq.
  match goal with
  | |- context [Float.eqb ?x Float.zero] => set (d := x)
  end.
  destruct (Float.eqb d Float.zero) eqn:Hd; [discriminate |].
  assert (HD : exists c, file_at (Output, "merged_temp.mp4") w = Some c
                         /\ probe_ok (ffprobe_format tools (w_tick w) c) = true
                         /\ probe_duration (ffprobe_format tools (w_tick w) c) = Some d).
  { subst d. destruct (file_at (Output, "merged_temp.mp4") w) as [c |]; [| discriminate Hd].
    exists c. split; [reflexivity |].
    destruct (probe_ok (ffprobe_format tools (w_tick w) c)); [| discriminate Hd].
    split; [reflexivity |].
    destruct (probe_duration (ffprobe_format tools (w_tick w) c)); [reflexivity |].
    discriminate Hd. }
  clearbody d. destruct HD as (c & Hc & Hok & HD).
  unfold bind at 1, lift at 1.
  destruct (calculate_target_script_length d default_chars_per_second) as [L | e] eqn:HL;
    [| discriminate].
  destruct (huggingface_api_key self) as [k |] eqn:Hk; [| discriminate].
  unfold bind at 1, get_world. unfold bind at 1, tick.
  cbn [w_environ w_video_data_json set_tick w_tick].
  match goal with
  | |- context [generate_script_sh tools ?n ?call] =>
      set (r := generate_script_sh tools n call)
  end.
  unfold bind at 1.
  destruct (write_if_returns (Scripts, "generated_script.txt") (gs_script r)
              (set_tick (S (S (w_tick w))) (set_tick (S (w_tick w)) w)))
    as (w1 & -> & _ & Hf1 & _).
  unfold bind at 1.
  destruct (write_if_returns (Scripts, "text_overlay.txt") (gs_overlay r) w1)
    as (w2 & -> & _ & Hf2 & _).
  destruct (gs_ok r) eqn:Hr; [| discriminate].
  intros [= <-]. exists c, d, L, k.
  do 7 (split; [first [reflexivity | assumption] |]).
  intros q Hq. rewrite (Hf2 q Hq), (Hf1 q Hq), !Media.file_at_set_tick. reflexivity.
Qed.

(** Without the text-generation key the script is never started: the
    stage probes the merged video and fails. *)
Lemma generate_script_without_key (w : World) :
  huggingface_api_key self = None ->
  generate_script tools self w = (Ok false, set_tick (S (w_tick w)) w).
Proof.
  intros Hk. unfold generate_script, try_except. unfold bind at 1.
  rewrite get_video_duration_eq.
  match goal with
  | |- context [Float.eqb ?x Float.zero] => generalize x; intros d
  end.
  destruct (Float.eqb d Float.zero); [reflexivity |].
  unfold bind at 1, lift at 1.
  destruct (calculate_target_script_length d default_chars_per_second); [| reflexivity].
  rewrite Hk. reflexivity.
Qed.

(** [generate_audio] returns [True] only when the speech script, given
    the generated text and the environment with the speech key added
    when there is one, exited with status 0 and the voice-over is
    there. *)
Lemma generate_audio_true (w w' : World) :
  generate_audio tools self w = (Ok true, w') ->
  ga_ok (generate_audio_sh tools (w_tick w)
           match zalo_api_key self with
           | Some k => if String.eqb k "" then w_environ w
                       else <["ZALO_API_KEY" := k]> (w_environ w)
           | None => w_environ w
           end
           (file_at (Scripts, "generated_script.txt") w)) = true
  /\ (exists voice, file_at (Output, "voiceover.wav") w' = Some voice)
  /\ (forall q, q <> (Output, "voiceover.wav") -> file_at q w' = file_at q w).
Proof.
  unfold generate_audio, try_except. unfold bind at 1, get_world.
  unfold bind at 1, tick.
  match goal with
  | |- context [generate_audio_sh tools ?n ?env ?text] =>
      set (r := generate_audio_sh tools n env text)
  end.
  unfold bind at 1.
  destruct (write_if_returns (Output, "voiceover.wav") (ga_voiceover r)
              (set_tick (S (w_tick w)) w)) as (w1 & -> & _ & _ & Hother & _).
  destruct (ga_ok r) eqn:Hr; cbn [negb]; [| discriminate].
  unfold bind at 1, path_exists, bind at 1, get_world, ret.
  destruct (file_at (Output, "voiceover.wav") w1) as [voice |] eqn:Hv; [| discriminate].
  intros [= <-]. split; [reflexivity |]. split; [eauto |].
  intros q Hq. rewrite (Hother q Hq). apply Media.file_at_set_tick.
Qed.

(** When [generate_audio] has returned [True] and the speech script
    wrote a voice-over, the voice-over file holds what it wrote. *)
Lemma generate_audio_voice (w w' : World) (s : string) :
  generate_audio tools self w = (Ok true, w') ->
  ga_voiceover (generate_audio_sh tools (w_tick w)
                  match zalo_api_key self with
                  | Some k => if String.eqb k "" then w_environ w
                              else <["ZALO_API_KEY" := k]> (w_environ w)
                  | None => w_environ w
                  end
                  (file_at (Scripts, "generated_script.txt") w)) = Some s ->
  file_at (Output, "voiceover.wav") w' = Some (Bytes s).
Proof.
  unfold generate_audio, try_except. unfold bind at 1, get_world.
  unfold bind at 1, tick.
  match goal with
  | |- context [generate_audio_sh tools ?n ?env ?text] =>
      set (r := generate_audio_sh tools n env text)
  end.
  intros H Hvoice. rewrite Hvoice in H.
  unfold bind at 1 in H. unfold write_if, try_except in H.
  destruct (write_file (Output, "voiceover.wav") (Bytes s) (set_tick (S (w_tick w)) w))
    as [[[] | e] w1] eqn:Hw.
  - apply Files.write_file_ok in Hw as (Hfile & _).
    destruct (ga_ok r); cbn [negb] in H; [| discriminate H].
    unfold bind at 1, path_exists, bind at 1, get_world, ret in H.
    rewrite Hfile in H. injection H as <-. exact Hfile.
  - unfold ret in H.
    destruct (ga_ok r); cbn [negb] in H; [| discriminate H].
    unfold bind at 1, path_exists, bind at 1, get_world, ret in H.
    unfold write_file, bind, get_world, modify, raise in Hw.
    destruct (get_dir (fst (Output, "voiceover.wav")) (set_tick (S (w_tick w)) w)) eqn:Hdir;
      [discriminate Hw |].
    injection Hw as _ <-.
    unfold file_at in H. rewrite Hdir in H. discriminate H.
Qed.

(** [add_audio] returns [True] only after it has written the merged
    video with its sound replaced by the voice-over, resampled to
    48 kHz stereo AAC at 192k. *)
Lemma add_audio_true (w w' : World) :
  add_audio tools w = (Ok true, w') ->
  exists voice video,
    file_at (Output, "voiceover.wav") w = Some voice
    /\ file_at (Output, "merged_temp.mp4") w = Some video
    /\ file_at (Output, "merged_with_audio.mp4") w'
       = Some (MuxClip video (AudioTrack voice 48000 2 "aac" "192k") "libx264" "medium" 23)
    /\ (forall q, q <> (Output, "voiceover_normalized.aac") ->
                  q <> (Output, "merged_with_audio.mp4") ->
                  file_at q w' = file_at q w).
Proof.
  unfold add_audio, try_except. unfold bind at 1, get_world.
  unfold bind at 1.
  destruct (run_ffmpeg tools _ (Output, "voiceover_normalized.aac") w)
    as [[[] | e] w1] eqn:H1; [| discriminate].
  apply run_ffmpeg_ok in H1 as (a & Ha & _ & Hf1 & Ho1 & _).
  destruct (file_at (Output, "voiceover.wav") w) as [voice |] eqn:Hvoice; [| discriminate Ha].
  injection Ha as <-.
  unfold bind at 1, get_world. unfold bind at 1.
  destruct (run_ffmpeg tools _ (Output, "merged_with_audio.mp4") w1)
    as [[[] | e] w2] eqn:H2; [| discriminate].
  apply run_ffmpeg_ok in H2 as (m & Hm & _ & Hf2 & Ho2 & _).
  rewrite Hf1 in Hm.
  rewrite (Ho1 (Output, "merged_temp.mp4")) in Hm by discriminate.
  destruct (file_at (Output, "merged_temp.mp4") w) as [video |] eqn:Hvideo; [| discriminate Hm].
  injection Hm as <-.
  intros [= <-]. exists voice, video.
  split; [reflexivity |]. split; [reflexivity |]. split; [exact Hf2 |].
  intros q Hq1 Hq2. rewrite (Ho2 q Hq2). apply Ho1. exact Hq1.
Qed.

(** A [str] of the descriptor has as many code points as characters. *)
Lemma length_of_string (s : string) : length (Text.of_string s) = String.length s.
Proof.
  unfold Text.of_string. rewrite length_map.
  induction s as [| c s IH]; cbn [list_ascii_of_string length String.length]; congruence.
Qed.

(** [add_text_overlay] returns [True] only after it has written the
    final video: the narrated video with the caption drawn on it, the
    caption being the stripped text of [text_overlay.txt] (its bytes
    decoded as UTF-8, newlines translated) when that file exists and
    the product name otherwise, at the font size of its length. *)
Lemma add_text_overlay_true (video_data : json) (w w' : World) :
  add_text_overlay tools video_data w = (Ok true, w') ->
  exists src text,
    file_at (Output, "merged_with_audio.mp4") w = Some src
    /\ file_at (Output, "final_merged_video.mp4") w'
       = Some (OverlayClip src (escape_text text) (fontsize_of_length (length text)))
    /\ match file_at (Scripts, "text_overlay.txt") w with
       | Some c =>
           exists data decoded,
             c = Bytes data /\ Text.read data = Some decoded
             /\ text = Text.strip decoded
       | None =>
           exists info name,
             py_get video_data "productInfo" (JObj []) = Ok info
             /\ py_get info "name" (JStr "Product") = Ok (JStr name)
             /\ text = Text.of_string name
       end
    /\ Text.nul_free (escape_text text) = true
    /\ (forall q, q <> (Output, "final_merged_video.mp4") -> file_at q w' = file_at q w).
Proof.
  unfold add_text_overlay, try_except.
  unfold bind at 1, path_exists, bind at 1, get_world, ret.
  intros H.
  assert (Hcap : exists overlay_text,
             match file_at (Scripts, "text_overlay.txt") w with
             | Some c =>
                 exists data decoded,
                   c = Bytes data /\ Text.read data = Some decoded
                   /\ overlay_text = FileText (Text.strip decoded)
             | None =>
                 exists info name,
                   py_get video_data "productInfo" (JObj []) = Ok info
                   /\ py_get info "name" (JStr "Product") = Ok name
                   /\ overlay_text = ProductName name
             end
             /\ match
                  (w0 <- get_world ;;
                   n <- tick ;;
                   match file_at (Output, "merged_with_audio.mp4") w0 with
                   | None => raise CalledProcessError
                   | Some src =>
                       if negb (ffprobe_stream_ok tools n src) then raise CalledProcessError
                       else
                         text_length <- lift (overlay_len overlay_text) ;;
                         let fontsize := fontsize_of_length text_length in
                         text <- lift (overlay_str overlay_text) ;;
                         let escaped_text := escape_text text in
                         if negb (Text.nul_free escaped_text) then raise ValueError
                         else
                           run_ffmpeg tools
                             (Some (OverlayClip src escaped_text fontsize))
                             (Output, "final_merged_video.mp4") ;;;
                           ret true
                   end) w
                with
                | (Ok a, w1) => (Ok a, w1)
                | (Raise e, w1) => (Ok false, w1)
                end = (Ok true, w')).
  { destruct (file_at (Scripts, "text_overlay.txt") w) as [c |] eqn:Hc.
    - unfold bind at 1 in H. unfold bind at 1 in H.
      unfold read_text, bind at 1, get_world in H. rewrite Hc in H.
      destruct c as [data | | | | |]; try discriminate H.
      destruct (Text.read data) as [decoded |] eqn:Hread; [| discriminate H].
      exists (FileText (Text.strip decoded)). split; [eauto 6 | exact H].
    - unfold bind at 1 in H. unfold bind at 1 in H. unfold lift at 1 in H.
      destruct (py_get video_data "productInfo" (JObj [])) as [info | e]; [| discriminate H].
      unfold bind at 1 in H. unfold bind at 1 in H. unfold lift at 1 in H.
      destruct (py_get info "name" (JStr "Product")) as [name | e] eqn:Hname;
        [| discriminate H].
      exists (ProductName name). split; [eauto 6 | exact H]. }
  clear H. destruct Hcap as (overlay_text & Hcap & H).
  unfold bind at 1, get_world in H. unfold bind at 1, tick in H.
  destruct (file_at (Output, "merged_with_audio.mp4") w) as [src |] eqn:Hsrc;
    [| discriminate H].
  destruct (ffprobe_stream_ok tools (w_tick w) src); cbn [negb] in H; [| discriminate H].
  unfold bind at 1, lift at 1 in H.
  destruct (overlay_len overlay_text) as [text_length | e] eqn:Hlen; [| discriminate H].
  unfold bind at 1, lift at 1 in H.
  destruct (overlay_str overlay_text) as [text | e] eqn:Hstr; [| discriminate H].
  cbv zeta in H.
  destruct (Text.nul_free (escape_text text)) eqn:Hnul; cbn [negb] in H; [| discriminate H].
  unfold bind at 1 in H.
  destruct (run_ffmpeg tools _ (Output, "final_merged_video.mp4") _)
    as [[[] | e] w1] eqn:Hrun; [| discriminate H].
  injection H as <-.
  apply run_ffmpeg_ok in Hrun as (c & Hjob & _ & Hf & Hother & _).
  injection Hjob as <-.
  assert (Hlength : text_length = length text).
  { destruct overlay_text as [file_text | name]; cbn [overlay_len overlay_str] in Hlen, Hstr.
    - congruence.
    - destruct name; try discriminate Hstr. cbn [py_len] in Hlen.
      injection Hstr as <-. injection Hlen as <-. symmetry. apply length_of_string. }
  subst text_length.
  exists src, text. split; [reflexivity |]. split; [exact Hf |]. split; [| split].
  - destruct (file_at (Scripts, "text_overlay.txt") w) as [c |].
    + destruct Hcap as (data & decoded & -> & Hread & ->).
      cbn [overlay_str] in Hstr. injection Hstr as <-. eauto.
    + destruct Hcap as (info & name & Hinfo & Hname & ->).
      cbn [overlay_str] in Hstr. destruct name; try discriminate Hstr.
      injection Hstr as <-. eauto 6.
  - exact Hnul.
  - intros q Hq. rewrite (Hother q Hq). apply Media.file_at_set_tick.
Qed.

End Narration.

End Narration.

Module Footprint.

Section Footprint.

Context {X : Type} (f : World -> X).
Hypothesis f_set_dir : forall d v w, f (set_dir d v w) = f w.
Hypothesis f_set_tick : forall n w, f (set_tick n w) = f w.

Variable tools : Tools.
Variable self : VideoProcessor.

Lemma ret_keeps {A} (a : A) : keeps f (ret a).
Proof. intros w. reflexivity. Qed.

Lemma raise_keeps {A} (e : exn) : keeps f (@raise A e).
Proof. intros w. reflexivity. Qed.

Lemma lift_keeps {A} (r : result A) : keeps f (lift r).
Proof. intros w. reflexivity. Qed.

Lemma get_world_keeps : keeps f get_world.
Proof. intros w. reflexivity. Qed.

Lemma tick_keeps : keeps f tick.
Proof. intros w. apply f_set_tick. Qed.

Lemma seq_keeps {A B} (m : M A) (k : A -> M B) :
  keeps f m -> (forall a, keeps f (k a)) -> keeps f (bind m k).
Proof.
  intros Hm Hk w. unfold bind.
  specialize (Hm w). destruct (m w) as [[a | e] w1]; cbn [snd] in *.
  - rewrite Hk. exact Hm.
  - exact Hm.
Qed.

Lemma try_except_keeps {A} (body : M A) (handler : exn -> M A) :
  keeps f body -> (forall e, keeps f (handler e)) -> keeps f (try_except body handler).
Proof.
  intros Hm Hk w. unfold try_except.
  specialize (Hm w). destruct (body w) as [[a | e] w1]; cbn [snd] in *.
  - exact Hm.
  - rewrite Hk. exact Hm.
Qed.

Lemma set_dir_keeps (d : dir) (v : option (gmap string content)) :
  keeps f (modify (set_dir d v)).
Proof. intros w. apply f_set_dir. Qed.

Create HintDb footprint discriminated.

Hint Resolve ret_keeps raise_keeps lift_keeps get_world_keeps tick_keeps set_dir_keeps
  : footprint.

Ltac footprint_step :=
  lazymatch goal with
  | |- keeps _ (bind _ _) => apply seq_keeps; [| intros ?]
  | |- keeps _ (try_except _ _) => apply try_except_keeps; [| intros ?]
  | |- keeps _ (match ?x with _ => _ end) => destruct x
  | |- keeps _ (let _ := _ in _) => cbv zeta
  | |- keeps _ _ => solve [auto with footprint]
  end.

Ltac footprint := repeat footprint_step.

Lemma path_exists_keeps p : keeps f (path_exists p).
Proof. unfold path_exists. footprint. Qed.

Lemma write_file_keeps p c : keeps f (write_file p c).
Proof. unfold write_file. footprint. Qed.

Lemma unlink_keeps p : keeps f (unlink p).
Proof. unfold unlink. footprint. Qed.

Lemma read_text_keeps p : keeps f (read_text p).
Proof. unfold read_text. footprint. Qed.

Hint Resolve path_exists_keeps write_file_keeps unlink_keeps read_text_keeps : footprint.

Lemma write_if_keeps p d : keeps f (write_if p d).
Proof. unfold write_if. footprint. Qed.

Lemma run_ffmpeg_keeps job p : keeps f (run_ffmpeg tools job p).
Proof. unfold run_ffmpeg. footprint. Qed.

Hint Resolve write_if_keeps run_ffmpeg_keeps : footprint.

Lemma validate_download_keeps p : keeps f (validate_download tools p).
Proof. unfold validate_download. footprint. Qed.

Hint Resolve validate_download_keeps : footprint.

Lemma download_attempt_keeps url p last : keeps f (download_attempt tools url p last).
Proof. unfold download_attempt. footprint. Qed.

Hint Resolve download_attempt_keeps : footprint.

Lemma download_retries_keeps retries : forall url p last,
  keeps f (download_retries tools retries url p last).
Proof.
  induction retries as [| retry rest IH]; intros url p last;
    cbn [download_retries]; footprint; auto with footprint.
Qed.

Hint Resolve download_retries_keeps : footprint.

Lemma download_each_keeps videos : forall i, keeps f (download_each tools i videos).
Proof.
  induction videos as [| video rest IH]; intros i;
    cbn [download_each]; footprint; auto with footprint.
Qed.

Hint Resolve download_each_keeps : footprint.

Lemma download_videos_keeps video_data : keeps f (download_videos tools video_data).
Proof. unfold download_videos. footprint. Qed.

Lemma trim_one_keeps i : keeps f (trim_one tools i).
Proof. unfold trim_one. footprint. Qed.

Hint Resolve trim_one_keeps : footprint.

Lemma trim_range_keeps indices : keeps f (trim_range tools indices).
Proof.
  induction indices as [| i rest IH]; cbn [trim_range]; footprint; auto with footprint.
Qed.

Hint Resolve trim_range_keeps : footprint.

Lemma process_videos_keeps video_data : keeps f (process_videos tools video_data).
Proof. unfold process_videos. footprint. Qed.

Lemma merge_videos_keeps video_data : keeps f (merge_videos tools video_data).
Proof. unfold merge_videos. footprint. Qed.

Lemma get_video_duration_keeps p : keeps f (get_video_duration tools p).
Proof. unfold get_video_duration. footprint. Qed.

Hint Resolve get_video_duration_keeps : footprint.

Lemma generate_script_keeps : keeps f (generate_script tools self).
Proof. unfold generate_script. footprint. Qed.

Lemma generate_audio_keeps : keeps f (generate_audio tools self).
Proof. unfold generate_audio. footprint. Qed.

Lemma add_audio_keeps : keeps f (add_audio tools).
Proof. unfold add_audio. footprint. Qed.

Lemma add_text_overlay_keeps video_data : keeps f (add_text_overlay tools video_data).
Proof. unfold add_text_overlay. footprint. Qed.

(** The seven stages before the upload, one after the other. *)
Lemma stages_keep (video_data : json) (w0 w1 w2 w3 w4 w5 w6 w7 : World)
    (r1 : result (bool * option string)) (r2 r3 r4 r5 r6 r7 : result bool) :
  download_videos tools video_data w0 = (r1, w1) ->
  process_videos tools video_data w1 = (r2, w2) ->
  merge_videos tools video_data w2 = (r3, w3) ->
  generate_script tools self w3 = (r4, w4) ->
  generate_audio tools self w4 = (r5, w5) ->
  add_audio tools w5 = (r6, w6) ->
  add_text_overlay tools video_data w6 = (r7, w7) ->
  f w7 = f w0.
Proof.
  intros H1 H2 H3 H4 H5 H6 H7.
  pose proof (download_videos_keeps video_data w0) as K1. rewrite H1 in K1.
  pose proof (process_videos_keeps video_data w1) as K2. rewrite H2 in K2.
  pose proof (merge_videos_keeps video_data w2) as K3. rewrite H3 in K3.
  pose proof (generate_script_keeps w3) as K4. rewrite H4 in K4.
  pose proof (generate_audio_keeps w4) as K5. rewrite H5 in K5.
  pose proof (add_audio_keeps w5) as K6. rewrite H6 in K6.
  pose proof (add_text_overlay_keeps video_data w6) as K7. rewrite H7 in K7.
  cbn [snd] in *. congruence.
Qed.

End Footprint.

End Footprint.

Module Job.

Section Job.

Variable tools : Tools.
Variable self : VideoProcessor.

Lemma bucket_set_dir (d : dir) (v : option (gmap string content)) (w : World) :
  w_bucket (set_dir d v w) = w_bucket w.
Proof. destruct d; reflexivity. Qed.

Lemma bucket_set_tick (n : nat) (w : World) : w_bucket (set_tick n w) = w_bucket w.
Proof. reflexivity. Qed.

(** What a successful upload has done. *)
Lemma upload_to_r2_some (p : path) (product_id : Z) (video_data : json) (w w' : World)
    (url : string) :
  upload_to_r2 tools self p product_id video_data w = (Ok (Some url), w') ->
  exists joined body,
    Str.all_chars slug_char joined = true
    /\ file_at p w = Some body
    /\ url = public_url_prefix ++ "merged_videos/" ++ strftime_now tools (w_tick w)
             ++ "_product_" ++ Str.of_Z product_id ++ "_" ++ Str.take 50 joined ++ ".mp4"
    /\ w' = set_bucket
              ({| o_bucket := r2_bucket self;
                  o_key := "merged_videos/" ++ strftime_now tools (w_tick w)
                           ++ "_product_" ++ Str.of_Z product_id ++ "_"
                           ++ Str.take 50 joined ++ ".mp4";
                  o_body := body;
                  o_content_type := "video/mp4";
                  o_metadata :=
                    [("product_id", Str.of_Z product_id);
                     ("processed_at", isoformat_now tools (S (w_tick w)))] |}
               :: w_bucket w)
              (set_tick (S (S (S (w_tick w)))) w).
Proof.
  rewrite Publish.upload_to_r2_eq.
  destruct (py_get video_data "productInfo" (JObj [])) as [info | e]; [| discriminate].
  destruct (py_get info "name" (JStr "product")) as [name | e]; [| discriminate].
  destruct (py_iter name) as [items | e]; [| discriminate].
  destruct (slug_join items) as [joined | e] eqn:Hjoin; [| discriminate].
  destruct (file_at p w) as [body |]; [| discriminate].
  cbv zeta. destruct (put_object_ok tools _ _); [| discriminate].
  cbn [o_key]. intros [= <- <-].
  exists joined, body.
  split; [exact (Publish.slug_join_safe _ _ Hjoin) |].
  split; [reflexivity |]. split; reflexivity.
Qed.

(** An upload that did not return a URL has published nothing. *)
Lemma upload_to_r2_unpublished (p : path) (product_id : Z) (video_data : json) (w : World) :
  (exists url, fst (upload_to_r2 tools self p product_id video_data w) = Ok (Some url))
  \/ w_bucket (snd (upload_to_r2 tools self p product_id video_data w)) = w_bucket w.
Proof.
  rewrite Publish.upload_to_r2_eq.
  destruct (py_get video_data "productInfo" (JObj [])) as [info | e]; [| right; reflexivity].
  destruct (py_get info "name" (JStr "product")) as [name | e]; [| right; reflexivity].
  destruct (py_iter name) as [items | e]; [| right; reflexivity].
  destruct (slug_join items) as [joined | e]; [| right; reflexivity].
  destruct (file_at p w) as [body |]; [| right; reflexivity].
  cbv zeta. destruct (put_object_ok tools _ _); [| right; reflexivity].
  left. eexists. reflexivity.
Qed.

Lemma bind_unpublished {A} (m : M A) (k : A -> M (option string))
    (b : list R2Object) (w : World) :
  keeps w_bucket m ->
  w_bucket w = b ->
  (forall a w1, w_bucket w1 = b ->
     (exists url, fst (k a w1) = Ok (Some url)) \/ w_bucket (snd (k a w1)) = b) ->
  (exists url, fst (bind m k w) = Ok (Some url)) \/ w_bucket (snd (bind m k w)) = b.
Proof.
  intros Hm Hw Hk. unfold bind. specialize (Hm w).
  destruct (m w) as [[a | e] w1]; cbn [snd] in Hm.
  - apply Hk. congruence.
  - right. cbn [snd]. congruence.
Qed.

(** [process_product] leaves the bucket alone unless it returns a
    URL. *)
Lemma process_product_unpublished (product_id : Z) (video_data : json) (w w' : World) :
  process_product tools self product_id video_data w = (Ok None, w') ->
  w_bucket w' = w_bucket w.
Proof.
  unfold process_product, try_except.
  match goal with
  | |- match ?body w with _ => _ end = _ -> _ =>
      assert (Hbody : (exists url, fst (body w) = Ok (Some url))
                      \/ w_bucket (snd (body w)) = w_bucket w);
      [| destruct (body w) as [[[url |] | e] w0]; cbn [fst snd ret] in *;
         destruct Hbody as [[url' Hu] | Hb]; intros [= <-]; congruence]
  end.
  pose proof (Footprint.download_videos_keeps w_bucket bucket_set_dir bucket_set_tick tools).
  pose proof (Footprint.process_videos_keeps w_bucket bucket_set_dir bucket_set_tick tools).
  pose proof (Footprint.merge_videos_keeps w_bucket bucket_set_dir bucket_set_tick tools).
  pose proof (Footprint.generate_script_keeps w_bucket bucket_set_dir bucket_set_tick tools self).
  pose proof (Footprint.generate_audio_keeps w_bucket bucket_set_dir bucket_set_tick tools self).
  pose proof (Footprint.add_audio_keeps w_bucket bucket_set_dir bucket_set_tick tools).
  pose proof (Footprint.add_text_overlay_keeps w_bucket bucket_set_dir bucket_set_tick tools).
  assert (Hlift : forall A (r : result A), keeps w_bucket (lift r)) by (intros A r w0; reflexivity).
  remember (w_bucket w) as b eqn:Hb. symmetry in Hb.
  destruct (is_none video_data); [right; exact Hb |].
  destruct (negb (is_dict video_data)); [right; exact Hb |].
  apply bind_unpublished; [apply Hlift | exact Hb |]. clear w Hb. intros videos w Hb.
  destruct (no_videos videos); [right; exact Hb |].
  apply bind_unpublished; [apply Hlift | exact Hb |]. clear w Hb. intros info w Hb.
  apply bind_unpublished; [apply Hlift | exact Hb |]. clear w Hb. intros name w Hb.
  apply bind_unpublished; [intros w0; reflexivity | exact Hb |]. clear w Hb. intros [] w Hb.
  apply bind_unpublished; [auto | exact Hb |]. clear w Hb. intros [ok code] w Hb.
  cbn [fst snd]. destruct ok; cbn [negb].
  2: { apply bind_unpublished; [| exact Hb | intros [] w1 Hb1; right; exact Hb1].
       destruct (is_404 code); [| intros w0; reflexivity].
       intros w0. unfold try_except, update_crawl_status, bind, tick, modify, raise, ret.
       destruct (db_statement_ok tools (w_tick w0) (db_url self)); reflexivity. }
  apply bind_unpublished; [auto | exact Hb |]. clear w Hb. intros ok w Hb.
  destruct ok; cbn [negb]; [| right; exact Hb].
  apply bind_unpublished; [auto | exact Hb |]. clear w Hb. intros ok w Hb.
  destruct ok; cbn [negb]; [| right; exact Hb].
  apply bind_unpublished; [auto | exact Hb |]. clear w Hb. intros ok w Hb.
  destruct ok; cbn [negb]; [| right; exact Hb].
  apply bind_unpublished; [auto | exact Hb |]. clear w Hb. intros ok w Hb.
  destruct ok; cbn [negb]; [| right; exact Hb].
  apply bind_unpublished; [auto | exact Hb |]. clear w Hb. intros ok w Hb.
  destruct ok; cbn [negb]; [| right; exact Hb].
  apply bind_unpublished; [auto | exact Hb |]. clear w Hb. intros ok w Hb.
  destruct ok; cbn [negb]; [| right; exact Hb].
  rewrite <- Hb. apply upload_to_r2_unpublished.
Qed.

(** One round of the loop of [run], spelled out: the job is skipped
    and nothing happens, or the directories are emptied, the job is
    processed and the outcome decides the counter and the status
    write. *)
Lemma run_product_inv (s : Summary) (p : Z * json) (w : World) :
  (run_product tools self s p w = (Ok (skipped s), w)
   /\ forall w0, process_product tools self (fst p) (snd p) w0 = (Ok None, w0))
  \/ exists r w1,
       process_product tools self (fst p) (snd p) (cleaned w) = (Ok r, w1)
       /\ run_product tools self s p w =
          match r with
          | Some url =>
              if String.eqb url "" then (Ok (failed s), w1)
              else if db_statement_ok tools (w_tick w1) (db_url self)
                   then (Ok (succeeded s),
                         set_db (sql_set_merged (fst p) url (db_now tools (w_tick w1))
                                                (w_db w1))
                                (set_tick (S (w_tick w1)) w1))
                   else (Ok (failed s), set_tick (S (w_tick w1)) w1)
          | None => (Ok (failed s), w1)
          end.
Proof.
  destruct p as [product_id video_data]. cbn [fst snd].
  destruct video_data as [| b | n | f | t | l | items];
    try (left; split; [reflexivity | intros w0; reflexivity]).
  destruct (no_videos (dict_get items "videos" (JArr []))) eqn:Hno.
  - left. split.
    + unfold run_product. cbn [fst snd is_none is_dict negb].
      unfold bind at 1. cbn [lift py_get]. rewrite Hno. reflexivity.
    + intros w0. unfold process_product, try_except. cbn [is_none is_dict negb].
      unfold bind at 1. cbn [lift py_get]. rewrite Hno. reflexivity.
  - right.
    destruct (Frame.process_product_db tools self product_id (JObj items) (cleaned w))
      as (r & w1 & Hpp & _).
    exists r, w1. split; [exact Hpp |].
    unfold run_product. cbn [fst snd is_none is_dict negb].
    unfold bind at 1. cbn [lift py_get]. rewrite Hno.
    unfold bind at 1. rewrite Frame.cleanup_directories_eq.
    unfold bind at 1. rewrite Hpp.
    destruct r as [url |]; cbn [str_truthy]; [| reflexivity].
    destruct (String.eqb url ""); cbn [negb]; [reflexivity |].
    unfold try_except, bind, update_merge_status, bind, tick, modify, ret, raise.
    cbn [default].
    destruct (db_statement_ok tools (w_tick w1) (db_url self)); reflexivity.
Qed.

Lemma succeeded_not_failed (s : Summary) : succeeded s <> failed s.
Proof. intros H. apply (f_equal success_count) in H. cbn in H. lia. Qed.

Lemma succeeded_not_skipped (s : Summary) : succeeded s <> skipped s.
Proof. intros H. apply (f_equal success_count) in H. cbn in H. lia. Qed.

End Job.

End Job.

Module Rows.

Lemma row_step_refl (r : Row) : row_step r r.
Proof. unfold row_step. tauto. Qed.

Lemma row_step_trans (a b c : Row) : row_step a b -> row_step b c -> row_step a c.
Proof.
  unfold row_step.
  intros (Hi & Hv & Hm & Hc & Hu & Hn) (Hi' & Hv' & Hm' & Hc' & Hu' & Hn').
  split; [congruence |]. split; [congruence |].
  split; [tauto |]. split; [tauto |]. split; [tauto |].
  intros H. destruct (Hn' H) as [H' | H']; [| tauto].
  destruct (Hn H') as [H'' | H'']; tauto.
Qed.

Lemma table_step_refl (db : list Row) : Forall2 row_step db db.
Proof. induction db; constructor; auto using row_step_refl. Qed.

Lemma table_step_trans (a : list Row) : forall b c,
  Forall2 row_step a b -> Forall2 row_step b c -> Forall2 row_step a c.
Proof.
  induction a as [| x a IH]; intros b c Hab Hbc.
  - inversion Hab; subst. inversion Hbc; subst. constructor.
  - inversion Hab as [| ? y ? b' Hxy Hab']; subst.
    inversion Hbc as [| ? z ? c' Hyz Hbc']; subst.
    constructor; [eapply row_step_trans; eassumption | eapply IH; eassumption].
Qed.

Lemma set_merged_step (product_id : Z) (url now : string) (db : list Row) :
  Forall2 row_step db (sql_set_merged product_id url now db).
Proof.
  induction db as [| r db IH]; cbn [sql_set_merged map]; constructor; [| exact IH].
  destruct (row_id r =? product_id); [| apply row_step_refl].
  unfold row_step. cbn. repeat split; auto; discriminate.
Qed.

Lemma set_crawl_false_step (product_id : Z) (db : list Row) :
  Forall2 row_step db (sql_set_crawl product_id false db).
Proof.
  induction db as [| r db IH]; cbn [sql_set_crawl map]; constructor; [| exact IH].
  destruct (row_id r =? product_id); [| apply row_step_refl].
  unfold row_step. cbn. repeat split; auto; try discriminate.
Qed.

Section Rows.

Variable tools : Tools.
Variable self : VideoProcessor.

Lemma run_products_step (products : list (Z * json)) : forall s w,
  Forall2 row_step (w_db w) (w_db (snd (run_products tools self s products w))).
Proof.
  induction products as [| p rest IH]; intros s w; cbn [run_products].
  - apply table_step_refl.
  - unfold bind.
    destruct (Frame.run_product_cases tools self s p w) as (s1 & w1 & -> & Hcase).
    eapply table_step_trans; [| apply IH].
    destruct Hcase as [[_ ->] | [[_ [-> | ->]] | [_ (url & now & ->)]]].
    + apply table_step_refl.
    + apply table_step_refl.
    + apply set_crawl_false_step.
    + apply set_merged_step.
Qed.

Lemma run_step (w : World) :
  Forall2 row_step (w_db w) (w_db (snd (run tools self w))).
Proof.
  rewrite Sweep.run_eq.
  destruct (db_statement_ok tools (w_tick w) (db_url self)).
  - destruct (select_pending (w_db w)) as [| p rest]; [apply table_step_refl |].
    pose proof (run_products_step (p :: rest)
                  {| success_count := 0; failed_count := 0; skipped_count := 0 |}
                  (set_tick (S (w_tick w)) (with_directories w))) as H.
    destruct (run_products tools self _ (p :: rest) _) as [[s | e] w']; exact H.
  - apply table_step_refl.
Qed.

End Rows.

End Rows.

Module Fetch.

Lemma video_path_inj (i j : nat) : video_path i = video_path j -> i = j.
Proof.
  unfold video_path. intros H. apply (f_equal snd) in H. cbn [snd String.append] in H.
  injection H as H.
  change (Str.of_nat i ++ ".mp4" = Str.of_nat j ++ ".mp4") in H.
  apply Files.append_inj_r in H. apply Files.of_nat_inj. exact H.
Qed.

Section Fetch.

Variable tools : Tools.

(** An attempt writes, if at all, to its own path. *)
Lemma download_attempt_frame (url : json) (p : path) (last : option string) (w : World) :
  forall q, q <> p ->
    file_at q (snd (download_attempt tools url p last w)) = file_at q w.
Proof.
  intros q Hq. unfold download_attempt.
  destruct url as [| | | | u | |]; try reflexivity.
  destruct (nul_free u); cbn [negb]; [| reflexivity].
  unfold bind at 1, tick. unfold bind at 1.
  assert (Hwrite : forall w0,
             file_at q (snd (match curl_body (curl tools (w_tick w) u) with
                             | Some data =>
                                 try_except (write_file p (Bytes data)) (fun _ => ret tt)
                             | None => ret tt
                             end w0)) = file_at q w0).
  { intros w0. destruct (curl_body (curl tools (w_tick w) u)) as [data |]; [| reflexivity].
    unfold try_except.
    destruct (write_file p (Bytes data) w0) as [[[] | e] w1] eqn:Hw; cbn [snd ret].
    - apply Files.write_file_ok in Hw as (_ & Hother & _). apply Hother. exact Hq.
    - unfold write_file, bind, get_world, modify, raise in Hw.
      destruct (get_dir (fst p) w0); [discriminate |]. injection Hw as _ <-. reflexivity. }
  specialize (Hwrite (set_tick (S (w_tick w)) w)).
  destruct (match curl_body (curl tools (w_tick w) u) with
            | Some data => try_except (write_file p (Bytes data)) (fun _ => ret tt)
            | None => ret tt
            end (set_tick (S (w_tick w)) w)) as [[[] | e] w1]; cbn [snd] in Hwrite.
  - unfold bind at 1, try_except, bind at 1, validate_download, bind at 1, get_world.
    rewrite <- (Media.file_at_set_tick q (S (w_tick w)) w), <- Hwrite.
    destruct (file_at p w1) as [c |]; [| reflexivity].
    destruct (is_empty_file c); [reflexivity |].
    unfold bind at 1, tick.
    destruct (probe_ok (ffprobe_format tools (w_tick w1) c));
      cbn [snd ret raise]; apply Media.file_at_set_tick.
  - cbn [snd]. rewrite Hwrite. apply Media.file_at_set_tick.
Qed.

(** An attempt that reached [break] has left a checked file. *)
Lemma download_attempt_ok (url : json) (p : path) (last c : option string)
    (w w1 : World) :
  download_attempt tools url p last w = (Ok (c, true), w1) -> downloaded tools p w1.
Proof.
  unfold download_attempt.
  destruct url as [| | | | u | |]; try discriminate.
  destruct (nul_free u); cbn [negb]; [| discriminate].
  unfold bind at 1, tick. unfold bind at 1.
  destruct (match curl_body (curl tools (w_tick w) u) with
            | Some data => try_except (write_file p (Bytes data)) (fun _ => ret tt)
            | None => ret tt
            end (set_tick (S (w_tick w)) w)) as [[[] | e] w0]; [| discriminate].
  unfold bind at 1, try_except, bind at 1, validate_download, bind at 1, get_world.
  destruct (file_at p w0) as [content |] eqn:Hfile; [| discriminate].
  destruct (is_empty_file content) eqn:Hempty; [discriminate |].
  unfold bind at 1, tick.
  destruct (probe_ok (ffprobe_format tools (w_tick w0) content)) eqn:Hprobe;
    [| discriminate].
  cbn [ret]. intros [= _ <-].
  exists content, (w_tick w0).
  rewrite Media.file_at_set_tick. auto.
Qed.

Lemma discard_partial_frame (p q : path) (w : World) :
  q <> p -> file_at q (discard_partial p w) = file_at q w.
Proof.
  intros Hq. unfold discard_partial, bind, path_exists, bind, get_world, ret.
  destruct (file_at p w) as [c |] eqn:Hc; [| reflexivity].
  unfold unlink, bind, get_world, modify. rewrite Hc.
  destruct p as [d name], q as [d' name']. unfold file_at in *. cbn [fst snd] in *.
  destruct (get_dir d w) as [files |] eqn:Hd; [| discriminate Hc].
  cbn [snd].
  destruct d, d'; cbn [get_dir set_dir w_videos w_output w_scripts] in *;
    try reflexivity; rewrite Hd; apply lookup_delete_ne; congruence.
Qed.

(** The retry loop, left by [break]: the file is there and checked,
    and no other file has changed. *)
Lemma download_retries_done (url : json) (p : path) (last : option string)
    (w w' : World) :
  download_retries tools (seq 0 max_retries) url p last w = (Ok None, w') ->
  downloaded tools p w'
  /\ forall q, q <> p -> file_at q w' = file_at q w.
Proof.
  cbn [seq max_retries download_retries Nat.ltb Nat.leb Nat.sub].
  unfold bind at 1.
  pose proof (download_attempt_frame url p last w) as F1.
  destruct (download_attempt tools url p last w) as [[[c1 ok1] | e1] w1] eqn:H1;
    [| discriminate].
  cbn [fst snd] in *. destruct ok1.
  { intros [= <-]. split; [exact (download_attempt_ok _ _ _ _ _ _ H1) | exact F1]. }
  rewrite Download.discard_then. unfold bind at 1.
  pose proof (download_attempt_frame url p c1 (discard_partial p w1)) as F2.
  destruct (download_attempt tools url p c1 (discard_partial p w1))
    as [[[c2 ok2] | e2] w2] eqn:H2; [| discriminate].
  cbn [fst snd] in *. destruct ok2.
  { intros [= <-]. split; [exact (download_attempt_ok _ _ _ _ _ _ H2) |].
    intros q Hq. rewrite (F2 q Hq), (discard_partial_frame p q w1 Hq). apply F1. exact Hq. }
  rewrite Download.discard_then. unfold bind at 1.
  pose proof (download_attempt_frame url p c2 (discard_partial p w2)) as F3.
  destruct (download_attempt tools url p c2 (discard_partial p w2))
    as [[[c3 ok3] | e3] w3] eqn:H3; [| discriminate].
  cbn [fst snd] in *. destruct ok3; [| discriminate].
  intros [= <-]. split; [exact (download_attempt_ok _ _ _ _ _ _ H3) |].
  intros q Hq.
  rewrite (F3 q Hq), (discard_partial_frame p q w2 Hq), (F2 q Hq),
    (discard_partial_frame p q w1 Hq).
  apply F1. exact Hq.
Qed.

Lemma downloaded_frame (p : path) (w w' : World) :
  file_at p w' = file_at p w -> downloaded tools p w -> downloaded tools p w'.
Proof.
  intros Heq (c & n & Hc & He & Hp). exists c, n. rewrite Heq. auto.
Qed.

(** The loop over the videos, ended without failure: every video has
    its checked file, and no other file has changed. *)
Lemma download_each_done (videos : list json) : forall i w w' code,
  download_each tools i videos w = (Ok (true, code), w') ->
  code = None
  /\ (forall k, (k < length videos)%nat -> downloaded tools (video_path (i + k)) w')
  /\ (forall q, (forall k, (k < length videos)%nat -> q <> video_path (i + k)) ->
                file_at q w' = file_at q w).
Proof.
  induction videos as [| video rest IH]; intros i w w' code; cbn [download_each].
  - intros [= <- <-]. split; [reflexivity |]. split; [| reflexivity].
    intros k Hk. cbn [length] in Hk. lia.
  - unfold bind at 1, lift at 1.
    destruct (py_get video "url" JNull) as [url | e]; [| discriminate].
    unfold bind at 1.
    destruct (download_retries tools (seq 0 max_retries) url (video_path i) None w)
      as [[[last |] | e] w1] eqn:Hretry; try discriminate.
    intros Hrest.
    apply download_retries_done in Hretry as [Hfile Hframe].
    destruct (IH (S i) w1 w' code Hrest) as (Hcode & Hfiles & Hframe').
    split; [exact Hcode |]. split.
    + intros [| k] Hk.
      * rewrite Nat.add_0_r. apply (downloaded_frame _ w1); [| exact Hfile].
        apply Hframe'. intros k' _ Heq. apply video_path_inj in Heq. lia.
      * replace (i + S k)%nat with (S i + k)%nat by lia.
        apply Hfiles. cbn [length] in Hk. lia.
    + intros q Hq. rewrite Hframe'.
      * apply Hframe. specialize (Hq 0%nat). rewrite Nat.add_0_r in Hq.
        apply Hq. cbn [length]. lia.
      * intros k Hk. replace (S i + k)%nat with (i + S k)%nat by lia.
        apply Hq. cbn [length]. lia.
Qed.

(** Removing a partial download touches nothing but the file. *)
Lemma discard_partial_rest (p : path) (w : World) :
  w_tick (discard_partial p w) = w_tick w
  /\ w_db (discard_partial p w) = w_db w
  /\ w_bucket (discard_partial p w) = w_bucket w.
Proof.
  unfold discard_partial, bind, path_exists, bind, get_world, ret.
  destruct (file_at p w) as [c |] eqn:Hc; [| auto].
  unfold unlink, bind, get_world, modify, raise. rewrite Hc.
  destruct (get_dir (fst p) w); [| auto].
  cbn [snd]. destruct (fst p); auto.
Qed.

End Fetch.

End Fetch.

Module Wrap.

Lemma append_nil_r (s : string) : s ++ "" = s.
Proof.
  induction s as [| c s IH]; [reflexivity |].
  change (String c (s ++ "") = String c s). rewrite IH. reflexivity.
Qed.

Lemma append_assoc (a b c : string) : (a ++ b) ++ c = a ++ (b ++ c).
Proof.
  induction a as [| x a IH]; [reflexivity |].
  change (String x ((a ++ b) ++ c) = String x (a ++ (b ++ c))). rewrite IH. reflexivity.
Qed.

Lemma visible_app (s t : string) : visible (s ++ t) = visible s ++ visible t.
Proof.
  induction s as [| c s IH]; [reflexivity |].
  change (visible (String c (s ++ t)) = visible (String c s) ++ visible t).
  cbn [visible]. destruct (Str.is_space c); [exact IH |].
  change (String c (visible (s ++ t)) = String c (visible s ++ visible t)).
  rewrite IH. reflexivity.
Qed.

Lemma visible_lstrip (s : string) : visible (Str.lstrip s) = visible s.
Proof.
  induction s as [| c s IH]; [reflexivity |].
  cbn [Str.lstrip]. destruct (Str.is_space c) eqn:Hc.
  - cbn [visible]. rewrite Hc. exact IH.
  - reflexivity.
Qed.

Lemma rev_onto_app (s : string) : forall acc, Str.rev_onto s acc = Str.rev s ++ acc.
Proof.
  unfold Str.rev. induction s as [| c s IH]; intros acc; cbn [Str.rev_onto]; [reflexivity |].
  rewrite (IH (String c acc)), (IH (String c "")), append_assoc. reflexivity.
Qed.

Lemma rev_app (s t : string) : Str.rev (s ++ t) = Str.rev t ++ Str.rev s.
Proof.
  induction s as [| c s IH].
  - change (Str.rev t = Str.rev t ++ ""). rewrite append_nil_r. reflexivity.
  - change (Str.rev_onto (s ++ t) (String c "") = Str.rev t ++ Str.rev_onto s (String c "")).
    rewrite !rev_onto_app, IH, append_assoc. reflexivity.
Qed.

Lemma rev_rev (s : string) : Str.rev (Str.rev s) = s.
Proof.
  induction s as [| c s IH]; [reflexivity |].
  change (Str.rev (Str.rev_onto s (String c "")) = String c s).
  rewrite rev_onto_app, rev_app, IH. reflexivity.
Qed.

Lemma visible_rev (s : string) : visible (Str.rev s) = Str.rev (visible s).
Proof.
  induction s as [| c s IH]; [reflexivity |].
  change (visible (Str.rev_onto s (String c "")) = Str.rev (visible (String c s))).
  rewrite rev_onto_app, visible_app, IH. cbn [visible].
  destruct (Str.is_space c).
  - apply append_nil_r.
  - change (Str.rev (visible s) ++ String c "" = Str.rev_onto (visible s) (String c "")).
    rewrite rev_onto_app. reflexivity.
Qed.

(** [strip] removes white space only. *)
Lemma visible_strip (s : string) : visible (Str.strip s) = visible s.
Proof.
  unfold Str.strip.
  rewrite visible_rev, visible_lstrip, visible_rev, rev_rev. apply visible_lstrip.
Qed.

Lemma substring_nil (n m : nat) : substring n m "" = "".
Proof. destruct n, m; reflexivity. Qed.

(** Two adjacent slices make up the slice they cover. *)
Lemma substring_split (t : string) : forall a b : nat,
  (a <= b)%nat ->
  substring a (b - a) t ++ substring b (String.length t - b) t
  = substring a (String.length t - a) t.
Proof.
  induction t as [| c t IH]; intros a b Hab.
  - rewrite !substring_nil. reflexivity.
  - destruct a as [| a], b as [| b]; try lia.
    + cbn [Nat.sub substring String.length]. reflexivity.
    + rewrite !Nat.sub_0_r.
      change (String c (substring 0 b t ++ substring b (String.length t - b) t)
              = String c (substring 0 (String.length t) t)).
      pose proof (IH 0%nat b ltac:(lia)) as H. rewrite !Nat.sub_0_r in H.
      rewrite H. reflexivity.
    + change (substring a (b - a) t ++ substring b (String.length t - b) t
              = substring a (String.length t - a) t).
      apply IH. lia.
Qed.

Lemma substring_all (t : string) : substring 0 (String.length t) t = t.
Proof.
  induction t as [| c t IH]; [reflexivity |].
  cbn [String.length substring]. rewrite IH. reflexivity.
Qed.

Lemma scan_positions_ge (text : string) (len current_pos : Z) (positions : list Z) :
  forall best_split,
    current_pos <= best_split ->
    current_pos <= scan_positions text len current_pos positions best_split.
Proof.
  induction positions as [| pos rest IH]; intros best_split Hb; cbn [scan_positions].
  - exact Hb.
  - destruct ((pos <? len) && (pos >? current_pos) && is_break_at text pos) eqn:Hc.
    + apply andb_true_iff in Hc as [Hc _]. apply andb_true_iff in Hc as [_ Hc].
      apply Z.gtb_lt in Hc. lia.
    + apply IH. exact Hb.
Qed.

Lemma scan_offsets_ge (text : string) (len current_pos target : Z) (offsets : list Z) :
  forall best_split,
    current_pos <= best_split ->
    current_pos <= scan_offsets text len current_pos target offsets best_split.
Proof.
  induction offsets as [| offset rest IH]; intros best_split Hb; cbn [scan_offsets].
  - exact Hb.
  - pose proof (scan_positions_ge text len current_pos
                  [target + offset; target - offset] best_split Hb) as Hs.
    cbv zeta. destruct (negb (_ =? target)); [exact Hs | apply IH; exact Hs].
Qed.

Lemma join_cons (x : string) (rest : list string) :
  str_join "" (x :: rest) = x ++ str_join "" rest.
Proof.
  destruct rest as [| y rest]; [symmetry; apply append_nil_r | reflexivity].
Qed.

Lemma slice_split (text : string) (a b : Z) :
  0 <= a <= b ->
  py_slice text a b ++ py_slice_from text b = py_slice_from text a.
Proof.
  intros Hab. unfold py_slice, py_slice_from.
  rewrite Z2Nat.inj_sub by lia. apply substring_split. lia.
Qed.

(** The lines of a wrapped text hold the visible characters of the
    text, in order. *)
Lemma wrap_rounds_visible (text : string) (len chunk_size : Z) (rounds : nat) :
  0 <= chunk_size ->
  forall current_pos,
    0 <= current_pos ->
    str_join "" (map visible (wrap_rounds text len chunk_size rounds current_pos))
    = visible (py_slice_from text current_pos).
Proof.
  intros Hchunk. induction rounds as [| rounds IH]; intros current_pos Hpos;
    cbn [wrap_rounds map].
  - cbn [str_join]. apply visible_strip.
  - cbv zeta. rewrite join_cons, visible_strip.
    set (best_split := scan_offsets text len current_pos (current_pos + chunk_size)
                         (map Z.of_nat (seq 0 20)) (current_pos + chunk_size)).
    assert (Hb : current_pos <= best_split)
      by (apply scan_offsets_ge; lia).
    rewrite IH by lia. rewrite <- visible_app, slice_split by lia. reflexivity.
Qed.

Lemma wrap_rounds_length (text : string) (len chunk_size : Z) (rounds : nat) :
  forall current_pos,
    length (wrap_rounds text len chunk_size rounds current_pos) = S rounds.
Proof.
  induction rounds as [| rounds IH]; intros current_pos; cbn [wrap_rounds length];
    [reflexivity |].
  cbv zeta. rewrite IH. reflexivity.
Qed.

End Wrap.

Module Escape.

Lemma replace_absent (c : N) (by_ s : Text.t) :
  count_char c s = 0%nat -> Text.replace c by_ s = s.
Proof.
  induction s as [| d s IH]; [reflexivity |].
  cbn [count_char Text.replace].
  destruct (c =? d)%N; [discriminate |].
  intros H. rewrite (IH H). reflexivity.
Qed.

Lemma replace_length (c : N) (by_ s : Text.t) :
  (length (Text.replace c by_ s) + count_char c s
   = length s + count_char c s * length by_)%nat.
Proof.
  induction s as [| d s IH]; [reflexivity |].
  cbn [count_char Text.replace length].
  destruct (c =? d)%N.
  - rewrite length_app. lia.
  - cbn [length]. lia.
Qed.

Lemma count_char_app (c : N) (a b : Text.t) :
  count_char c (a ++ b)%list = (count_char c a + count_char c b)%nat.
Proof.
  induction a as [| y a IH]; [reflexivity |].
  cbn [app count_char]. rewrite IH. lia.
Qed.

(** Replacing a character by a text that does not hold another
    character leaves the count of that other character. *)
Lemma replace_count (c d : N) (by_ s : Text.t) :
  (d =? c)%N = false ->
  count_char d by_ = 0%nat ->
  count_char d (Text.replace c by_ s) = count_char d s.
Proof.
  intros Hdc Hby. induction s as [| x s IH]; [reflexivity |].
  cbn [Text.replace count_char].
  destruct (c =? x)%N eqn:Hcx.
  - apply N.eqb_eq in Hcx. subst x. rewrite Hdc.
    rewrite count_char_app, Hby, IH. reflexivity.
  - cbn [count_char]. rewrite IH. reflexivity.
Qed.

Lemma replace_colon_escaped (s : Text.t) : forall after_backslash,
  colons_escaped after_backslash
    (Text.replace Text.colon [Text.backslash; Text.colon] s) = true.
Proof.
  induction s as [| d s IH]; intros after_backslash; [reflexivity |].
  cbn [Text.replace].
  destruct (Text.colon =? d)%N eqn:Hd.
  - cbn [app colons_escaped]. rewrite IH. reflexivity.
  - cbn [colons_escaped]. rewrite N.eqb_sym, Hd, IH. reflexivity.
Qed.

End Escape.

Module Truncation.

(** [int] of a float that is not positive is the ceiling of its
    value. *)
Lemma to_int_ceiling (x : Float.t) :
  Float.has_sign true x ->
  Float.to_int x =
  match Float.value x with
  | Some q => Ok (Qceiling q)
  | None => Raise OverflowError
  end.
Proof.
  destruct x as [s | s | | s m e]; cbn [Float.has_sign]; intros Hs;
    try contradiction; subst s; cbn [Float.to_int Float.value cond_Zopp].
  - reflexivity.
  - reflexivity.
  - f_equal. unfold Qceiling. destruct e as [| p | p]; cbv beta iota.
    + unfold Qfloor, inject_Z, Qopp. cbn [Qnum Qden Z.opp]. rewrite Z.div_1_r. reflexivity.
    + unfold Qfloor, inject_Z, Qopp. cbn [Qnum Qden]. rewrite Z.div_1_r.
      rewrite Z.shiftl_mul_pow2 by lia. lia.
    + unfold Qfloor, Qopp. cbn [Qnum Qden Z.opp]. rewrite Pos2Z.inj_pow.
      change (Z.shiftl (Z.pos m) (Z.neg p)) with (Z.shiftr (Z.pos m) (Z.pos p)).
      rewrite Z.shiftr_div_pow2 by lia. reflexivity.
Qed.

Lemma negative_cases (x : Float.t) :
  Float.ltb x Float.zero = true ->
  x = S754_infinity true \/ exists m e, x = S754_finite true m e.
Proof.
  destruct x as [s | [] | | [] m e]; cbn; try discriminate; eauto.
Qed.

(** The product of a negative and a positive float is [-0], a
    negative number or [-inf]. *)
Lemma mul_negative (d r : Float.t) :
  Float.ltb d Float.zero = true -> Float.ltb Float.zero r = true ->
  Float.has_sign true (Float.mul d r).
Proof.
  intros Hd Hr.
  destruct (negative_cases d Hd) as [-> | (md & ed & ->)];
    destruct (FloatFacts.positive_cases r Hr) as [-> | (mr & er & ->)];
    try reflexivity.
  unfold Float.mul, SFmul. cbn [xorb].
  apply FloatFacts.binary_round_aux_sign. lia.
Qed.

Lemma to_int_nonpositive (x : Float.t) (n : Z) :
  Float.has_sign true x -> Float.to_int x = Ok n -> n <= 0.
Proof.
  destruct x as [s | s | | s m e]; cbn [Float.has_sign Float.to_int]; intros Hs;
    try contradiction; try discriminate; subst s; intros [= <-]; [lia |].
  cbn [cond_Zopp]. pose proof (Z.shiftl_nonneg (Zpos m) e). lia.
Qed.

End Truncation.

Module Scripts.

Section Scripts.

Variable tools : Tools.
Variable self : VideoProcessor.

(** The download writes to the videos directory only. *)
Lemma download_videos_frame (video_data : json) (w w' : World) (code : option string) :
  download_videos tools video_data w = (Ok (true, code), w') ->
  forall q, fst q <> Videos -> file_at q w' = file_at q w.
Proof.
  unfold download_videos, try_except.
  unfold bind at 1, lift at 1.
  destruct (py_get video_data "videos" (JArr [])) as [videos | e]; [| discriminate].
  unfold bind at 1, lift at 1.
  destruct (py_iter videos) as [items | e]; [| discriminate].
  destruct (download_each tools 0 items w) as [[r | e] w1] eqn:Heach; [| discriminate].
  intros [= -> <-] q Hq.
  destruct (Fetch.download_each_done tools items 0 w w1 code Heach) as (_ & _ & Hframe).
  apply Hframe. intros k _ ->. apply Hq. reflexivity.
Qed.

(** The trim writes to the videos directory only. *)
Lemma process_videos_frame (video_data : json) (w w' : World) :
  process_videos tools video_data w = (Ok true, w') ->
  forall q, fst q <> Videos -> file_at q w' = file_at q w.
Proof.
  intros H q Hq.
  apply process_videos_true in H as (videos & n & _ & _ & Htrim).
  apply Media.trim_range_true in Htrim as [_ Hframe]; [| apply List.seq_NoDup].
  apply Hframe. intros i _ ->. apply Hq. reflexivity.
Qed.

(** The concatenation writes its list and the merged video only. *)
Lemma merge_videos_frame (video_data : json) (w w' : World) :
  merge_videos tools video_data w = (Ok true, w') ->
  forall q, fst q = Scripts -> file_at q w' = file_at q w.
Proof.
  unfold merge_videos, try_except.
  unfold bind at 1, lift at 1.
  destruct (py_get video_data "videos" (JArr [])) as [videos | e]; [| discriminate].
  unfold bind at 1.
  destruct (write_file (Videos, "concat_list.txt") (Bytes "") w) as [[[] | e] w1] eqn:Hw1;
    [| discriminate].
  unfold bind at 1, lift at 1.
  destruct (py_len videos) as [n | e]; [| discriminate].
  unfold bind at 1.
  destruct (write_file (Videos, "concat_list.txt") (Bytes (concat_lines (seq 0 n))) w1)
    as [[[] | e] w2] eqn:Hw2; [| discriminate].
  unfold bind at 1, get_world. unfold bind at 1.
  destruct (run_ffmpeg tools _ (Output, "merged_temp.mp4") w2) as [[[] | e] w3] eqn:Hrun;
    [| discriminate].
  intros [= <-] q Hq.
  apply Files.write_file_ok in Hw1 as (_ & Ho1 & _).
  apply Files.write_file_ok in Hw2 as (_ & Ho2 & _).
  apply Narration.run_ffmpeg_ok in Hrun as (c & _ & _ & _ & Ho3 & _).
  rewrite Ho3, Ho2, Ho1; [reflexivity | | |]; intros ->; discriminate Hq.
Qed.

(** A script that writes no overlay text leaves the one that is
    there. *)
Lemma generate_script_frame (w w' : World) (q : path) :
  (forall n call, gs_overlay (generate_script_sh tools n call) = None) ->
  generate_script tools self w = (Ok true, w') ->
  q <> (Scripts, "generated_script.txt") ->
  file_at q w' = file_at q w.
Proof.
  intros Hsilent H Hq. revert H.
  unfold generate_script, try_except. unfold bind at 1.
  rewrite Narration.get_video_duration_eq.
  match goal with
  | |- context [Float.eqb ?x Float.zero] => generalize x; intros d
  end.
  destruct (Float.eqb d Float.zero); [discriminate |].
  unfold bind at 1, lift at 1.
  destruct (calculate_target_script_length d default_chars_per_second) as [L | e];
    [| discriminate].
  destruct (huggingface_api_key self) as [k |]; [| discriminate].
  unfold bind at 1, get_world. unfold bind at 1, tick.
  rewrite Hsilent. cbn [write_if].
  unfold bind at 1.
  match goal with
  | |- context [write_if ?p ?data ?w0] =>
      destruct (Narration.write_if_returns p data w0) as (w1 & -> & _ & _ & Hother & _)
  end.
  unfold bind at 1, ret at 1.
  destruct (gs_ok _); [| discriminate].
  intros [= <-]. rewrite (Hother q Hq), !Media.file_at_set_tick. reflexivity.
Qed.

(** From the start of a job that succeeds to its caption stage, a file
    of the scripts directory other than the generated script text stays
    as it is when the script writes no overlay text. *)
Lemma scripts_file_kept (video_data : json) (q : path)
    (w0 w1 w2 w3 w4 w5 w6 : World) (code : option string) :
  (forall n call, gs_overlay (generate_script_sh tools n call) = None) ->
  fst q = Scripts ->
  q <> (Scripts, "generated_script.txt") ->
  download_videos tools video_data w0 = (Ok (true, code), w1) ->
  process_videos tools video_data w1 = (Ok true, w2) ->
  merge_videos tools video_data w2 = (Ok true, w3) ->
  generate_script tools self w3 = (Ok true, w4) ->
  generate_audio tools self w4 = (Ok true, w5) ->
  add_audio tools w5 = (Ok true, w6) ->
  file_at q w6 = file_at q w0.
Proof.
  intros Hsilent Hdir Hq H1 H2 H3 H4 H5 H6.
  assert (Hnv : fst q <> Videos) by (rewrite Hdir; discriminate).
  apply Narration.add_audio_true in H6 as (_ & _ & _ & _ & _ & F6).
  apply Narration.generate_audio_true in H5 as (_ & _ & F5).
  rewrite F6, F5 by (intros ->; discriminate Hdir).
  rewrite (generate_script_frame _ _ q Hsilent H4 Hq).
  rewrite (merge_videos_frame _ _ _ H3 q Hdir).
  rewrite (process_videos_frame _ _ _ H2 q Hnv).
  exact (download_videos_frame _ _ _ _ H1 q Hnv).
Qed.

End Scripts.

End Scripts.

(* ===================================================================== *)
(** * The pipeline of one job *)
(* ===================================================================== *)

(** X1.  [process_product] returns a URL only for a descriptor that is
    an object, and only when every stage returned success, each one
    started in the world the one before it left: download, trim,
    concatenate, script, voice-over, audio, caption, upload, in that
    order.  The URL is the one the upload returned, and the table is as
    it was. *)
Theorem X1_success_runs_every_stage
    (tools : Tools) (self : VideoProcessor)
    (product_id : Z) (video_data : json) (w w' : World) (url : string) :
  process_product tools self product_id video_data w = (Ok (Some url), w') ->
  is_dict video_data = true
  /\ w_db w' = w_db w
  /\ exists code w1 w2 w3 w4 w5 w6 w7,
       download_videos tools video_data (set_video_data_json (Some video_data) w)
       = (Ok (true, code), w1)
       /\ process_videos tools video_data w1 = (Ok true, w2)
       /\ merge_videos tools video_data w2 = (Ok true, w3)
       /\ generate_script tools self w3 = (Ok true, w4)
       /\ generate_audio tools self w4 = (Ok true, w5)
       /\ add_audio tools w5 = (Ok true, w6)
       /\ add_text_overlay tools video_data w6 = (Ok true, w7)
       /\ upload_to_r2 tools self (Output, "final_merged_video.mp4") product_id video_data w7
          = (Ok (Some url), w').
Proof.
  intros H. split; [| split].
  - destruct video_data; try reflexivity; discriminate H.
  - destruct (Frame.process_product_db tools self product_id video_data w)
      as (r & w1 & Hpp & Hdb).
    rewrite H in Hpp. injection Hpp as <- <-.
    destruct Hdb as [Hdb | [Hr _]]; [exact Hdb | discriminate Hr].
  - exact (Pipeline.process_product_stages tools self _ _ _ _ _ H).
Qed.

Lemma X1_witness :
  let tools := Scenario.tools_ok Scenario.ten in
  let w := with_directories (Scenario.one_job Scenario.environ_full) in
  let w' := snd (process_product tools Scenario.processor 1 Scenario.kettle w) in
  w_db w' = w_db w.
Proof.
  intros tools w w'.
  assert (H : process_product tools Scenario.processor 1 Scenario.kettle w
              = (Ok (Some ("https://pub-09ecd227972848afb3d86c1f7f2b57b1.r2.dev/"
                           ++ "merged_videos/20260101_000000_product_1_Kettle.mp4")), w'))
    by (vm_compute; reflexivity).
  exact (proj1 (proj2 (X1_success_runs_every_stage tools Scenario.processor 1
                         Scenario.kettle w w' _ H))).
Defined.

(* ===================================================================== *)
(** * Publisher *)
(* ===================================================================== *)

(** X2.  [upload_to_r2] never raises and changes neither the table nor
    a file.  It returns a URL exactly when it has put one object into
    the bucket: the object has the contents of the file it was given,
    the content type [video/mp4], the job's id in its metadata, and the
    URL is the public prefix followed by its key.  When it returns
    [None] the bucket is as it was. *)
Theorem X2_upload_publishes_or_changes_nothing
    (tools : Tools) (self : VideoProcessor)
    (p : path) (product_id : Z) (video_data : json) (w : World) :
  exists r w',
    upload_to_r2 tools self p product_id video_data w = (Ok r, w')
    /\ w_db w' = w_db w
    /\ (forall q, file_at q w' = file_at q w)
    /\ match r with
       | None => w_bucket w' = w_bucket w
       | Some url =>
           exists object,
             w_bucket w' = object :: w_bucket w
             /\ url = public_url_prefix ++ o_key object
             /\ o_bucket object = r2_bucket self
             /\ file_at p w = Some (o_body object)
             /\ o_content_type object = "video/mp4"
             /\ In ("product_id", Str.of_Z product_id) (o_metadata object)
       end.
Proof.
  rewrite Publish.upload_to_r2_eq.
  assert (Hnone : forall n,
             exists (r : option string) (w' : World),
               (@Ok (option string) None, set_tick n w) = (Ok r, w')
               /\ w_db w' = w_db w
               /\ (forall q, file_at q w' = file_at q w)
               /\ match r with
                  | None => w_bucket w' = w_bucket w
                  | Some url =>
                      exists object,
                        w_bucket w' = object :: w_bucket w
                        /\ url = public_url_prefix ++ o_key object
                        /\ o_bucket object = r2_bucket self
                        /\ file_at p w = Some (o_body object)
                        /\ o_content_type object = "video/mp4"
                        /\ In ("product_id", Str.of_Z product_id) (o_metadata object)
                  end).
  { intros n. exists None, (set_tick n w).
    split; [reflexivity |]. split; [reflexivity |].
    split; [intros q; apply Media.file_at_set_tick | reflexivity]. }
  destruct (py_get video_data "productInfo" (JObj [])) as [info | e]; [| apply Hnone].
  destruct (py_get info "name" (JStr "product")) as [name | e]; [| apply Hnone].
  destruct (py_iter name) as [items | e]; [| apply Hnone].
  destruct (slug_join items) as [joined | e]; [| apply Hnone].
  destruct (file_at p w) as [body |] eqn:Hbody; [| apply Hnone].
  cbv zeta. destruct (put_object_ok tools _ _); [| apply Hnone].
  eexists (Some _), _. split; [reflexivity |]. split; [reflexivity |].
  split; [intros [[] name']; reflexivity |].
  eexists. split; [reflexivity |]. split; [reflexivity |]. split; [reflexivity |].
  split; [reflexivity |]. split; [reflexivity |]. left. reflexivity.
Qed.

(** X3.  The key of an uploaded object is
    [merged_videos/<timestamp>_product_<id>_<slug>.mp4], where the slug
    made of the product name has at most 50 characters, each of them
    alphanumeric, a hyphen or an underscore. *)
Theorem X3_object_key_is_sanitised
    (tools : Tools) (self : VideoProcessor)
    (p : path) (product_id : Z) (video_data : json) (w w' : World) (url : string) :
  upload_to_r2 tools self p product_id video_data w = (Ok (Some url), w') ->
  exists slug,
    url = public_url_prefix ++ "merged_videos/" ++ strftime_now tools (w_tick w)
          ++ "_product_" ++ Str.of_Z product_id ++ "_" ++ slug ++ ".mp4"
    /\ (String.length slug <= 50)%nat
    /\ Str.all_chars slug_char slug = true.
Proof.
  intros H.
  apply Job.upload_to_r2_some in H as (joined & body & Hsafe & _ & Hurl & _).
  exists (Str.take 50 joined). split; [exact Hurl |].
  split; [apply Publish.length_take | apply Publish.all_chars_take; exact Hsafe].
Qed.

Lemma X3_witness :
  let tools := Scenario.tools_ok Scenario.ten in
  let w := snd (process_product tools Scenario.processor 1 Fixture.teapot Fixture.ready) in
  exists slug,
    "https://pub-09ecd227972848afb3d86c1f7f2b57b1.r2.dev/merged_videos/20260101_000000_product_1_Tea_pot__2L.mp4"
    = public_url_prefix ++ "merged_videos/" ++ strftime_now tools (w_tick w)
      ++ "_product_" ++ Str.of_Z 1 ++ "_" ++ slug ++ ".mp4"
    /\ (String.length slug <= 50)%nat
    /\ Str.all_chars slug_char slug = true.
Proof.
  intros tools w.
  assert (H : upload_to_r2 tools Scenario.processor (Output, "final_merged_video.mp4") 1
                Fixture.teapot w
              = (Ok (Some "https://pub-09ecd227972848afb3d86c1f7f2b57b1.r2.dev/merged_videos/20260101_000000_product_1_Tea_pot__2L.mp4"),
                 snd (upload_to_r2 tools Scenario.processor (Output, "final_merged_video.mp4") 1
                        Fixture.teapot w)))
    by (vm_compute; reflexivity).
  exact (X3_object_key_is_sanitised tools Scenario.processor _ 1 Fixture.teapot w _ _ H).
Defined.

(* ===================================================================== *)
(** * From the stages to the published video *)
(* ===================================================================== *)



(** X5.  The video a job publishes is the concatenation of its trimmed
    clips, one for each listed video and in their order, with the sound
    replaced by the voice-over (48 kHz, two channels, AAC at 192k) and
    the caption drawn on it at the font size of the caption's length;
    it is the one object the job adds to the bucket.  The part of index
    [k] is the trimmed file of the download of index [k], as the
    download stage left it and for the duration ffprobe reported; the
    voice is the file [voiceover.wav] as the voice-over stage left it,
    which is what the speech script wrote when it wrote one; the
    caption is the text the caption stage read. *)
Theorem X5_published_video_composition
    (tools : Tools) (self : VideoProcessor)
    (product_id : Z) (video_data : json) (w w' : World) (url : string) :
  process_product tools self product_id video_data w = (Ok (Some url), w') ->
  exists object parts voice text videos code w1 w2 w3 w4 w5 w6 w7,
    (download_videos tools video_data (set_video_data_json (Some video_data) w)
     = (Ok (true, code), w1)
     /\ process_videos tools video_data w1 = (Ok true, w2)
     /\ merge_videos tools video_data w2 = (Ok true, w3)
     /\ generate_script tools self w3 = (Ok true, w4)
     /\ generate_audio tools self w4 = (Ok true, w5)
     /\ add_audio tools w5 = (Ok true, w6)
     /\ add_text_overlay tools video_data w6 = (Ok true, w7))
    /\ w_bucket w' = object :: w_bucket w
    /\ url = public_url_prefix ++ o_key object
    /\ o_body object
       = OverlayClip
           (MuxClip (ConcatClip parts target_profile)
                    (AudioTrack voice 48000 2 "aac" "192k") "libx264" "medium" 23)
           (escape_text text) (fontsize_of_length (length text))
    /\ py_get video_data "videos" (JArr []) = Ok videos
    /\ py_len videos = Ok (length parts)
    /\ (forall k part,
          nth_error parts k = Some part ->
          exists src D t,
            file_at (video_path k) w1 = Some src
            /\ probe_duration (ffprobe_format tools t src) = Some D
            /\ file_at (trimmed_path k) w2 = Some part
            /\ part = trimmed_file src D)
    /\ file_at (Output, "voiceover.wav") w5 = Some voice
    /\ (forall s,
          ga_voiceover (generate_audio_sh tools (w_tick w4)
                          match zalo_api_key self with
                          | Some k => if String.eqb k "" then w_environ w4
                                      else <["ZALO_API_KEY" := k]> (w_environ w4)
                          | None => w_environ w4
                          end
                          (file_at (Scripts, "generated_script.txt") w4)) = Some s ->
          voice = Bytes s)
    /\ match file_at (Scripts, "text_overlay.txt") w6 with
       | Some c =>
           exists data decoded,
             c = Bytes data /\ Text.read data = Some decoded
             /\ text = Text.strip decoded
       | None =>
           exists info name,
             py_get video_data "productInfo" (JObj []) = Ok info
             /\ py_get info "name" (JStr "Product") = Ok (JStr name)
             /\ text = Text.of_string name
       end.
Proof.
  intros Hpp.
  destruct (Pipeline.process_product_stages tools self _ _ _ _ _ Hpp)
    as (code & v1 & v2 & v3 & v4 & v5 & v6 & v7 & H1 & H2 & H3 & H4 & H5 & H6 & H7 & Hup).
  pose proof (Footprint.stages_keep w_bucket Job.bucket_set_dir Job.bucket_set_tick
                tools self _ _ _ _ _ _ _ _ _ _ _ _ _ _ _ _ H1 H2 H3 H4 H5 H6 H7) as Hb.
  pose proof H2 as H2'. pose proof H3 as H3'. pose proof H4 as H4'.
  pose proof H5 as H5'. pose proof H6 as H6'. pose proof H7 as H7'.
  apply process_videos_true in H2' as (videos0 & n0 & Hv0 & Hn0 & Hrange).
  apply Media.merge_videos_true in H3'
    as (videos & n & parts & Hvideos & Hlen & Hmerged & Hparts & Hnth).
  assert (Hvv : videos0 = videos) by congruence. rewrite Hvv in *. clear Hvv Hv0.
  assert (Hnn : n0 = n) by congruence. rewrite Hnn in *. clear Hnn Hn0.
  destruct (Media.trim_range_true tools (seq 0 n) v1 v2 (seq_NoDup n 0) Hrange)
    as [Hfiles _].
  apply Narration.generate_script_true in H4'
    as (_ & _ & _ & _ & _ & _ & _ & _ & _ & _ & _ & Hf4).
  pose proof (Narration.generate_audio_voice tools self v4 v5) as Hvoice.
  apply Narration.generate_audio_true in H5' as (_ & _ & Hf5).
  apply Narration.add_audio_true in H6' as (voice & video & Hv5 & Hvideo & Hmux & _).
  apply Narration.add_text_overlay_true in H7' as (src & text & Hsrc & Hfinal & Hcap & _).
  apply Job.upload_to_r2_some in Hup as (joined & body & _ & Hbody & Hurl & Hw').
  rewrite Hf5 in Hvideo by discriminate.
  rewrite Hf4 in Hvideo by discriminate.
  rewrite Hmerged in Hvideo. injection Hvideo as <-.
  rewrite Hmux in Hsrc. injection Hsrc as <-.
  rewrite Hfinal in Hbody. injection Hbody as <-.
  eexists _, parts, voice, text, videos, code, v1, v2, v3, v4, v5, v6, v7.
  split; [repeat (split; [assumption |]); assumption |].
  split; [rewrite Hw'; cbn [w_bucket set_bucket set_tick]; rewrite Hb; reflexivity |].
  split; [exact Hurl |]. split; [reflexivity |]. split; [exact Hvideos |].
  split; [rewrite Hparts; exact Hlen |].
  split.
  { intros k part Hk. destruct (Hnth k part Hk) as [Hlt Hfile].
    destruct (Hfiles k) as (src & D & t & Hsrc & HD & Htrim).
    { apply in_seq. lia. }
    exists src, D, t. repeat (split; [assumption |]). congruence. }
  split; [exact Hv5 |]. split; [| exact Hcap].
  intros s Hs. specialize (Hvoice s H5 Hs). congruence.
Qed.

Lemma X5_witness :
  let tools := Scenario.tools_ok Scenario.ten in
  let w' := snd (process_product tools Scenario.processor 1 Scenario.kettle Fixture.ready) in
  exists object parts voice text,
    w_bucket w' = object :: w_bucket Fixture.ready
    /\ "https://pub-09ecd227972848afb3d86c1f7f2b57b1.r2.dev/merged_videos/20260101_000000_product_1_Kettle.mp4"
       = public_url_prefix ++ o_key object
    /\ o_body object
       = OverlayClip
           (MuxClip (ConcatClip parts target_profile)
                    (AudioTrack voice 48000 2 "aac" "192k") "libx264" "medium" 23)
           (escape_text text) (fontsize_of_length (length text))
    /\ length parts = 1%nat.
Proof.
  intros tools w'.
  assert (H : process_product tools Scenario.processor 1 Scenario.kettle Fixture.ready
              = (Ok (Some "https://pub-09ecd227972848afb3d86c1f7f2b57b1.r2.dev/merged_videos/20260101_000000_product_1_Kettle.mp4"),
                 w')) by (vm_compute; reflexivity).
  destruct (X5_published_video_composition tools Scenario.processor 1 Scenario.kettle
              Fixture.ready w' _ H)
    as (object & parts & voice & text & videos & code & w1 & w2 & w3 & w4 & w5 & w6 & w7
        & _ & Hbucket & Hurl & Hbody & Hvideos & Hlen & _).
  exists object, parts, voice, text.
  split; [exact Hbucket |]. split; [exact Hurl |]. split; [exact Hbody |].
  injection Hvideos as <-. injection Hlen as Hlen. symmetry. exact Hlen.
Defined.

(* ===================================================================== *)
(** * NarrationPipeline and CaptionComposer *)
(* ===================================================================== *)

(** X6.  [generate_script] returns [True] only when ffprobe gave a
    duration other than zero for the merged video, the text-generation
    key is set, and the script, called with the character budget
    [int(duration * 15)], that duration and the job's descriptor,
    exited with status 0.  When the key is not set, or the merged video
    is not there, the stage returns [False] after the probe, without
    starting the script. *)
Theorem X6_script_stage_guards (tools : Tools) (self : VideoProcessor) (w : World) :
  (forall w',
      generate_script tools self w = (Ok true, w') ->
      exists c D L k,
        file_at (Output, "merged_temp.mp4") w = Some c
        /\ probe_duration (ffprobe_format tools (w_tick w) c) = Some D
        /\ Float.eqb D Float.zero = false
        /\ calculate_target_script_length D Float.fifteen = Ok L
        /\ huggingface_api_key self = Some k
        /\ gs_ok (generate_script_sh tools (S (w_tick w))
                    {| sc_environ := w_environ w;
                       sc_endpoint := huggingface_endpoint self;
                       sc_model := huggingface_model self;
                       sc_api_key := k;
                       sc_target_script_length := L;
                       sc_video_duration := D;
                       sc_video_data := w_video_data_json w |}) = true)
  /\ (huggingface_api_key self = None ->
      generate_script tools self w = (Ok false, set_tick (S (w_tick w)) w))
  /\ (file_at (Output, "merged_temp.mp4") w = None ->
      generate_script tools self w = (Ok false, set_tick (S (w_tick w)) w)).
Proof.
  split; [| split].
  - intros w' H.
    apply Narration.generate_script_true in H
      as (c & D & L & k & Hc & _ & HD & Hz & HL & Hk & Hok & _).
    exists c, D, L, k. repeat (split; [assumption |]). exact Hok.
  - apply Narration.generate_script_without_key.
  - intros Hmissing. unfold generate_script, try_except. unfold bind at 1.
    rewrite Narration.get_video_duration_eq, Hmissing. reflexivity.
Qed.

Lemma X6_witness :
  let tools := Scenario.tools_ok Scenario.ten in
  generate_script tools Fixture.processor_without_keys Fixture.ready
  = (Ok false, set_tick (S (w_tick Fixture.ready)) Fixture.ready).
Proof.
  intros tools.
  exact (proj1 (proj2 (X6_script_stage_guards tools Fixture.processor_without_keys
                         Fixture.ready)) eq_refl).
Defined.

(** X7.  [add_text_overlay] returns [True] only after it has written
    the final video: the narrated video with the caption drawn on it at
    the font size of the caption's length, counted in characters.  The
    caption is the text of [scripts/text_overlay.txt] (its bytes read
    as UTF-8, with [\r\n] and [\r] read as [\n]), stripped, whenever
    that file exists, and the product name (a string) only when it
    does not; it holds no NUL character.  No other file is touched. *)
Theorem X7_caption_source
    (tools : Tools) (video_data : json) (w w' : World) :
  add_text_overlay tools video_data w = (Ok true, w') ->
  exists src text,
    file_at (Output, "merged_with_audio.mp4") w = Some src
    /\ file_at (Output, "final_merged_video.mp4") w'
       = Some (OverlayClip src (escape_text text) (fontsize_of_length (length text)))
    /\ match file_at (Scripts, "text_overlay.txt") w with
       | Some c =>
           exists data decoded,
             c = Bytes data /\ Text.read data = Some decoded
             /\ text = Text.strip decoded
       | None =>
           exists info name,
             py_get video_data "productInfo" (JObj []) = Ok info
             /\ py_get info "name" (JStr "Product") = Ok (JStr name)
             /\ text = Text.of_string name
       end
    /\ Text.nul_free (escape_text text) = true
    /\ (forall q, q <> (Output, "final_merged_video.mp4") -> file_at q w' = file_at q w).
Proof.
  exact (Narration.add_text_overlay_true tools video_data w w').
Qed.

Lemma X7_witness :
  let tools := Scenario.tools_ok Scenario.ten in
  let w := snd (add_audio tools
             (snd (generate_audio tools Scenario.processor
                (snd (generate_script tools Scenario.processor
                   (snd (merge_videos tools Scenario.lamp
                      (snd (process_videos tools Scenario.lamp
                         (snd (download_videos tools Scenario.lamp
                                 (set_video_data_json (Some Scenario.lamp)
                                    Fixture.utf8_caption)))))))))))) in
  let w' := snd (add_text_overlay tools Scenario.lamp w) in
  exists src,
    file_at (Output, "final_merged_video.mp4") w'
    = Some (OverlayClip src [272; 232; 110; 32; 110; 103; 7911]%N 38).
Proof.
  intros tools w w'.
  assert (H : add_text_overlay tools Scenario.lamp w = (Ok true, w'))
    by (vm_compute; reflexivity).
  destruct (X7_caption_source tools Scenario.lamp w w' H)
    as (src & text & _ & Hfinal & Hcap & _).
  assert (Hfile : file_at (Scripts, "text_overlay.txt") w
                  = Some (Bytes Fixture.utf8_caption_bytes)) by (vm_compute; reflexivity).
  rewrite Hfile in Hcap. destruct Hcap as (data & decoded & Hdata & Hread & ->).
  injection Hdata as <-.
  assert (Hdecoded : Text.read Fixture.utf8_caption_bytes
                     = Some [272; 232; 110; 32; 110; 103; 7911; 10]%N)
    by (vm_compute; reflexivity).
  rewrite Hdecoded in Hread. injection Hread as <-.
  exists src. exact Hfinal.
Defined.

(* ===================================================================== *)
(** * A sweep without the text-generation key *)
(* ===================================================================== *)

(** X8.  When the text-generation key is not set, no job can succeed:
    [process_product] returns [None] for every job, and a sweep leaves
    the success counter, the bucket and every [merge_status] as they
    were. *)
Theorem X8_no_text_key_no_success (tools : Tools) (self : VideoProcessor) :
  huggingface_api_key self = None ->
  (forall product_id video_data w,
      exists w',
        process_product tools self product_id video_data w = (Ok None, w')
        /\ w_bucket w' = w_bucket w)
  /\ (forall products s w,
         exists s' w',
           run_products tools self s products w = (Ok s', w')
           /\ success_count s' = success_count s
           /\ w_bucket w' = w_bucket w
           /\ map merge_status (w_db w') = map merge_status (w_db w)).
Proof.
  intros Hkey.
  assert (Hpp : forall product_id video_data w,
             exists w',
               process_product tools self product_id video_data w = (Ok None, w')
               /\ w_bucket w' = w_bucket w
               /\ map merge_status (w_db w') = map merge_status (w_db w)).
  { intros product_id video_data w.
    destruct (Frame.process_product_db tools self product_id video_data w)
      as (r & w' & Hpp & Hdb).
    destruct r as [url |].
    - exfalso.
      destruct (Pipeline.process_product_stages tools self _ _ _ _ _ Hpp)
        as (code & v1 & v2 & v3 & v4 & v5 & v6 & v7 & _ & _ & _ & H4 & _).
      rewrite (Narration.generate_script_without_key tools self v3 Hkey) in H4.
      discriminate H4.
    - exists w'. split; [exact Hpp |].
      split; [exact (Job.process_product_unpublished tools self _ _ _ _ Hpp) |].
      destruct Hdb as [-> | [_ ->]]; [reflexivity | apply Store.set_crawl_merge_status]. }
  split.
  { intros product_id video_data w.
    destruct (Hpp product_id video_data w) as (w' & H & Hb & _). eauto. }
  induction products as [| p rest IH]; intros s w; cbn [run_products].
  - exists s, w. repeat split.
  - assert (Hone : exists w1,
               run_product tools self s p w = (Ok (skipped s), w1)
               /\ w_bucket w1 = w_bucket w
               /\ map merge_status (w_db w1) = map merge_status (w_db w)
               \/ run_product tools self s p w = (Ok (failed s), w1)
                  /\ w_bucket w1 = w_bucket w
                  /\ map merge_status (w_db w1) = map merge_status (w_db w)).
    { destruct (Job.run_product_inv tools self s p w) as [[Hskip _] | (r & w1 & Hp & Hout)].
      - exists w. left. auto.
      - destruct (Hpp (fst p) (snd p) (cleaned w)) as (w1' & Hp' & Hb & Hm).
        rewrite Hp in Hp'. injection Hp' as -> <-.
        exists w1. right. split; [exact Hout |]. split; [exact Hb | exact Hm]. }
    destruct Hone as (w1 & [(Hrun & Hb & Hm) | (Hrun & Hb & Hm)]);
      unfold bind; rewrite Hrun;
      [destruct (IH (skipped s) w1) as (s' & w' & Hrest & Hc & Hb' & Hm')
      | destruct (IH (failed s) w1) as (s' & w' & Hrest & Hc & Hb' & Hm')];
      exists s', w'; (split; [exact Hrest |]);
      (split; [exact Hc |]); (split; congruence).
Qed.

Lemma X8_witness :
  let tools := Scenario.tools_ok Scenario.ten in
  exists w',
    process_product tools Fixture.processor_without_keys 1 Scenario.kettle Fixture.ready
    = (Ok None, w')
    /\ w_bucket w' = w_bucket Fixture.ready.
Proof.
  intros tools.
  exact (proj1 (X8_no_text_key_no_success tools Fixture.processor_without_keys eq_refl)
           1 Scenario.kettle Fixture.ready).
Defined.

(* ===================================================================== *)
(** * The table across a run *)
(* ===================================================================== *)

(** X9.  Whatever the tools answer, a run of the program keeps the
    rows of the table in place, with their identifiers and descriptors;
    it never turns [merge_status] back to false, never sets
    [crawl_status] to true, never clears a URL, and a row that becomes
    merged has a URL. *)
Theorem X9_run_only_advances_rows (tools : Tools) (w : World) :
  Forall2 row_step (w_db w) (w_db (snd (main tools w)))
  /\ forall self, Forall2 row_step (w_db w) (w_db (snd (run tools self w))).
Proof.
  split.
  - unfold main.
    destruct (VideoProcessor_init tools (w_environ w)) as [processor | e];
      [| apply Rows.table_step_refl].
    pose proof (Rows.run_step tools processor w) as H.
    destruct (run tools processor w) as [[r | e] w']; exact H.
  - intros self. apply Rows.run_step.
Qed.

(** X10.  When the upload of a job succeeded and the statement that
    records it is refused, the job is counted as failed: the table is
    as it was before the round, so the job stays pending, while the
    object stays in the bucket. *)
Theorem X10_refused_status_write_leaves_upload
    (tools : Tools) (self : VideoProcessor)
    (s : Summary) (p : Z * json) (w w1 : World) (url : string) :
  process_product tools self (fst p) (snd p) (cleaned w) = (Ok (Some url), w1) ->
  db_statement_ok tools (w_tick w1) (db_url self) = false ->
  exists w' object,
    run_product tools self s p w = (Ok (failed s), w')
    /\ w_db w' = w_db w
    /\ w_bucket w' = object :: w_bucket w
    /\ url = public_url_prefix ++ o_key object.
Proof.
  intros Hpp Hdown.
  destruct (Job.run_product_inv tools self s p w) as [[_ Hnone] | (r & w1' & Hpp' & Hout)].
  { rewrite Hnone in Hpp. discriminate Hpp. }
  rewrite Hpp in Hpp'. injection Hpp' as <- <-.
  assert (Hdb : w_db w1 = w_db w).
  { destruct (Frame.process_product_db tools self (fst p) (snd p) (cleaned w))
      as (r' & w1' & Hpp' & Hdb).
    rewrite Hpp in Hpp'. injection Hpp' as <- <-.
    destruct Hdb as [Hdb | [Hr _]]; [exact Hdb | discriminate Hr]. }
  destruct (Pipeline.process_product_stages tools self _ _ _ _ _ Hpp)
    as (code & v1 & v2 & v3 & v4 & v5 & v6 & v7 & H1 & H2 & H3 & H4 & H5 & H6 & H7 & Hup).
  pose proof (Footprint.stages_keep w_bucket Job.bucket_set_dir Job.bucket_set_tick
                tools self _ _ _ _ _ _ _ _ _ _ _ _ _ _ _ _ H1 H2 H3 H4 H5 H6 H7) as Hb.
  apply Job.upload_to_r2_some in Hup as (joined & body & _ & _ & Hurl & Hw1).
  assert (Hne : String.eqb url "" = false) by (rewrite Hurl; reflexivity).
  rewrite Hne, Hdown in Hout.
  eexists _, _. split; [exact Hout |].
  split; [exact Hdb |].
  split.
  - rewrite Hw1. cbn [w_bucket set_tick set_bucket]. rewrite Hb. reflexivity.
  - exact Hurl.
Qed.

Lemma X10_witness :
  let tools := Fixture.tools_store_down_from 0 in
  let w1 := snd (process_product tools Scenario.processor 1 Scenario.kettle
                   (cleaned Fixture.ready)) in
  exists w' object,
    run_product tools Scenario.processor Fixture.no_jobs_done (1, Scenario.kettle)
      Fixture.ready
    = (Ok (failed Fixture.no_jobs_done), w')
    /\ w_db w' = w_db Fixture.ready
    /\ w_bucket w' = object :: w_bucket Fixture.ready
    /\ "https://pub-09ecd227972848afb3d86c1f7f2b57b1.r2.dev/merged_videos/20260101_000000_product_1_Kettle.mp4"
       = public_url_prefix ++ o_key object.
Proof.
  intros tools w1.
  assert (H : process_product tools Scenario.processor 1 Scenario.kettle
                (cleaned Fixture.ready)
              = (Ok (Some "https://pub-09ecd227972848afb3d86c1f7f2b57b1.r2.dev/merged_videos/20260101_000000_product_1_Kettle.mp4"),
                 w1)) by (vm_compute; reflexivity).
  exact (X10_refused_status_write_leaves_upload tools Scenario.processor
           Fixture.no_jobs_done (1, Scenario.kettle) Fixture.ready w1 _ H eq_refl).
Defined.



(* ===================================================================== *)
(** * Downloader: the files of a successful download *)
(* ===================================================================== *)

(** X13.  When [download_videos] reports success it reports no error
    code, and for every entry of [videos], at its index [k], the file
    [video_k.mp4] is in the videos directory, is not empty and was
    accepted by ffprobe; no file other than these has been created,
    changed or removed. *)
Theorem X13_download_success_leaves_checked_files
    (tools : Tools) (video_data : json) (w w' : World) (code : option string) :
  download_videos tools video_data w = (Ok (true, code), w') ->
  code = None
  /\ exists videos items,
       py_get video_data "videos" (JArr []) = Ok videos
       /\ py_iter videos = Ok items
       /\ (forall k, (k < length items)%nat -> downloaded tools (video_path k) w')
       /\ (forall q, (forall k, (k < length items)%nat -> q <> video_path k) ->
                     file_at q w' = file_at q w).
Proof.
  unfold download_videos, try_except.
  unfold bind at 1, lift at 1.
  destruct (py_get video_data "videos" (JArr [])) as [videos | e]; [| discriminate].
  unfold bind at 1, lift at 1.
  destruct (py_iter videos) as [items | e] eqn:Hiter; [| discriminate].
  destruct (download_each tools 0 items w) as [[r | e] w1] eqn:Heach; [| discriminate].
  intros [= -> <-].
  destruct (Fetch.download_each_done tools items 0 w w1 code Heach)
    as (Hcode & Hfiles & Hframe).
  split; [exact Hcode |]. exists videos, items.
  split; [reflexivity |]. split; [exact Hiter |]. split; assumption.
Qed.

Lemma X13_witness :
  let tools := Scenario.tools_ok Scenario.ten in
  let w' := snd (download_videos tools Scenario.kettle Fixture.ready) in
  downloaded tools (video_path 0) w'.
Proof.
  intros tools w'.
  assert (H : download_videos tools Scenario.kettle Fixture.ready = (Ok (true, None), w'))
    by (vm_compute; reflexivity).
  destruct (X13_download_success_leaves_checked_files tools Scenario.kettle
              Fixture.ready w' None H) as (_ & videos & items & Hv & Hi & Hfiles & _).
  injection Hv as <-. injection Hi as <-.
  apply (Hfiles 0%nat). cbn. lia.
Defined.

(* ===================================================================== *)
(** * CaptionComposer: line wrapping and escaping *)
(* ===================================================================== *)

(** X14.  [_wrap_text] raises [ZeroDivisionError] exactly when [lines]
    is zero.  Otherwise it returns [max(lines, 1)] lines joined by a
    backslash and [n]; together the lines hold the characters of the
    text that are not white space, all of them and in their order; and
    for one line or fewer the result is the stripped text. *)
Theorem X14_wrap_text_keeps_the_text (text : string) (lines : Z) :
  (_wrap_text text lines = ZeroDivisionError <-> lines = 0)
  /\ (lines <> 0 ->
      exists parts,
        _wrap_text text lines = Wrapped (str_join (backslash ++ "n") parts)
        /\ length parts = Z.to_nat (Z.max lines 1)
        /\ str_join "" (map visible parts) = visible text)
  /\ (lines <> 0 -> lines <= 1 -> _wrap_text text lines = Wrapped (Str.strip text)).
Proof.
  assert (Hfrom : py_slice_from text 0 = text).
  { unfold py_slice_from. cbn [Z.to_nat]. rewrite Nat.sub_0_r. apply Wrap.substring_all. }
  unfold _wrap_text. cbv zeta.
  destruct (lines =? 0) eqn:Hz.
  { apply Z.eqb_eq in Hz. split; [tauto |]. split; intros; contradiction. }
  apply Z.eqb_neq in Hz. split; [split; [discriminate | contradiction] |]. split.
  - intros _. eexists. split; [reflexivity |].
    split; [rewrite Wrap.wrap_rounds_length; lia |].
    destruct (Z_le_gt_dec 1 lines) as [Hpos | Hneg].
    + rewrite Wrap.wrap_rounds_visible; [| apply Z.div_pos; lia | lia].
      rewrite Hfrom. reflexivity.
    + replace (Z.to_nat (lines - 1)) with 0%nat by lia.
      cbn [wrap_rounds map str_join]. rewrite Wrap.visible_strip, Hfrom. reflexivity.
  - intros _ Hle. replace (Z.to_nat (lines - 1)) with 0%nat by lia.
    cbn [wrap_rounds str_join]. rewrite Hfrom. reflexivity.
Qed.

Lemma X14_witness :
  exists parts,
    _wrap_text "Stainless steel kettle, 2 litres" 2
    = Wrapped (str_join (backslash ++ "n") parts)
    /\ length parts = 2%nat
    /\ str_join "" (map visible parts) = "Stainlesssteelkettle,2litres".
Proof.
  apply (proj1 (proj2 (X14_wrap_text_keeps_the_text "Stainless steel kettle, 2 litres" 2))).
  discriminate.
Defined.

(** X15.  In the caption as it is handed to ffmpeg every colon comes
    right after a backslash; each quote of the text has become four
    characters and each colon two, nothing else has been added or
    removed; and a text without quote and colon is handed over as it
    is. *)
Theorem X15_escape_text (text : Text.t) :
  colons_escaped false (escape_text text) = true
  /\ length (escape_text text)
     = (length text + 3 * count_char Text.quote text + count_char Text.colon text)%nat
  /\ (count_char Text.quote text = 0%nat -> count_char Text.colon text = 0%nat ->
      escape_text text = text).
Proof.
  unfold escape_text.
  set (quoted := [Text.quote; Text.backslash; Text.quote; Text.quote]).
  split; [apply Escape.replace_colon_escaped |]. split.
  - pose proof (Escape.replace_length Text.colon [Text.backslash; Text.colon]
                  (Text.replace Text.quote quoted text)) as Houter.
    pose proof (Escape.replace_length Text.quote quoted text) as Hinner.
    rewrite (Escape.replace_count Text.quote Text.colon quoted text eq_refl eq_refl)
      in Houter.
    change (length [Text.backslash; Text.colon]) with 2%nat in Houter.
    change (length quoted) with 4%nat in Hinner.
    lia.
  - intros Hq Hc.
    rewrite (Escape.replace_absent Text.quote quoted text Hq).
    apply Escape.replace_absent. exact Hc.
Qed.

Lemma X15_witness :
  escape_text (Text.of_string "Kettle 2L") = Text.of_string "Kettle 2L".
Proof.
  apply (proj2 (proj2 (X15_escape_text (Text.of_string "Kettle 2L")))); reflexivity.
Defined.

(* ===================================================================== *)
(** * Durations that are no positive number *)
(* ===================================================================== *)

(** X16.  [int] truncates toward zero: for a negative duration and a
    positive rate the budget is the ceiling of the product, not its
    floor, so that it is never above zero; a product below the range of
    the floats raises [OverflowError]. *)
Theorem X16_budget_of_negative_duration (d r : Float.t) :
  Float.ltb d Float.zero = true ->
  Float.ltb Float.zero r = true ->
  calculate_target_script_length d r
  = match Float.value (Float.mul d r) with
    | Some q => Ok (Qceiling q)
    | None => Raise OverflowError
    end
  /\ forall n, calculate_target_script_length d r = Ok n -> n <= 0.
Proof.
  intros Hd Hr. pose proof (Truncation.mul_negative d r Hd Hr) as Hsign.
  unfold calculate_target_script_length. split.
  - apply Truncation.to_int_ceiling. exact Hsign.
  - intros n. apply Truncation.to_int_nonpositive. exact Hsign.
Qed.

Lemma X16_witness :
  calculate_target_script_length Fixture.minus_two_and_a_half (Float.of_Z 1) = Ok (-2).
Proof.
  assert (Hd : Float.ltb Fixture.minus_two_and_a_half Float.zero = true)
    by (vm_compute; reflexivity).
  assert (Hr : Float.ltb Float.zero (Float.of_Z 1) = true) by (vm_compute; reflexivity).
  rewrite (proj1 (X16_budget_of_negative_duration Fixture.minus_two_and_a_half
                    (Float.of_Z 1) Hd Hr)).
  vm_compute. reflexivity.
Defined.

(** X17.  When ffprobe reports a duration of the merged video that is
    NaN, infinite or zero, [generate_script] returns [False] right
    after the probe: the script is not started and nothing is
    written. *)
Theorem X17_unusable_duration_stops_the_script
    (tools : Tools) (self : VideoProcessor) (w : World) (c : content) (D : Float.t) :
  file_at (Output, "merged_temp.mp4") w = Some c ->
  probe_ok (ffprobe_format tools (w_tick w) c) = true ->
  probe_duration (ffprobe_format tools (w_tick w) c) = Some D ->
  D = S754_nan \/ (exists s, D = S754_infinity s) \/ (exists s, D = S754_zero s) ->
  generate_script tools self w = (Ok false, set_tick (S (w_tick w)) w).
Proof.
  intros Hfile Hok HD Hcase.
  unfold generate_script, try_except. unfold bind at 1.
  rewrite Narration.get_video_duration_eq, Hfile, Hok, HD. cbn [default].
  destruct Hcase as [-> | [[s ->] | [s ->]]].
  - reflexivity.
  - destruct s; reflexivity.
  - destruct s; reflexivity.
Qed.

Lemma X17_witness :
  let tools := Scenario.tools_ok S754_nan in
  let w := Fixture.merged S754_nan in
  generate_script tools Scenario.processor w = (Ok false, set_tick (S (w_tick w)) w).
Proof.
  intros tools w.
  assert (Hfile : exists c, file_at (Output, "merged_temp.mp4") w = Some c)
    by (vm_compute; eexists; reflexivity).
  destruct Hfile as [c Hfile].
  exact (X17_unusable_duration_stops_the_script tools Scenario.processor w c S754_nan
           Hfile eq_refl eq_refl (or_introl eq_refl)).
Defined.

(* ===================================================================== *)
(** * A video entry without a usable URL *)
(* ===================================================================== *)

(** X18.  When the first entry of [videos] has no usable URL (it is no
    object, has no [url], or its [url] is no string or holds a NUL
    character), [download_videos] fails without an error code and
    without having started curl or ffprobe: the table and the bucket
    are untouched. *)
Theorem X18_entry_without_url
    (tools : Tools) (video_data video : json) (rest : list json) (w : World) :
  py_get video_data "videos" (JArr []) = Ok (JArr (video :: rest)) ->
  (forall u, py_get video "url" JNull = Ok (JStr u) -> nul_free u = false) ->
  exists w',
    download_videos tools video_data w = (Ok (false, None), w')
    /\ w_tick w' = w_tick w
    /\ w_db w' = w_db w
    /\ w_bucket w' = w_bucket w.
Proof.
  intros Hvideos Hurl.
  unfold download_videos, try_except. unfold bind at 1, lift at 1. rewrite Hvideos.
  unfold bind at 1, lift at 1. cbn [py_iter download_each].
  unfold bind at 1, lift at 1.
  destruct (py_get video "url" JNull) as [url | e]; [| exists w; auto].
  assert (Hattempt : forall last w0,
             download_attempt tools url (video_path 0) last w0 = (Ok (last, false), w0)).
  { intros last w0. unfold download_attempt.
    destruct url as [| | | | u | |]; try reflexivity.
    rewrite (Hurl u eq_refl). reflexivity. }
  cbn [seq max_retries download_retries Nat.ltb Nat.leb Nat.sub].
  unfold bind at 1. unfold bind at 1. rewrite Hattempt. cbn [fst snd].
  rewrite Download.discard_then. unfold bind at 1. rewrite Hattempt. cbn [fst snd].
  rewrite Download.discard_then. unfold bind at 1. rewrite Hattempt. cbn [fst snd ret].
  eexists. split; [reflexivity |].
  destruct (Fetch.discard_partial_rest (video_path 0) w) as (Ht & Hd & Hb).
  destruct (Fetch.discard_partial_rest (video_path 0) (discard_partial (video_path 0) w))
    as (Ht' & Hd' & Hb').
  split; [congruence |]. split; congruence.
Qed.

Lemma X18_witness :
  let tools := Scenario.tools_ok Scenario.ten in
  let video_data := JObj [("videos", JArr [JObj [("src", JStr "https://cdn/kettle.mp4")]])] in
  exists w',
    download_videos tools video_data Fixture.ready = (Ok (false, None), w')
    /\ w_tick w' = w_tick Fixture.ready
    /\ w_db w' = w_db Fixture.ready
    /\ w_bucket w' = w_bucket Fixture.ready.
Proof.
  intros tools video_data.
  apply (X18_entry_without_url tools video_data
           (JObj [("src", JStr "https://cdn/kettle.mp4")]) [] Fixture.ready eq_refl).
  intros u H. discriminate H.
Defined.

(* ===================================================================== *)
(** * What the cleanup leaves alone *)
(* ===================================================================== *)


(* ===================================================================== *)
(** * A caption left in the scripts directory *)
(* ===================================================================== *)

(** X20.  When the script writes no overlay text, a job that succeeds
    is published with the caption that [scripts/text_overlay.txt] held
    before the job began, whatever the product is: the cleanup before
    the job does not remove that file, no stage before the caption
    stage changes it, and the caption stage prefers it to the product
    name.  The caption is the text of that file, read as UTF-8 and
    stripped.  This is how the caption of an earlier job reaches the
    video of a later one. *)
Theorem X20_caption_left_by_an_earlier_job
    (tools : Tools) (self : VideoProcessor)
    (product_id : Z) (video_data : json) (w w' : World) (url data : string) :
  (forall n call, gs_overlay (generate_script_sh tools n call) = None) ->
  file_at (Scripts, "text_overlay.txt") w = Some (Bytes data) ->
  process_product tools self product_id video_data (cleaned w) = (Ok (Some url), w') ->
  exists object src decoded,
    w_bucket w' = object :: w_bucket w
    /\ url = public_url_prefix ++ o_key object
    /\ Text.read data = Some decoded
    /\ o_body object
       = OverlayClip src (escape_text (Text.strip decoded))
                     (fontsize_of_length (length (Text.strip decoded))).
Proof.
  intros Hsilent Hold Hpp.
  destruct (Pipeline.process_product_stages tools self _ _ _ _ _ Hpp)
    as (code & v1 & v2 & v3 & v4 & v5 & v6 & v7 & H1 & H2 & H3 & H4 & H5 & H6 & H7 & Hup).
  pose proof (Footprint.stages_keep w_bucket Job.bucket_set_dir Job.bucket_set_tick
                tools self _ _ _ _ _ _ _ _ _ _ _ _ _ _ _ _ H1 H2 H3 H4 H5 H6 H7) as Hb.
  pose proof (Scripts.scripts_file_kept tools self video_data (Scripts, "text_overlay.txt")
                _ _ _ _ _ _ _ code Hsilent eq_refl ltac:(discriminate)
                H1 H2 H3 H4 H5 H6) as Hkept.
  change (file_at (Scripts, "text_overlay.txt")
            (set_video_data_json (Some video_data) (cleaned w)))
    with (file_at (Scripts, "text_overlay.txt") w) in Hkept.
  rewrite Hold in Hkept.
  apply Narration.add_text_overlay_true in H7 as (src & text & _ & Hfinal & Hcap & _).
  rewrite Hkept in Hcap. destruct Hcap as (data' & decoded & [= <-] & Hread & ->).
  apply Job.upload_to_r2_some in Hup as (joined & body & _ & Hbody & Hurl & Hw').
  rewrite Hfinal in Hbody. injection Hbody as <-.
  eexists _, src, decoded. split; [| split; [| split]].
  - rewrite Hw'. cbn [w_bucket set_bucket set_tick]. rewrite Hb. reflexivity.
  - exact Hurl.
  - exact Hread.
  - reflexivity.
Qed.

Lemma X20_witness :
  let tools := Fixture.tools_without_overlay in
  let w := Fixture.with_old_caption in
  let w' := snd (process_product tools Scenario.processor 2 Scenario.lamp (cleaned w)) in
  exists object src,
    w_bucket w' = object :: w_bucket w
    /\ "https://pub-09ecd227972848afb3d86c1f7f2b57b1.r2.dev/merged_videos/20260101_000000_product_2_Lamp.mp4"
       = public_url_prefix ++ o_key object
    /\ o_body object = OverlayClip src (Text.of_string "Boils in a minute") 38.
Proof.
  intros tools w w'.
  assert (H : process_product tools Scenario.processor 2 Scenario.lamp (cleaned w)
              = (Ok (Some "https://pub-09ecd227972848afb3d86c1f7f2b57b1.r2.dev/merged_videos/20260101_000000_product_2_Lamp.mp4"),
                 w')) by (vm_compute; reflexivity).
  assert (Hold : file_at (Scripts, "text_overlay.txt") w = Some (Bytes "Boils in a minute"))
    by (vm_compute; reflexivity).
  destruct (X20_caption_left_by_an_earlier_job tools Scenario.processor 2 Scenario.lamp
              w w' _ "Boils in a minute" (fun _ _ => eq_refl) Hold H)
    as (object & src & decoded & Hbucket & Hurl & Hread & Hbody).
  assert (Hdecoded : Text.read "Boils in a minute" = Some (Text.of_string "Boils in a minute"))
    by (vm_compute; reflexivity).
  rewrite Hdecoded in Hread. injection Hread as <-.
  exists object, src. split; [exact Hbucket |]. split; [exact Hurl |]. exact Hbody.
Defined.
